(** * The recipe dataset pipeline of [create_dataset.py]

    A shallow embedding of the five stages of [Data Manipulation/create_dataset.py]
    (interaction filter, recipe processor, ingredient name mapper, raw recipe
    joiner, nutrition expander) and of its [main], over a small model of the
    pandas operations the script calls, followed by the properties of the
    pipeline's specification.

    Conventions of the model.
    - Text is [string]; the Python string methods are modelled on ASCII text.
    - A float is the rational a binary64 number stands for: [float] rounds the
      decimal text to the nearest such number, ties to even, and gives an
      infinity beyond the range; the sign of zero is not modelled.
    - A table cell keeps its scalar: the column-wide dtype promotion of pandas
      (an int64 column becoming float64 when a NaN enters it) is not modelled,
      so [SInt z] in a promoted column stands for the float [z.0].
    - Integers that pandas stores are 64 bits wide: [astype(int)] keeps an
      integer of the int64 range and wraps one of the uint64 range. A column
      read by [read_csv] holds no other integer (longer digits stay text,
      which the cast refuses with OverflowError); in a frame built from
      Python lists a longer integer is a Python object, which the cast
      refuses as well.
    - The cast of a column reports a missing value before any other
      failure, as pandas does for a float64 column; in a column of objects
      pandas converts cell by cell, so there the model differs when the
      text of an integer beyond int64 stands before the missing value.
    - [read_csv] takes the parsed table of a file as given; it always returns
      a frame with a fresh [RangeIndex]. *)

From Stdlib Require Import ZArith QArith Ascii String List Lia.
From stdpp Require Import base decidable option list gmap strings pretty sorting.

Local Open Scope Z_scope.

(** ** Exceptions and results *)

Inductive exn : Type :=
| FileNotFoundError
| KeyError
| ValueError
| IndexError
| TypeError
| AttributeError
| OverflowError
| InvalidIndexError.

Inductive result (A : Type) : Type :=
| Ok (a : A)
| Err (e : exn).
Arguments Ok {A} a.
Arguments Err {A} e.

Definition rbind {A B} (r : result A) (k : A → result B) : result B :=
  match r with
  | Ok a => k a
  | Err e => Err e
  end.

Declare Scope res_scope.
Delimit Scope res_scope with res.
Notation "'let?' x := r 'in' k" := (rbind r (λ x, k))
  (at level 10, x pattern, r at level 100, k at level 200) : res_scope.
Local Open Scope res_scope.

Fixpoint rmap {A B} (f : A → result B) (l : list A) : result (list B) :=
  match l with
  | [] => Ok []
  | a :: l' =>
      let? b := f a in
      let? bs := rmap f l' in
      Ok (b :: bs)
  end.

Definition is_err {A} (r : result A) : Prop := ∃ e, r = Err e.

(** ** Python text operations *)

Module Py.

Definition chars (s : string) : list ascii := list_ascii_of_string s.
Definition text (l : list ascii) : string := string_of_list_ascii l.

Definition code (c : ascii) : Z := Z.of_nat (nat_of_ascii c).

(** [str.isspace] on ASCII: tab to carriage return, the four separators
    28..31, and the space. *)
Definition is_space (c : ascii) : bool :=
  let n := code c in
  ((9 <=? n) && (n <=? 13)) || ((28 <=? n) && (n <=? 31)) || (n =? 32).

(** The blanks that [int] and [float] skip around a number: the C
    [isspace] on ASCII, tab to carriage return and the space. The
    separators 28..31 are blanks for [str.strip] only. *)
Definition is_c_space (c : ascii) : bool :=
  let n := code c in
  ((9 <=? n) && (n <=? 13)) || (n =? 32).

Definition is_digit (c : ascii) : bool :=
  let n := code c in (48 <=? n) && (n <=? 57).

Definition digit_val (c : ascii) : Z := code c - 48.

Definition ascii_eqb (a b : ascii) : bool := Ascii.eqb a b.

Definition mem_char (c : ascii) (cs : list ascii) : bool :=
  existsb (ascii_eqb c) cs.

Fixpoint lstrip_by (p : ascii → bool) (s : list ascii) : list ascii :=
  match s with
  | c :: s' => if p c then lstrip_by p s' else s
  | [] => []
  end.

Definition strip_by (p : ascii → bool) (s : list ascii) : list ascii :=
  rev (lstrip_by p (rev (lstrip_by p s))).

(** [s.strip(cs)]: leading and trailing characters that belong to [cs] go. *)
Definition strip_chars (cs : string) (s : string) : string :=
  text (strip_by (λ c, mem_char c (chars cs)) (chars s)).

(** [s.strip()] *)
Definition strip (s : string) : string :=
  text (strip_by is_space (chars s)).

Fixpoint starts_with (p s : list ascii) : bool :=
  match p, s with
  | [], _ => true
  | a :: p', b :: s' => ascii_eqb a b && starts_with p' s'
  | _ :: _, [] => false
  end.

(** The scan of [s.split(sep)] for a non-empty [sep]: [skip] counts the
    characters of a separator still to be passed over, [cur] is the piece
    being read, reversed. *)
Fixpoint split_go (sep : list ascii) (skip : nat) (cur : list ascii)
    (s : list ascii) : list (list ascii) :=
  match s with
  | [] => [rev cur]
  | c :: s' =>
      match skip with
      | S k => split_go sep k cur s'
      | O =>
          if starts_with sep s
          then rev cur :: split_go sep (length sep - 1) [] s'
          else split_go sep 0 (c :: cur) s'
      end
  end.

(** [s.split(sep)]; the script only calls it with [","] and [", "]. *)
Definition split (sep : string) (s : string) : list string :=
  text <$> split_go (chars sep) 0 [] (chars s).

(** Decimal digits with single underscores between digits, as [int] reads
    them; [prev] tells whether the character before was a digit. *)
Fixpoint int_digits (acc : Z) (prev : bool) (s : list ascii) : option Z :=
  match s with
  | [] => if prev then Some acc else None
  | c :: s' =>
      if is_digit c then int_digits (10 * acc + digit_val c) true s'
      else if ascii_eqb c "_" then
        (if prev then int_digits acc false s' else None)
      else None
  end.

Definition signed (s : list ascii) : bool * list ascii :=
  match s with
  | c :: s' =>
      if ascii_eqb c "-" then (true, s')
      else if ascii_eqb c "+" then (false, s')
      else (false, s)
  | [] => (false, [])
  end.

(** [int(s)] for a text [s] *)
Definition int (s : string) : result Z :=
  let '(neg, ds) := signed (strip_by is_c_space (chars s)) in
  match int_digits 0 false ds with
  | Some n => Ok (if neg then - n else n)
  | None => Err ValueError
  end.

Definition lower (c : ascii) : ascii :=
  let n := code c in
  if (65 <=? n) && (n <=? 90) then ascii_of_nat (Z.to_nat (n + 32)) else c.

(** One [digitpart] of the float grammar, [digit (["_"] digit)*], read
    greedily: the value of the digits, how many there were, and the rest. *)
Fixpoint digitpart (acc : Z) (n : nat) (s : list ascii)
    : Z * nat * list ascii :=
  match s with
  | [] => (acc, n, [])
  | c :: s' =>
      if is_digit c then digitpart (10 * acc + digit_val c) (S n) s'
      else if ascii_eqb c "_" then
        match n, s' with
        | S _, d :: _ => if is_digit d then digitpart acc n s' else (acc, n, s)
        | _, _ => (acc, n, s)
        end
      else (acc, n, s)
  end.

(** Mantissa and number of fraction digits of
    [digitpart ["." [digitpart]] | "." digitpart], and the rest. *)
Definition float_mantissa (s : list ascii) : option (Z * nat * list ascii) :=
  let '(ip, ni, r1) := digitpart 0 0 s in
  match r1 with
  | c :: r2 =>
      if ascii_eqb c "." then
        let '(fp, nf, r3) := digitpart 0 0 r2 in
        match ni, nf with
        | O, O => None
        | _, _ => Some (ip * 10 ^ Z.of_nat nf + fp, nf, r3)
        end
      else match ni with O => None | S _ => Some (ip, O, r1) end
  | [] => match ni with O => None | S _ => Some (ip, O, []) end
  end.

(** The optional exponent [("e" | "E") [sign] digitpart] up to the end *)
Definition float_exponent (s : list ascii) : option Z :=
  match s with
  | [] => Some 0
  | c :: s' =>
      if ascii_eqb (lower c) "e" then
        let '(neg, ds) := signed s' in
        match digitpart 0 0 ds with
        | (e, S _, []) => Some (if neg then - e else e)
        | _ => None
        end
      else None
  end.

(** The rational [m * 10 ^ e], in lowest terms *)
Definition decimal (m e : Z) : Q :=
  Qred (if 0 <=? e then Qmake (m * 10 ^ e) 1
        else Qmake m (Z.to_pos (10 ^ (- e)))).

Inductive float : Type :=
| Fnan
| Finf (neg : bool)
| Fnum (q : Q).

(** [n / d] for [0 < d], rounded to the nearest integer, ties to even *)
Definition round_even (n d : Z) : Z :=
  let q := n / d in
  let r := n mod d in
  if 2 * r <? d then q
  else if d <? 2 * r then q + 1
  else if Z.even q then q else q + 1.

(** The binary64 number nearest to the rational [q], ties to even: 53
    bits of mantissa, the smallest unit [2 ^ -1074], and an infinity from
    [2 ^ 1024] on. *)
Definition binary64 (q : Q) : float :=
  let n := Z.abs (Qnum q) in
  let d := Zpos (Qden q) in
  if n =? 0 then Fnum 0
  else
    let e0 := Z.log2 n - Z.log2 d in
    let ge := if 0 <=? e0 then d * 2 ^ e0 <=? n else d <=? n * 2 ^ (- e0) in
    let e := if ge then e0 else e0 - 1 in
    let x := Z.max (e - 52) (- 1074) in
    let m := if 0 <=? x then round_even n (d * 2 ^ x)
             else round_even (n * 2 ^ (- x)) d in
    let neg := Qnum q <? 0 in
    let sm := if neg then - m else m in
    if (0 <=? x) && (2 ^ 1024 <=? m * 2 ^ x) then Finf neg
    else Fnum (Qred (if 0 <=? x then Qmake (sm * 2 ^ x) 1
                     else Qmake sm (Z.to_pos (2 ^ (- x))))).

(** [float(s)] for a text [s] *)
Definition float_of (s : string) : result float :=
  let '(neg, body) := signed (strip_by is_c_space (chars s)) in
  let word := text (lower <$> body) in
  if String.eqb word "nan" then Ok Fnan
  else if String.eqb word "inf" || String.eqb word "infinity" then Ok (Finf neg)
  else
    match float_mantissa body with
    | Some (m, nf, rest) =>
        match float_exponent rest with
        | Some e =>
            Ok (binary64 (decimal (if neg then - m else m) (e - Z.of_nat nf)))
        | None => Err ValueError
        end
    | None => Err ValueError
    end.

End Py.

(** ** Cells, labels and frames *)

(** A scalar of a table: a missing value, an integer, a finite float, an
    infinity, or a text. Column and row labels are scalars too. *)
Inductive scalar : Type :=
| SNaN
| SInt (z : Z)
| SFloat (q : Q)
| SInf (neg : bool)
| SStr (s : string).

(** A cell holds a scalar or, after a column was parsed, a Python list. *)
Inductive cell : Type :=
| Sc (s : scalar)
| Lst (l : list scalar).

Abbreviation NaN := (Sc SNaN).
Abbreviation label := scalar (only parsing).

#[global] Instance Q_eq_dec : EqDecision Q.
Proof. solve_decision. Defined.
#[global] Instance scalar_eq_dec : EqDecision scalar.
Proof. solve_decision. Defined.
#[global] Instance cell_eq_dec : EqDecision cell.
Proof. solve_decision. Defined.
#[global] Instance exn_eq_dec : EqDecision exn.
Proof. solve_decision. Defined.

Definition of_float (f : Py.float) : scalar :=
  match f with
  | Py.Fnan => SNaN
  | Py.Finf neg => SInf neg
  | Py.Fnum q => SFloat q
  end.

(** The key under which a hash table of pandas files a scalar: a float with
    an integral value is the same key as that integer, and NaN is one key. *)
Definition key_of (s : scalar) : scalar :=
  match s with
  | SFloat q =>
      let r := Qred q in
      if (Zpos (Qden r) =? 1) then SInt (Qnum r) else SFloat r
  | _ => s
  end.

Definition same_key (a b : scalar) : bool := bool_decide (key_of a = key_of b).

Definition is_nan (s : scalar) : bool :=
  match s with SNaN => true | _ => false end.

(** Python's [a == b] on scalars: as [same_key], but NaN equals nothing. *)
Definition py_eq (a b : scalar) : bool := negb (is_nan a) && same_key a b.

(** [x in values] for a hashed collection, as [isin] uses it *)
Definition isin (x : scalar) (values : list scalar) : bool :=
  existsb (same_key x) values.

Definition isna (c : cell) : bool :=
  match c with Sc s => is_nan s | Lst _ => false end.

(** [str(x)] for a label, as [add_prefix] and the merge suffixes use it.
    Float labels do not occur in the frames of the script; the text of a
    float is given for integral values only. *)
Definition label_str (l : label) : string :=
  match key_of l with
  | SInt z => match l with SInt _ => pretty z | _ => pretty z +:+ ".0" end
  | SStr s => s
  | SNaN => "nan"
  | SInf true => "-inf"
  | SInf false => "inf"
  | SFloat _ => ""
  end.

(** [int(x)] for a label *)
Definition label_int (l : label) : result Z :=
  match l with
  | SInt z => Ok z
  | SFloat q => Ok (Z.quot (Qnum q) (Zpos (Qden q)))
  | SStr s => Py.int s
  | SNaN => Err ValueError
  | SInf _ => Err OverflowError
  end.

(** A frame, row by row: [index] gives the label of each row, [columns] the
    label of each column, and every row has one cell per column. *)
Record DataFrame : Type := mkDF {
  index : list Z;
  columns : list label;
  rows : list (list cell)
}.

Definition RangeIndex (n : nat) : list Z := Z.of_nat <$> seq 0 n.

Definition shape (df : DataFrame) : nat * nat :=
  (length (rows df), length (columns df)).

(** What a CSV file holds once parsed: the names of the header and the
    scalars of the lines under it. *)
Record CsvTable : Type := mkCsv {
  header : list string;
  records : list (list scalar)
}.

Module Pd.

(** [keep mask l]: the elements of [l] whose flag in [mask] is set *)
Fixpoint keep {A} (mask : list bool) (l : list A) : list A :=
  match mask, l with
  | b :: mask', a :: l' => if b then a :: keep mask' l' else keep mask' l'
  | _, _ => []
  end.

(** [df[mask]] for a boolean mask: the selected rows keep their labels. *)
Definition select (mask : list bool) (df : DataFrame) : DataFrame :=
  {| index := keep mask (index df);
     columns := columns df;
     rows := keep mask (rows df) |}.

(** Positions of the columns named [l] *)
Fixpoint positions_from (i : nat) (l : label) (cs : list label) : list nat :=
  match cs with
  | [] => []
  | c :: cs' =>
      if same_key c l then i :: positions_from (S i) l cs'
      else positions_from (S i) l cs'
  end.

Definition positions (l : label) (df : DataFrame) : list nat :=
  positions_from 0 l (columns df).

Definition has_column (l : label) (df : DataFrame) : bool :=
  isin l (columns df).

(** [df[l]], the cells of the column named [l]. When two columns carry the
    name pandas hands back a sub-frame, on which none of the Series
    operations of the script is meaningful: the model raises there. *)
Definition col (l : label) (df : DataFrame) : result (list cell) :=
  match positions l df with
  | [] => Err KeyError
  | [i] => Ok ((λ row, nth i row NaN) <$> rows df)
  | _ :: _ :: _ => Err ValueError
  end.

(** A key column must hold hashable values: a list in it is a TypeError. *)
Definition hashable (c : cell) : result scalar :=
  match c with
  | Sc s => Ok s
  | Lst _ => Err TypeError
  end.

Definition keys (l : label) (df : DataFrame) : result (list scalar) :=
  let? cs := col l df in rmap hashable cs.

Fixpoint set_nth {A} (i : nat) (x : A) (l : list A) : list A :=
  match i, l with
  | O, _ :: l' => x :: l'
  | S i', a :: l' => a :: set_nth i' x l'
  | _, [] => []
  end.

Fixpoint zip_with_rows (f : cell → list cell → list cell)
    (vals : list cell) (rs : list (list cell)) : list (list cell) :=
  match vals, rs with
  | v :: vals', r :: rs' => f v r :: zip_with_rows f vals' rs'
  | _, _ => []
  end.

(** [df[l] = vals] for a column that exists, and for a new one *)
Definition set_col (l : label) (vals : list cell) (df : DataFrame)
    : result DataFrame :=
  match positions l df with
  | [] =>
      Ok {| index := index df;
            columns := columns df ++ [l];
            rows := zip_with_rows (λ v r, r ++ [v]) vals (rows df) |}
  | [i] =>
      Ok {| index := index df;
            columns := columns df;
            rows := zip_with_rows (λ v r, set_nth i v r) vals (rows df) |}
  | _ :: _ :: _ => Err ValueError
  end.

(** [df.drop(columns=ls)]: every column named in [ls] goes; a name that no
    column carries is a KeyError. *)
Definition drop (ls : list label) (df : DataFrame) : result DataFrame :=
  if forallb (λ l, has_column l df) ls then
    let mask := (λ c, negb (isin c ls)) <$> columns df in
    Ok {| index := index df;
          columns := keep mask (columns df);
          rows := keep mask <$> rows df |}
  else Err KeyError.

(** [df.rename(columns=m)] *)
Fixpoint renamed (m : list (label * label)) (c : label) : label :=
  match m with
  | [] => c
  | (k, v) :: m' => if same_key c k then v else renamed m' c
  end.

Definition rename (m : list (label * label)) (df : DataFrame) : DataFrame :=
  {| index := index df;
     columns := renamed m <$> columns df;
     rows := rows df |}.

(** [df.dropna(subset=[l])] *)
Definition dropna (l : label) (df : DataFrame) : result DataFrame :=
  let? cs := col l df in
  Ok (select ((λ c, negb (isna c)) <$> cs) df).

(** [df.fillna(0)] *)
Definition fillna0 (df : DataFrame) : DataFrame :=
  {| index := index df;
     columns := columns df;
     rows := (λ r : list cell,
               (λ c, if isna c then Sc (SInt 0) else c) <$> r) <$> rows df |}.

(** *** Frequency counts *)

(** One more occurrence of [x] in a tally kept in order of first appearance *)
Fixpoint bump (x : scalar) (acc : list (scalar * nat)) : list (scalar * nat) :=
  match acc with
  | [] => [(x, 1%nat)]
  | (k, n) :: acc' =>
      if same_key x k then (k, S n) :: acc' else (k, n) :: bump x acc'
  end.

Definition tally (l : list scalar) : list (scalar * nat) :=
  fold_left (λ acc x, bump x acc) l [].

(** Stable insertion into a list sorted by decreasing count: [e] stands
    before the entries read after it that do not beat its count. *)
Fixpoint insert_desc (e : scalar * nat) (l : list (scalar * nat))
    : list (scalar * nat) :=
  match l with
  | [] => [e]
  | x :: l' =>
      if (e.2 <? x.2)%nat then x :: insert_desc e l' else e :: l
  end.

Definition sort_desc (l : list (scalar * nat)) : list (scalar * nat) :=
  foldr insert_desc [] l.

(** [s.value_counts()]: the distinct values that are not NaN with their
    number of occurrences, most frequent first. *)
Definition value_counts (vals : list scalar) : list (scalar * nat) :=
  sort_desc (tally (List.filter (λ s, negb (is_nan s)) vals)).

(** [s.value_counts().head(n).index] *)
Definition top (n : nat) (vals : list scalar) : list scalar :=
  (take n (value_counts vals)).*1.

(** *** Casts *)

(** The integers of the type int64 *)
Definition is_int64 (z : Z) : bool := (- 2 ^ 63 <=? z) && (z <? 2 ^ 63).

(** The integers of the types int64 and uint64 together *)
Definition is_word64 (z : Z) : bool := (- 2 ^ 63 <=? z) && (z <? 2 ^ 64).

(** A 64-bit pattern read as a signed integer: the int64 range is left as
    it is, [2 ^ 63 .. 2 ^ 64 - 1] becomes negative. *)
Definition wrap64 (z : Z) : Z := (z + 2 ^ 63) mod 2 ^ 64 - 2 ^ 63.

(** [astype(int)] on one cell of a column, to int64. An integer cell of a
    column is an int64 or a uint64 ([read_csv] keeps as text what is
    beyond), and the cast of a uint64 wraps. A float is cut off towards
    zero; beyond the int64 range C leaves the result open, and x86-64
    gives [- 2 ^ 63]. A text goes through [int], whose result must fit. *)
Definition int_cell (c : cell) : result cell :=
  match c with
  | Sc (SInt z) => Ok (Sc (SInt (wrap64 z)))
  | Sc (SFloat q) =>
      let z := Z.quot (Qnum q) (Zpos (Qden q)) in
      Ok (Sc (SInt (if is_int64 z then z else - 2 ^ 63)))
  | Sc (SStr s) =>
      let? z := Py.int s in
      if is_int64 z then Ok (Sc (SInt z)) else Err OverflowError
  | Sc SNaN | Sc (SInf _) => Err ValueError
  | Lst _ => Err TypeError
  end.

(** A missing or an infinite value *)
Definition non_finite (c : cell) : bool :=
  match c with
  | Sc SNaN | Sc (SInf _) => true
  | _ => false
  end.

(** [s.astype(int)]: a float64 column with a missing or an infinite value
    is refused as a whole (IntCastingNaNError, a ValueError) before any
    value is converted. The same order is taken for a column of objects. *)
Definition astype_int_cells (cs : list cell) : result (list cell) :=
  if existsb non_finite cs then Err ValueError else rmap int_cell cs.

(** [df[l] = df[l].astype(int)] *)
Definition astype_int_col (l : label) (df : DataFrame) : result DataFrame :=
  let? cs := col l df in
  let? cs' := astype_int_cells cs in
  set_col l cs' df.

(** [astype(int)] on one cell of a frame built from Python integers: an
    integer beyond 64 bits stays a Python object in the frame, and the
    cast of an object that does not fit is an OverflowError. *)
Definition int_object (c : cell) : result cell :=
  match c with
  | Sc (SInt z) => if is_word64 z then int_cell c else Err OverflowError
  | _ => int_cell c
  end.

(** [df.astype(int)] on a frame built from lists of Python integers *)
Definition astype_int (df : DataFrame) : result DataFrame :=
  let? rs := rmap (rmap int_object) (rows df) in
  Ok {| index := index df; columns := columns df; rows := rs |}.

(** *** Frames from Python values *)

Definition width (data : list (list scalar)) : nat :=
  foldr (λ r w, Nat.max (length r) w) 0%nat data.

Definition pad (w : nat) (r : list scalar) : list cell :=
  (Sc <$> r) ++ replicate (w - length r) NaN.

(** [pd.DataFrame(data)] and [pd.DataFrame(data, columns=cs)] for a list
    of lists: the frame is as wide as the longest list, shorter lists are
    filled up with NaN, and column names that do not match that width are a
    ValueError. *)
Definition from_lists (data : list (list scalar)) (cs : option (list label))
    : result DataFrame :=
  let w := width data in
  let body := pad w <$> data in
  match cs with
  | None =>
      Ok {| index := RangeIndex (length data);
            columns := SInt <$> RangeIndex w;
            rows := body |}
  | Some names =>
      match data with
      | [] => Ok {| index := []; columns := names; rows := [] |}
      | _ :: _ =>
          if (length names =? w)%nat
          then Ok {| index := RangeIndex (length data);
                     columns := names;
                     rows := body |}
          else Err ValueError
      end
  end.

(** [s.tolist()] of a column that holds lists *)
Definition tolist (cs : list cell) : result (list (list scalar)) :=
  rmap (λ c, match c with Lst l => Ok l | Sc _ => Err TypeError end) cs.

(** A Python dict with integer keys and values, in insertion order *)
Definition dict : Type := list (Z * Z).

Definition dict_get (d : dict) (k : Z) : cell :=
  match List.find (λ kv, bool_decide (kv.1 = k)) d with
  | Some kv => Sc (SInt kv.2)
  | None => NaN
  end.

Definition add_key (acc : list Z) (k : Z) : list Z :=
  if bool_decide (k ∈ acc) then acc else acc ++ [k].

(** [pd.DataFrame(ds)] for a list of dicts: one column per key, in order
    of first appearance, and NaN where a dict lacks the key. *)
Definition from_dicts (ds : list dict) : DataFrame :=
  let ks := fold_left (λ acc (d : dict), fold_left add_key (d.*1) acc) ds [] in
  {| index := RangeIndex (length ds);
     columns := SInt <$> ks;
     rows := (λ d, dict_get d <$> ks) <$> ds |}.

(** [df.add_prefix(p)] *)
Definition add_prefix (p : string) (df : DataFrame) : DataFrame :=
  {| index := index df;
     columns := (λ c, SStr (p +:+ label_str c)) <$> columns df;
     rows := rows df |}.

(** *** Joining frames *)

Definition suffixed (sfx : string) (other : list label) (c : label) : label :=
  if isin c other then SStr (label_str c +:+ sfx) else c.

(** [pd.merge(left, right, left_on=lo, right_on=ro, how='left')]: every
    left row, in order, once for each right row with its key, or once with
    NaN for the right columns when there is none; the rows are numbered
    anew; a column name that both sides have gets [_x] and [_y]. *)
Definition merge_left (left right : DataFrame) (lo ro : label)
    : result DataFrame :=
  let? lk := keys lo left in
  let? rk := keys ro right in
  let blank := replicate (length (columns right)) NaN in
  let joined :=
    concat (zip_with
      (λ k (l : list cell),
         match keep (same_key k <$> rk) (rows right) with
         | [] => [l ++ blank]
         | ms => (λ r, l ++ r) <$> ms
         end) lk (rows left)) in
  Ok {| index := RangeIndex (length joined);
        columns := (suffixed "_x" (columns right) <$> columns left)
                   ++ (suffixed "_y" (columns left) <$> columns right);
        rows := joined |}.

Fixpoint index_of (l : Z) (idx : list Z) : option nat :=
  match idx with
  | [] => None
  | x :: idx' => if bool_decide (x = l) then Some O else S <$> index_of l idx'
  end.

(** The row labelled [l], or a row of NaN when the frame has none *)
Definition row_at (df : DataFrame) (l : Z) : list cell :=
  match index_of l (index df) with
  | Some i => nth i (rows df) []
  | None => replicate (length (columns df)) NaN
  end.

(** [pd.concat([a, b], axis=1)]: the rows are matched by label, not by
    position. Equal indexes are put side by side; otherwise the result has
    the labels of [a] followed by the new labels of [b], and a frame
    without a row for a label contributes NaN. Unequal indexes with a
    repeated label cannot be aligned. *)
Definition concat_columns (a b : DataFrame) : result DataFrame :=
  if bool_decide (index a = index b) then
    Ok {| index := index a;
          columns := columns a ++ columns b;
          rows := zip_with app (rows a) (rows b) |}
  else if bool_decide (NoDup (index a)) && bool_decide (NoDup (index b)) then
    let idx :=
      index a ++ List.filter (λ l, negb (bool_decide (l ∈ index a))) (index b) in
    Ok {| index := idx;
          columns := columns a ++ columns b;
          rows := (λ l, row_at a l ++ row_at b l) <$> idx |}
  else Err InvalidIndexError.

(** [pd.concat([a, b])] for two frames with the same columns *)
Definition concat_rows (a b : DataFrame) : DataFrame :=
  {| index := index a ++ index b;
     columns := columns a;
     rows := rows a ++ rows b |}.

(** [df.head()] *)
Definition head (df : DataFrame) : DataFrame :=
  {| index := take 5 (index df);
     columns := columns df;
     rows := take 5 (rows df) |}.

(** The frame [read_csv] makes of a parsed file *)
Definition of_csv (t : CsvTable) : DataFrame :=
  {| index := RangeIndex (length (records t));
     columns := SStr <$> header t;
     rows := (λ r : list scalar, Sc <$> r) <$> records t |}.

(** The text a cell is written as, for the cells that are not text: a list
    is written as [str] prints it. No frame of the script holds a list
    when it is written. *)
Definition written (c : cell) : scalar :=
  match c with
  | Sc s => s
  | Lst l => SStr ("[" +:+ String.concat ", " (label_str <$> l) +:+ "]")
  end.

(** What [to_csv(index=False)] writes *)
Definition to_csv_table (df : DataFrame) : CsvTable :=
  {| header := label_str <$> columns df;
     records := (λ r : list cell, written <$> r) <$> rows df |}.

End Pd.

(** ** The world of a run: files, shared frames, console *)

(** What the script prints *)
Inductive out : Type :=
| Line (s : string)
| LineShape (s : string) (sh : nat * nat)
| LineColumns (cs : list label)
| LineFrame (df : DataFrame).

(** [files] are the CSV files by path. [heap] holds the frames that are
    handed to a callee which changes them in place, by reference; the
    other frames of the script are fresh values bound to local names. *)
Record World : Type := mkWorld {
  files : gmap string CsvTable;
  heap : list DataFrame;
  stdout : list out
}.

Definition ref : Type := nat.

Definition set_heap (h : list DataFrame) (w : World) : World :=
  {| files := files w; heap := h; stdout := stdout w |}.

Definition with_columns (cs : list label) (df : DataFrame) : DataFrame :=
  {| index := index df; columns := cs; rows := rows df |}.

(** A computation that may change the world and may raise *)
Definition M (A : Type) : Type := World → World * result A.

#[global] Instance M_ret : MRet M := λ A a w, (w, Ok a).
#[global] Instance M_bind : MBind M := λ A B k m w,
  match m w with
  | (w', Ok a) => k a w'
  | (w', Err e) => (w', Err e)
  end.

Definition lift {A} (r : result A) : M A := λ w, (w, r).

Definition read_csv (path : string) : M DataFrame := λ w,
  match files w !! path with
  | Some t => (w, Ok (Pd.of_csv t))
  | None => (w, Err FileNotFoundError)
  end.

Definition to_csv (df : DataFrame) (path : string) : M unit := λ w,
  ({| files := <[path := Pd.to_csv_table df]> (files w);
      heap := heap w;
      stdout := stdout w |}, Ok tt).

Definition print (o : out) : M unit := λ w,
  ({| files := files w; heap := heap w; stdout := stdout w ++ [o] |}, Ok tt).

(** A new frame object *)
Definition alloc (df : DataFrame) : M ref := λ w,
  ({| files := files w; heap := heap w ++ [df]; stdout := stdout w |},
   Ok (length (heap w))).

(** The frame behind a reference; a reference always has one in Python,
    the KeyError is for references the model never makes. *)
Definition load (r : ref) : M DataFrame := λ w,
  match heap w !! r with
  | Some df => (w, Ok df)
  | None => (w, Err KeyError)
  end.

(** An in-place change of the frame behind a reference *)
Definition modify (r : ref) (f : DataFrame → DataFrame) : M unit := λ w,
  match heap w !! r with
  | Some df =>
      ({| files := files w; heap := <[r := f df]> (heap w); stdout := stdout w |},
       Ok tt)
  | None => (w, Err KeyError)
  end.

Fixpoint for_each {A} (body : A → M unit) (l : list A) : M unit :=
  match l with
  | [] => mret tt
  | a :: l' => body a ;; for_each body l'
  end.

(** ** The script *)

(** A method of [str] called on a cell: any other cell has no such
    attribute. *)
Definition on_text {A} (f : string → result A) (c : cell) : result A :=
  match c with
  | Sc (SStr s) => f s
  | _ => Err AttributeError
  end.

(** Lines 17-36 *)
Definition filter_interactions (csv_file : string) : M DataFrame :=
  df ← read_csv csv_file;
  df ← lift (Pd.drop [SStr "review"; SStr "date"] df);
  recipe_id ← lift (Pd.keys (SStr "recipe_id") df);
  let top_recipe_ids := Pd.top (Z.to_nat 100) recipe_id in
  user_id ← lift (Pd.keys (SStr "user_id") df);
  let top_user_ids := Pd.top (Z.to_nat 30000) user_id in
  let mask :=
    zip_with andb ((λ x, isin x top_recipe_ids) <$> recipe_id)
                  ((λ x, isin x top_user_ids) <$> user_id) in
  let df_filtered := Pd.select mask df in
  df_filtered ← lift (Pd.astype_int_col (SStr "user_id") df_filtered);
  df_filtered ← lift (Pd.astype_int_col (SStr "recipe_id") df_filtered);
  df_filtered ← lift (Pd.astype_int_col (SStr "rating") df_filtered);
  mret df_filtered.

(** [c == k] for a cell of an id column and an integer *)
Definition eq_int (k : Z) (c : cell) : bool :=
  match c with
  | Sc s => py_eq s (SInt k)
  | Lst _ => false
  end.

(** Line 141, one turn of the first loop: the mapping rows of one id are
    appended to [filtered_ingredients_df]. *)
Definition rows_with_id (all_ingredients_df : DataFrame) (column : label)
    (filtered_ingredients_df : DataFrame) : result DataFrame :=
  let? ids := Pd.col (SStr "id") all_ingredients_df in
  let? k := label_int column in
  let filtered_row := Pd.select (eq_int k <$> ids) all_ingredients_df in
  Ok (Pd.concat_rows filtered_ingredients_df filtered_row).

Fixpoint gather_rows (all_ingredients_df : DataFrame) (cols : list label)
    (filtered_ingredients_df : DataFrame) : result DataFrame :=
  match cols with
  | [] => Ok filtered_ingredients_df
  | column :: cols' =>
      let? f := rows_with_id all_ingredients_df column filtered_ingredients_df in
      gather_rows all_ingredients_df cols' f
  end.

(** Lines 149-150: [.loc[ids == int(column), 'replaced'].values[0]] *)
Definition replacement (filtered_ingredients_df : DataFrame) (column : label)
    : result label :=
  let? ids := Pd.col (SStr "id") filtered_ingredients_df in
  let? k := label_int column in
  let hits := Pd.select (eq_int k <$> ids) filtered_ingredients_df in
  let? replaced := Pd.col (SStr "replaced") hits in
  match replaced with
  | [] => Err IndexError
  | v :: _ => Pd.hashable v
  end.

(** Lines 136-156. [ingredients_df] is the caller's frame, by reference;
    both loops run over the column names it has when they start. *)
Definition filter_ingredient_mapping (ingredient_mapping_csv : string)
    (ingredients_df : ref) : M ref :=
  all_ingredients_df ← read_csv ingredient_mapping_csv;
  let filtered_ingredients_df :=
    {| index := []; columns := columns all_ingredients_df; rows := [] |} in
  df ← load ingredients_df;
  filtered_ingredients_df ←
    lift (gather_rows all_ingredients_df (columns df) filtered_ingredients_df);
  df ← load ingredients_df;
  for_each (λ column,
      replacement_value ← lift (replacement filtered_ingredients_df column);
      modify ingredients_df (Pd.rename [(column, replacement_value)]))
    (columns df) ;;
  mret ingredients_df.

(** Line 68: the text of a techniques cell as a list of integers *)
Definition parse_techniques (x : string) : result (list scalar) :=
  rmap (λ i, let? z := Py.int (Py.strip i) in Ok (SInt z))
       (Py.split "," (Py.strip_chars "[]" x)).

(** Lines 85-87 and 92: the text of an ingredient_ids cell as integers *)
Definition parse_ingredient_ids (x : string) : result (list Z) :=
  rmap Py.int (Py.split ", " (Py.strip_chars "[]" x)).

(** Lines 52-64: the recipes joined to the interactions, without the rows
    that found no techniques. *)
Definition merge_recipes (filtered_df recipe_df : DataFrame)
    : result DataFrame :=
  let? recipe_df :=
    Pd.drop [SStr "name_tokens"; SStr "ingredient_tokens"; SStr "steps_tokens"]
            recipe_df in
  let? merged_df :=
    Pd.merge_left filtered_df recipe_df (SStr "recipe_id") (SStr "id") in
  let merged_df := Pd.rename [(SStr "i", SStr "recipe_id_mapped")] merged_df in
  Pd.dropna (SStr "techniques") merged_df.

(** Lines 67-80: the techniques column parsed, and the frame with one
    column per technique slot next to it. *)
Definition expand_techniques (merged_df : DataFrame)
    : result (DataFrame * DataFrame) :=
  let? cells := Pd.col (SStr "techniques") merged_df in
  let? lists := rmap (on_text parse_techniques) cells in
  let? merged_df := Pd.set_col (SStr "techniques") (Lst <$> lists) merged_df in
  let? cells := Pd.col (SStr "techniques") merged_df in
  let? data := Pd.tolist cells in
  let? techniques_df := Pd.from_lists data None in
  let techniques_df := Pd.add_prefix "technique_" techniques_df in
  let? techniques_df := Pd.astype_int techniques_df in
  let? processed_df := Pd.concat_columns merged_df techniques_df in
  let? processed_df := Pd.drop [SStr "techniques"] processed_df in
  Ok (merged_df, processed_df).

(** Lines 83-87: every ingredient id of every row goes into one set. *)
Fixpoint collect_ingredient_ids (ids_lists : list cell)
    (unique_ingredient_ids : gset Z) : result (gset Z) :=
  match ids_lists with
  | [] => Ok unique_ingredient_ids
  | ids_list :: rest =>
      let? ids := on_text parse_ingredient_ids ids_list in
      collect_ingredient_ids rest (unique_ingredient_ids ∪ list_to_set ids)
  end.

(** Lines 92-100: the presence row of one merged row. The set is walked in
    the order [elements] gives; Python's own order is not specified. *)
Definition ingredient_row (unique_ingredient_ids : gset Z) (ids_cell : cell)
    : result Pd.dict :=
  let? ingredient_ids := on_text parse_ingredient_ids ids_cell in
  Ok ((λ id_val, (id_val, if bool_decide (id_val ∈ ingredient_ids) then 1 else 0))
        <$> elements unique_ingredient_ids).

(** Lines 83-108: the one-hot frame of the merged rows *)
Definition one_hot (merged_df : DataFrame) : result DataFrame :=
  let? ids_lists := Pd.col (SStr "ingredient_ids") merged_df in
  let? unique_ingredient_ids := collect_ingredient_ids ids_lists ∅ in
  let? ingredient_rows := rmap (ingredient_row unique_ingredient_ids) ids_lists in
  let ingredients_df := Pd.from_dicts ingredient_rows in
  Ok (Pd.fillna0 ingredients_df).

(** Lines 52-120 *)
Definition process_recipe_data (filtered_df : DataFrame) (recipe_csv : string)
    : M DataFrame :=
  recipe_df ← read_csv recipe_csv;
  merged_df ← lift (merge_recipes filtered_df recipe_df);
  '(merged_df, processed_df) ← lift (expand_techniques merged_df);
  ingredients_df ← lift (one_hot merged_df);
  ingredients_df ← alloc ingredients_df;
  ingredients_df ← filter_ingredient_mapping "ingredient_mapping.csv" ingredients_df;
  ingredients_df ← load ingredients_df;
  processed_df ← lift (Pd.concat_columns processed_df ingredients_df);
  processed_df ← lift (Pd.drop [SStr "ingredient_ids"] processed_df);
  mret processed_df.

(** Lines 172-195 *)
Definition process_raw_recipes (raw_recipes_csv : string)
    (processed_df : DataFrame) : M DataFrame :=
  raw_recipe_df ← read_csv raw_recipes_csv;
  raw_recipe_df ←
    lift (Pd.drop [SStr "contributor_id"; SStr "submitted"; SStr "tags";
                   SStr "steps"; SStr "description"; SStr "ingredients"]
                  raw_recipe_df);
  ids ← lift (Pd.keys (SStr "id") raw_recipe_df);
  recipe_ids ← lift (Pd.keys (SStr "recipe_id") processed_df);
  let filtered_raw_recipe_df :=
    Pd.select ((λ x, isin x recipe_ids) <$> ids) raw_recipe_df in
  processed_df_mapped ←
    lift (Pd.merge_left processed_df filtered_raw_recipe_df
            (SStr "recipe_id") (SStr "id"));
  let processed_df_mapped :=
    Pd.rename [(SStr "id_x", SStr "id")] processed_df_mapped in
  processed_df_mapped ← lift (Pd.drop [SStr "id_y"] processed_df_mapped);
  mret processed_df_mapped.

(** Line 212: the text of a nutrition cell as a list of floats *)
Definition parse_nutrition (x : string) : result (list scalar) :=
  rmap (λ i, let? f := Py.float_of i in Ok (of_float f))
       (Py.split "," (Py.strip_chars "[]" x)).

Definition nutrition_columns : list label :=
  [SStr "calories"; SStr "percent_fat"; SStr "percent_sugar";
   SStr "percent_sodium"; SStr "percent_protein"; SStr "percent_sat_fat";
   SStr "percent_carb"].

(** Lines 209-225 *)
Definition process_nutrition_column (df : DataFrame) : result DataFrame :=
  let? df := Pd.dropna (SStr "nutrition") df in
  let? cells := Pd.col (SStr "nutrition") df in
  let? lists := rmap (on_text parse_nutrition) cells in
  let? df := Pd.set_col (SStr "nutrition") (Lst <$> lists) df in
  let? cells := Pd.col (SStr "nutrition") df in
  let? data := Pd.tolist cells in
  let? nutrition_df := Pd.from_lists data (Some nutrition_columns) in
  let? processed_df := Pd.concat_columns df nutrition_df in
  Pd.drop [SStr "nutrition"] processed_df.

(** Lines 228-271 *)
Definition main : M unit :=
  let interaction_csv := "RAW_interactions.csv" in
  filtered_df ← filter_interactions interaction_csv;
  print (Line "Information about the filtered DataFrame:") ;;
  print (LineShape "Size of the DataFrame (number of rows, number of columns):"
                   (shape filtered_df)) ;;
  print (Line "Columns of the DataFrame:") ;;
  print (LineColumns (columns filtered_df)) ;;
  print (Line "First few rows of the filtered DataFrame:") ;;
  print (LineFrame (Pd.head filtered_df)) ;;
  let recipe_csv := "PP_recipes.csv" in
  processed_df ← process_recipe_data filtered_df recipe_csv;
  let raw_recipes_csv := "RAW_recipes.csv" in
  longer_processed_df ← process_raw_recipes raw_recipes_csv processed_df;
  added_nutrition_df ← lift (process_nutrition_column longer_processed_df);
  print (Line "Information about the processed DataFrame:") ;;
  print (LineShape "Size of the DataFrame (number of rows, number of columns):"
                   (shape processed_df)) ;;
  print (Line "Columns of the DataFrame:") ;;
  print (LineColumns (columns added_nutrition_df)) ;;
  print (Line "First few rows of the processed DataFrame:") ;;
  print (LineFrame (Pd.head added_nutrition_df)) ;;
  to_csv added_nutrition_df "final_dataset.csv".

(** ** Notions used to state the properties *)

(** The loop of lines 148-151 on the column names alone, for a frame whose
    columns are the ingredient ids [ks]: the names after the loop, and how
    it ended. [look k] is the lookup of line 150 for the id [k]. *)
Fixpoint rename_all (look : Z → result label) (ks : list Z) (cur : list label)
    : list label * result unit :=
  match ks with
  | [] => (cur, Ok tt)
  | k :: ks' =>
      match look k with
      | Ok v => rename_all look ks' (Pd.renamed [(SInt k, v)] <$> cur)
      | Err e => (cur, Err e)
      end
  end.


(** The mapping table has a row for the ingredient id [k]. *)
Definition has_row (k : Z) (ids : list cell) : Prop :=
  ∃ c, c ∈ ids ∧ eq_int k c = true.

(** The lookup of line 150 on the rows of a frame whose [id] column is the
    [i]-th and whose [replaced] column is the [j]-th *)
Definition first_hit (i j : nat) (k : Z) (rs : list (list cell)) : result label :=
  match List.filter (λ row, eq_int k (nth i row NaN)) rs with
  | [] => Err IndexError
  | r :: _ => Pd.hashable (nth j r NaN)
  end.

(** A computation that leaves the files alone, whatever it returns *)
Definition keeps_files {A} (m : M A) : Prop :=
  ∀ w, files (m w).1 = files w.

(** A computation that prints nothing, whatever it returns *)
Definition silent {A} (m : M A) : Prop :=
  ∀ w, stdout (m w).1 = stdout w.

(** A computation whose only change to the files is [path], written when
    it returns normally *)
Definition writes_last {A} (path : string) (m : M A) : Prop :=
  ∀ w,
    match m w with
    | (w', Err _) => files w' = files w
    | (w', Ok _) => ∃ df, files w' = <[path := Pd.to_csv_table df]> (files w)
    end.

(** How often the value [x] occurs in a column *)
Definition occurrences (x : scalar) (vals : list scalar) : nat :=
  length (List.filter (same_key x) vals).

(** The sum of the counts a tally holds for the value [x] *)
Definition tallied (x : scalar) (acc : list (scalar * nat)) : nat :=
  sum_list ((List.filter (λ kn, same_key x kn.1) acc).*2).

(** [tops] are [n] most frequent values of the column [vals]: at most [n]
    distinct values of the column, none of them NaN, such that no value
    left out occurs more often than one taken, and all the values of the
    column when it has fewer than [n]. *)
Definition most_frequent (n : nat) (vals tops : list scalar) : Prop :=
  (length tops ≤ n)%nat ∧
  NoDup (key_of <$> tops) ∧
  (∀ a, a ∈ tops → is_nan a = false ∧ isin a vals = true) ∧
  (∀ a b, a ∈ tops → isin b vals = true → is_nan b = false →
      isin b tops = false → (occurrences b vals ≤ occurrences a vals)%nat) ∧
  ((length tops < n)%nat →
      ∀ b, isin b vals = true → is_nan b = false → isin b tops = true).

(** The order [value_counts] sorts by *)
Definition ge_count (a b : scalar * nat) : Prop := (b.2 ≤ a.2)%nat.

(** How many of the first [p] flags of a mask are set *)
Fixpoint kept_before (mask : list bool) (p : nat) : nat :=
  match p, mask with
  | S p', b :: mask' => ((if b then 1 else 0) + kept_before mask' p')%nat
  | _, _ => O
  end.

(** The sum of the integer cells of a row, as [sum] skips NaN *)
Definition row_sum (r : list cell) : Z :=
  foldr (λ c acc, match c with Sc (SInt z) => z + acc | _ => acc end) 0 r.

(** An integer of the int64 range *)
Definition small_int (s : scalar) : bool :=
  match s with SInt z => Pd.is_int64 z | _ => false end.

(** The row [r'] is the row [r] with the cells at the positions [ps] cast
    to int, and its other cells as they are. *)
Definition cast_at (ps : list nat) (r r' : list cell) : Prop :=
  length r' = length r ∧
  ∀ q : nat,
    if bool_decide (q ∈ ps) then Pd.int_cell (nth q r NaN) = Ok (nth q r' NaN)
    else nth q r' NaN = nth q r NaN.

(** Every row of the frame has one cell per column. *)
Definition rectangular (df : DataFrame) : Prop :=
  Forall (λ r : list cell, length r = length (columns df)) (rows df).

(** ** Sample tables *)

Module Sample.

Definition interactions_csv : CsvTable :=
  {| header := ["user_id"; "recipe_id"; "date"; "rating"; "review"];
     records :=
       [[SInt 1; SInt 7; SStr "2004-01-01"; SInt 5; SStr "fine"];
        [SInt 2; SInt 8; SStr "2005-02-02"; SInt 4; SStr "good"]] |}.

(** The recipe 7 of the interactions has no line here. *)
Definition pp_recipes_csv : CsvTable :=
  {| header := ["id"; "i"; "name_tokens"; "ingredient_tokens"; "steps_tokens";
                "techniques"; "calorie_level"; "ingredient_ids"];
     records :=
       [[SInt 8; SInt 0; SStr "[1]"; SStr "[[2]]"; SStr "[3]";
         SStr "[1, 0, 2]"; SInt 1; SStr "[5, 5]"]] |}.


Definition mapping_csv : CsvTable :=
  {| header := ["raw_ingr"; "replaced"; "id"];
     records :=
       [[SStr "kosher salt"; SStr "salt"; SInt 5];
        [SStr "sea salt"; SStr "salt"; SInt 9];
        [SStr "garlic clove"; SStr "garlic"; SInt 3]] |}.

(** A mapping table without a line for the ingredient 5 *)
Definition mapping_short_csv : CsvTable :=
  {| header := ["raw_ingr"; "replaced"; "id"];
     records := [[SStr "sea salt"; SStr "salt"; SInt 9]] |}.

Definition raw_recipes_csv : CsvTable :=
  {| header := ["name"; "id"; "minutes"; "contributor_id"; "submitted"; "tags";
                "nutrition"; "n_steps"; "steps"; "description"; "ingredients";
                "n_ingredients"];
     records :=
       [[SStr "soup"; SInt 8; SInt 10; SInt 3; SStr "2001-01-01"; SStr "[]";
         SStr "[100.0, 20.0, 5.0, 3.0, 10.0, 2.0, 15.0]"; SInt 2; SStr "[]";
         SStr "warm"; SStr "[]"; SInt 2]] |}.

Definition world (recipes mapping : CsvTable) : World :=
  {| files := <["RAW_interactions.csv" := interactions_csv]>
              (<["PP_recipes.csv" := recipes]>
              (<["ingredient_mapping.csv" := mapping]>
              (<["RAW_recipes.csv" := raw_recipes_csv]> ∅)));
     heap := [];
     stdout := [] |}.

(** The interactions as [filter_interactions] returns them *)
Definition filtered : DataFrame :=
  {| index := [0; 1];
     columns := [SStr "user_id"; SStr "recipe_id"; SStr "rating"];
     rows := [[Sc (SInt 1); Sc (SInt 7); Sc (SInt 5)];
              [Sc (SInt 2); Sc (SInt 8); Sc (SInt 4)]] |}.

(** One interaction, with a recipe that [pp_recipes_csv] has *)
Definition filtered_one : DataFrame :=
  {| index := [0];
     columns := [SStr "user_id"; SStr "recipe_id"; SStr "rating"];
     rows := [[Sc (SInt 2); Sc (SInt 8); Sc (SInt 4)]] |}.

(** A one-hot frame with the ingredients 5 and 9, both named salt *)
Definition one_hot_df : DataFrame :=
  {| index := [0; 1];
     columns := [SInt 5; SInt 9];
     rows := [[Sc (SInt 1); Sc (SInt 0)]; [Sc (SInt 0); Sc (SInt 1)]] |}.

Definition one_hot_world : World :=
  {| files := <["ingredient_mapping.csv" := mapping_csv]> ∅;
     heap := [one_hot_df];
     stdout := [] |}.

(** Two joined rows, the first without nutrition *)
Definition nutrition_gap : DataFrame :=
  {| index := [0; 1];
     columns := [SStr "recipe_id"; SStr "nutrition"];
     rows := [[Sc (SInt 7); NaN];
              [Sc (SInt 8); Sc (SStr "[100.0, 20.0, 5.0, 3.0, 10.0, 2.0, 15.0]")]] |}.

(** Two joined rows, the second with two nutrition values only *)
Definition nutrition_short : DataFrame :=
  {| index := [0; 1];
     columns := [SStr "recipe_id"; SStr "nutrition"];
     rows := [[Sc (SInt 7); Sc (SStr "[1.0, 2.0, 3.0, 4.0, 5.0, 6.0, 7.0]")];
              [Sc (SInt 8); Sc (SStr "[1.0, 2.0]")]] |}.

(** Two joined rows, both with eight nutrition values *)
Definition nutrition_long : DataFrame :=
  {| index := [0; 1];
     columns := [SStr "recipe_id"; SStr "nutrition"];
     rows := [[Sc (SInt 7); Sc (SStr "[1.0, 2.0, 3.0, 4.0, 5.0, 6.0, 7.0, 8.0]")];
              [Sc (SInt 8); Sc (SStr "[1.0, 2.0, 3.0, 4.0, 5.0, 6.0, 7.0, 8.0]")]] |}.

(** The joined rows of [filtered_one] and [pp_recipes_csv] *)
Definition merged_one : DataFrame :=
  {| index := [0];
     columns := [SStr "user_id"; SStr "recipe_id"; SStr "rating"; SStr "id";
                 SStr "recipe_id_mapped"; SStr "techniques";
                 SStr "calorie_level"; SStr "ingredient_ids"];
     rows := [[Sc (SInt 2); Sc (SInt 8); Sc (SInt 4); Sc (SInt 8); Sc (SInt 0);
               Sc (SStr "[1, 0, 2]"); Sc (SInt 1); Sc (SStr "[5, 5]")]] |}.


(** The joined rows of [filtered] and [pp_recipes_csv]: the interaction
    with the recipe 7 found no recipe and is gone. *)
Definition merged_gap : DataFrame :=
  {| index := [1]; columns := columns merged_one; rows := rows merged_one |}.

(** Its one-hot frame *)
Definition one_hot_one : DataFrame :=
  {| index := [0]; columns := [SInt 5]; rows := [[Sc (SInt 1)]] |}.

(** What [process_recipe_data] returns for [filtered_one] *)
Definition processed_one : DataFrame :=
  {| index := [0];
     columns := [SStr "user_id"; SStr "recipe_id"; SStr "rating"; SStr "id";
                 SStr "recipe_id_mapped"; SStr "calorie_level";
                 SStr "technique_0"; SStr "technique_1"; SStr "technique_2";
                 SStr "salt"];
     rows := [[Sc (SInt 2); Sc (SInt 8); Sc (SInt 4); Sc (SInt 8); Sc (SInt 0);
               Sc (SInt 1); Sc (SInt 1); Sc (SInt 0); Sc (SInt 2);
               Sc (SInt 1)]] |}.

(** What [process_recipe_data] returns for [filtered]: the row labelled 1
    is the interaction with the recipe 8, the row labelled 0 has no
    interaction. *)
Definition processed_gap : DataFrame :=
  {| index := [1; 0];
     columns := [SStr "user_id"; SStr "recipe_id"; SStr "rating"; SStr "id";
                 SStr "recipe_id_mapped"; SStr "calorie_level";
                 SStr "technique_0"; SStr "technique_1"; SStr "technique_2";
                 SStr "salt"];
     rows := [[Sc (SInt 2); Sc (SInt 8); Sc (SInt 4); Sc (SInt 8); Sc (SInt 0);
               Sc (SInt 1); NaN; NaN; NaN; NaN];
              [NaN; NaN; NaN; NaN; NaN; NaN;
               Sc (SInt 1); Sc (SInt 0); Sc (SInt 2); Sc (SInt 1)]] |}.

(** What [process_nutrition_column] returns for [nutrition_gap] *)
Definition expanded_gap : DataFrame :=
  {| index := [1; 0];
     columns := SStr "recipe_id" :: nutrition_columns;
     rows := [[Sc (SInt 8); NaN; NaN; NaN; NaN; NaN; NaN; NaN];
              [NaN; Sc (SFloat 100); Sc (SFloat 20); Sc (SFloat 5);
               Sc (SFloat 3); Sc (SFloat 10); Sc (SFloat 2); Sc (SFloat 15)]] |}.

(** What [process_nutrition_column] returns for [nutrition_short] *)
Definition expanded_short : DataFrame :=
  {| index := [0; 1];
     columns := SStr "recipe_id" :: nutrition_columns;
     rows := [[Sc (SInt 7); Sc (SFloat 1); Sc (SFloat 2); Sc (SFloat 3);
               Sc (SFloat 4); Sc (SFloat 5); Sc (SFloat 6); Sc (SFloat 7)];
              [Sc (SInt 8); Sc (SFloat 1); Sc (SFloat 2);
               NaN; NaN; NaN; NaN; NaN]] |}.

(** [one_hot_df] after [filter_ingredient_mapping] *)
Definition one_hot_renamed : DataFrame :=
  {| index := [0; 1];
     columns := [SStr "salt"; SStr "salt"];
     rows := [[Sc (SInt 1); Sc (SInt 0)]; [Sc (SInt 0); Sc (SInt 1)]] |}.

(** Interactions whose first line has no recipe id *)
Definition interactions_missing_csv : CsvTable :=
  {| header := ["user_id"; "recipe_id"; "date"; "rating"; "review"];
     records :=
       [[SInt 1; SNaN; SStr "2004-01-01"; SInt 5; SStr "fine"];
        [SInt 2; SInt 8; SStr "2005-02-02"; SInt 4; SStr "good"]] |}.

Definition interactions_world (interactions : CsvTable) : World :=
  {| files := <["RAW_interactions.csv" := interactions]> ∅;
     heap := [];
     stdout := [] |}.

(** [merged_one] with its techniques parsed (lines 67-68) *)
Definition techniques_one : DataFrame :=
  {| index := [0];
     columns := columns merged_one;
     rows := [[Sc (SInt 2); Sc (SInt 8); Sc (SInt 4); Sc (SInt 8); Sc (SInt 0);
               Lst [SInt 1; SInt 0; SInt 2]; Sc (SInt 1); Sc (SStr "[5, 5]")]] |}.

(** [merged_one] with its technique columns (lines 71-80) *)
Definition expanded_one : DataFrame :=
  {| index := [0];
     columns := [SStr "user_id"; SStr "recipe_id"; SStr "rating"; SStr "id";
                 SStr "recipe_id_mapped"; SStr "calorie_level";
                 SStr "ingredient_ids"; SStr "technique_0"; SStr "technique_1";
                 SStr "technique_2"];
     rows := [[Sc (SInt 2); Sc (SInt 8); Sc (SInt 4); Sc (SInt 8); Sc (SInt 0);
               Sc (SInt 1); Sc (SStr "[5, 5]"); Sc (SInt 1); Sc (SInt 0);
               Sc (SInt 2)]] |}.


(** Raw recipes with two lines for the recipe 8 and none for the recipe 7 *)
Definition raw_recipes_twice_csv : CsvTable :=
  {| header := ["name"; "id"; "minutes"; "contributor_id"; "submitted"; "tags";
                "nutrition"; "n_steps"; "steps"; "description"; "ingredients";
                "n_ingredients"];
     records :=
       [[SStr "soup"; SInt 8; SInt 10; SInt 3; SStr "2001-01-01"; SStr "[]";
         SStr "[100.0, 20.0, 5.0, 3.0, 10.0, 2.0, 15.0]"; SInt 2; SStr "[]";
         SStr "warm"; SStr "[]"; SInt 2];
        [SStr "stew"; SInt 8; SInt 90; SInt 4; SStr "2002-02-02"; SStr "[]";
         SStr "[1.0, 2.0, 3.0, 4.0, 5.0, 6.0, 7.0]"; SInt 5; SStr "[]";
         SStr "slow"; SStr "[]"; SInt 6];
        [SStr "cake"; SInt 9; SInt 45; SInt 4; SStr "2003-03-03"; SStr "[]";
         SStr "[7.0, 6.0, 5.0, 4.0, 3.0, 2.0, 1.0]"; SInt 4; SStr "[]";
         SStr "sweet"; SStr "[]"; SInt 7]] |}.

Definition raw_recipes_world (raw : CsvTable) : World :=
  {| files := <["RAW_recipes.csv" := raw]> ∅; heap := []; stdout := [] |}.

(** Two processed rows, for the recipes 8 and 7 *)
Definition processed_two : DataFrame :=
  {| index := [0; 1];
     columns := [SStr "user_id"; SStr "recipe_id"; SStr "id"];
     rows := [[Sc (SInt 2); Sc (SInt 8); Sc (SInt 8)];
              [Sc (SInt 1); Sc (SInt 7); Sc (SInt 7)]] |}.


(** Interactions with 101 recipes: the recipes 1 to 100 have two lines
    each, from the users 1 and 2, and the recipe 101 has the last line. *)
Definition interactions_many_csv : CsvTable :=
  {| header := ["user_id"; "recipe_id"; "date"; "rating"; "review"];
     records :=
       flat_map
         (λ k, [[SInt 1; SInt k; SStr "2004-01-01"; SInt 5; SStr "fine"];
                [SInt 2; SInt k; SStr "2005-02-02"; SInt 4; SStr "good"]])
         (Z.of_nat <$> seq 1 100)
       ++ [[SInt 1; SInt 101; SStr "2006-03-03"; SInt 3; SStr "fair"]] |}.

End Sample.

(** ** The monad *)

Section monad_facts.
Context {A B : Type}.

Lemma bind_ok (m : M A) (k : A → M B) w w1 a :
  m w = (w1, Ok a) → (m ≫= k) w = k a w1.
Proof. intros H. unfold mbind, M_bind. by rewrite H. Qed.

Lemma bind_err (m : M A) (k : A → M B) w w1 e :
  m w = (w1, Err e) → (m ≫= k) w = (w1, Err e).
Proof. intros H. unfold mbind, M_bind. by rewrite H. Qed.

Lemma bind_lift_ok (r : result A) (k : A → M B) w a :
  r = Ok a → (lift r ≫= k) w = k a w.
Proof. intros ->. done. Qed.

Lemma bind_lift_err (r : result A) (k : A → M B) w e :
  r = Err e → (lift r ≫= k) w = (w, Err e).
Proof. intros ->. done. Qed.
End monad_facts.

Create HintDb keeps discriminated.

Lemma keeps_ret {A} (a : A) : keeps_files (mret a).
Proof. by intros w. Qed.

Lemma keeps_lift {A} (r : result A) : keeps_files (lift r).
Proof. by intros w. Qed.

Lemma keeps_read_csv path : keeps_files (read_csv path).
Proof. intros w. unfold read_csv. by destruct (files w !! path). Qed.

Lemma keeps_print o : keeps_files (print o).
Proof. by intros w. Qed.

Lemma keeps_alloc df : keeps_files (alloc df).
Proof. by intros w. Qed.

Lemma keeps_load r : keeps_files (load r).
Proof. intros w. unfold load. by destruct (heap w !! r). Qed.

Lemma keeps_modify r f : keeps_files (modify r f).
Proof. intros w. unfold modify. by destruct (heap w !! r). Qed.

Lemma keeps_bind {A B} (m : M A) (k : A → M B) :
  keeps_files m → (∀ a, keeps_files (k a)) → keeps_files (m ≫= k).
Proof.
  intros Hm Hk w. unfold mbind, M_bind.
  specialize (Hm w). destruct (m w) as [w1 [a|e]]; simpl in *.
  - by rewrite Hk.
  - done.
Qed.

Lemma keeps_for_each {A} (body : A → M unit) l :
  (∀ a, keeps_files (body a)) → keeps_files (for_each body l).
Proof.
  intros Hb. induction l as [|a l IH]; simpl.
  - apply keeps_ret.
  - apply keeps_bind; auto.
Qed.

#[local] Hint Resolve keeps_ret keeps_lift keeps_read_csv keeps_print
  keeps_alloc keeps_load keeps_modify keeps_for_each : keeps.

Ltac keeps :=
  repeat first
    [ apply keeps_bind; [|intros ?]
    | apply keeps_for_each; intros ?
    | progress eauto with keeps
    | match goal with |- keeps_files (let '(_, _) := ?p in _) => destruct p end ].

Lemma keeps_filter_interactions csv_file :
  keeps_files (filter_interactions csv_file).
Proof. unfold filter_interactions. keeps. Qed.

Lemma keeps_filter_ingredient_mapping csv r :
  keeps_files (filter_ingredient_mapping csv r).
Proof. unfold filter_ingredient_mapping. keeps. Qed.

#[local] Hint Resolve keeps_filter_interactions
  keeps_filter_ingredient_mapping : keeps.

Lemma keeps_process_recipe_data df csv :
  keeps_files (process_recipe_data df csv).
Proof. unfold process_recipe_data. keeps. Qed.

Lemma keeps_process_raw_recipes csv df :
  keeps_files (process_raw_recipes csv df).
Proof. unfold process_raw_recipes. keeps. Qed.

#[local] Hint Resolve keeps_process_recipe_data keeps_process_raw_recipes : keeps.

Lemma writes_last_bind {A B} path (m : M A) (k : A → M B) :
  keeps_files m → (∀ a, writes_last path (k a)) → writes_last path (m ≫= k).
Proof.
  intros Hm Hk w. unfold mbind, M_bind.
  specialize (Hm w). destruct (m w) as [w1 [a|e]]; simpl in *.
  - specialize (Hk a w1). destruct (k a w1) as [w2 [b|e]]; by rewrite <- Hm.
  - done.
Qed.

Lemma writes_last_to_csv df path : writes_last path (to_csv df path).
Proof. intros w. simpl. by exists df. Qed.

Lemma main_writes_last : writes_last "final_dataset.csv" main.
Proof.
  unfold main.
  repeat first
    [ apply writes_last_to_csv
    | apply writes_last_bind; [solve [eauto with keeps] | intros ?] ].
Qed.

(** C8. The files of a run of [main] are those it started with when the run
    ends in an error, and differ from them only by [final_dataset.csv] when
    it ends normally: the file is written by the last step alone, so a run
    that stops on an error in any stage writes nothing. *)
Theorem main_all_or_nothing (w : World) :
  match main w with
  | (w', Err _) => files w' = files w
  | (w', Ok _) =>
      ∃ df, files w' = <["final_dataset.csv" := Pd.to_csv_table df]> (files w)
  end.
Proof. apply main_writes_last. Qed.

(** ** Frames *)

Lemma keep_map_filter {A} (p : A → bool) (l : list A) :
  Pd.keep (p <$> l) l = List.filter p l.
Proof. induction l as [|a l IH]; csimpl; [done|]. destruct (p a); by rewrite IH. Qed.

Lemma keep_fmap {A B} (f : A → B) mask (l : list A) :
  Pd.keep mask (f <$> l) = f <$> Pd.keep mask l.
Proof.
  revert l. induction mask as [|b mask IH]; intros [|a l]; csimpl; try done.
  destruct b; csimpl; by rewrite IH.
Qed.

Lemma keep_fmap_filter {A B} (f : A → B) (p : B → bool) (l : list A) :
  Pd.keep (p <$> (f <$> l)) l = List.filter (λ a, p (f a)) l.
Proof. rewrite <- list_fmap_compose. apply (keep_map_filter (p ∘ f)). Qed.

Lemma filter_nil_iff {A} (p : A → bool) l :
  List.filter p l = [] ↔ ∀ x, x ∈ l → p x = false.
Proof.
  induction l as [|a l IH]; cbn.
  - split; [by intros _ ? ?%elem_of_nil|done].
  - destruct (p a) eqn:E.
    + split; [done|]. intros H. specialize (H a). rewrite E in H.
      discriminate H. by left.
    + rewrite IH. split.
      * intros H x [->|?]%elem_of_cons; auto.
      * intros H x ?. apply H. by right.
Qed.

Lemma with_columns_id df : with_columns (columns df) df = df.
Proof. by destruct df. Qed.

Lemma set_heap_id w : set_heap (heap w) w = w.
Proof. by destruct w. Qed.

(** ** Keys *)

Lemma same_key_refl a : same_key a a = true.
Proof. unfold same_key. by apply bool_decide_eq_true. Qed.

Lemma same_key_int a b : same_key (SInt a) (SInt b) = bool_decide (a = b).
Proof.
  unfold same_key; simpl. apply bool_decide_ext. split; congruence.
Qed.

Lemma eq_int_inj k k' c : eq_int k c = true → eq_int k' c = true → k = k'.
Proof.
  destruct c as [s|]; [|done]. unfold eq_int, py_eq, same_key; simpl.
  rewrite !andb_true_iff, !bool_decide_eq_true. intros [_ H1] [_ H2]. congruence.
Qed.

(** ** The lookup of a replacement *)

Lemma col_unfold l df cs :
  Pd.col l df = Ok cs →
  ∃ i, Pd.positions l df = [i] ∧ cs = (λ row, nth i row NaN) <$> rows df.
Proof.
  unfold Pd.col. destruct (Pd.positions l df) as [|i [|??]]; try done.
  intros [= <-]. eauto.
Qed.

Lemma col_of_positions l df i :
  Pd.positions l df = [i] → Pd.col l df = Ok ((λ row, nth i row NaN) <$> rows df).
Proof. unfold Pd.col. by intros ->. Qed.

Lemma replacement_positions df i k :
  Pd.positions (SStr "id") df = [i] →
  replacement df (SInt k) =
    match Pd.positions (SStr "replaced") df with
    | [] => Err KeyError
    | [j] => first_hit i j k (rows df)
    | _ :: _ :: _ => Err ValueError
    end.
Proof.
  intros Hi. unfold replacement, first_hit.
  rewrite (col_of_positions _ _ _ Hi). cbn [rbind label_int].
  unfold Pd.col, Pd.positions, Pd.select. cbn [columns rows].
  destruct (Pd.positions_from 0 (SStr "replaced") (columns df)) as [|j [|??]];
    try done.
  rewrite keep_fmap_filter. cbn [rbind].
  by destruct (List.filter _ _).
Qed.

Lemma replacement_first_hit df i j k :
  Pd.positions (SStr "id") df = [i] →
  Pd.positions (SStr "replaced") df = [j] →
  replacement df (SInt k) = first_hit i j k (rows df).
Proof. intros Hi Hj. by rewrite (replacement_positions _ i), Hj. Qed.

(** The frame the first loop builds: the rows of the ids, one id after the
    other. *)
Lemma gather_rows_rows all ks f0 i :
  Pd.positions (SStr "id") all = [i] →
  ∃ f, gather_rows all (SInt <$> ks) f0 = Ok f ∧
       columns f = columns f0 ∧
       rows f = rows f0 ++
         concat ((λ k, List.filter (λ row, eq_int k (nth i row NaN)) (rows all)) <$> ks).
Proof.
  intros Hi. revert f0. induction ks as [|k ks IH]; intros f0; csimpl.
  - exists f0. by rewrite app_nil_r.
  - unfold rows_with_id. rewrite (col_of_positions _ _ _ Hi). cbn [rbind label_int].
    destruct (IH (Pd.concat_rows f0
      (Pd.select (eq_int k <$> ((λ row, nth i row NaN) <$> rows all)) all)))
      as (f & Hf & Hc & Hr).
    exists f. split; [done|]. split; [done|].
    rewrite Hr. cbn [Pd.concat_rows Pd.select rows].
    rewrite keep_fmap_filter. by rewrite <- app_assoc.
Qed.

Lemma filter_filter_eq_int i k k' (rs : list (list cell)) :
  List.filter (λ row, eq_int k (nth i row NaN))
    (List.filter (λ row, eq_int k' (nth i row NaN)) rs) =
  if bool_decide (k' = k) then List.filter (λ row, eq_int k (nth i row NaN)) rs
  else [].
Proof.
  induction rs as [|r rs IH]; simpl; [by case_bool_decide|].
  destruct (eq_int k' (nth i r NaN)) eqn:E'; simpl.
  - destruct (eq_int k (nth i r NaN)) eqn:E; rewrite IH;
      case_bool_decide as Hk; try done.
    destruct Hk. eauto using eq_int_inj.
  - rewrite IH. case_bool_decide; [|done]. subst. by rewrite E'.
Qed.

Lemma filter_gathered_nil i k (l : list Z) (rs : list (list cell)) :
  List.filter (λ row, eq_int k (nth i row NaN)) rs = [] →
  List.filter (λ row, eq_int k (nth i row NaN))
    (concat ((λ k', List.filter (λ row, eq_int k' (nth i row NaN)) rs) <$> l)) = [].
Proof.
  intros E. induction l as [|a l IHl]; csimpl; [done|].
  rewrite List.filter_app, filter_filter_eq_int, IHl, E. by case_bool_decide.
Qed.

Lemma first_hit_gathered i j k ks (rs : list (list cell)) :
  k ∈ ks →
  first_hit i j k
    (concat ((λ k', List.filter (λ row, eq_int k' (nth i row NaN)) rs) <$> ks))
  = first_hit i j k rs.
Proof.
  unfold first_hit. induction ks as [|k' ks IH]; [by intros ?%elem_of_nil|].
  intros Hin. csimpl. rewrite List.filter_app, filter_filter_eq_int.
  case_bool_decide as Hk.
  - subst k'. destruct (List.filter _ rs) as [|r rest] eqn:E; [|done].
    rewrite app_nil_l. by rewrite filter_gathered_nil.
  - rewrite app_nil_l. apply IH.
    apply elem_of_cons in Hin as [?|?]; [congruence|done].
Qed.

(** The lookup in the frame of the first loop is the lookup in the mapping
    table itself. *)
Lemma replacement_gathered all ks f k :
  gather_rows all (SInt <$> ks)
    {| index := []; columns := columns all; rows := [] |} = Ok f →
  k ∈ ks → replacement f (SInt k) = replacement all (SInt k).
Proof.
  intros Hg Hk.
  destruct (Pd.col (SStr "id") all) as [ids|e] eqn:Eid.
  - apply col_unfold in Eid as (i & Hi & ->).
    destruct (gather_rows_rows all ks
      {| index := []; columns := columns all; rows := [] |} i Hi)
      as (f' & Hf' & Hc & Hr).
    rewrite Hg in Hf'. injection Hf' as <-. cbn [columns rows] in *.
    assert (∀ l, Pd.positions l f = Pd.positions l all) as Hp.
    { intros l. unfold Pd.positions. by rewrite Hc. }
    rewrite (replacement_positions f i), (replacement_positions all i);
      rewrite ?Hp; try done.
    destruct (Pd.positions (SStr "replaced") all) as [|j [|??]]; try done.
    rewrite Hr, app_nil_l. by apply first_hit_gathered.
  - destruct ks as [|k0 ks]; [by apply elem_of_nil in Hk|].
    cbn in Hg. unfold rows_with_id in Hg. by rewrite Eid in Hg.
Qed.

(** ** The renaming loop *)

Lemma modify_run r f w df :
  heap w !! r = Some df →
  modify r f w = (set_heap (<[r := f df]> (heap w)) w, Ok tt).
Proof. intros H. unfold modify. by rewrite H. Qed.

(** The second loop, run on the frame behind [r] *)
Lemma rename_loop f r ks w df :
  heap w !! r = Some df →
  for_each (λ column,
      replacement_value ← lift (replacement f column);
      modify r (Pd.rename [(column, replacement_value)]))
    (SInt <$> ks) w =
  let res := rename_all (λ k, replacement f (SInt k)) ks (columns df) in
  (set_heap (<[r := with_columns res.1 df]> (heap w)) w, res.2).
Proof.
  revert w df. induction ks as [|k ks IH]; intros w df Hr; csimpl.
  - rewrite with_columns_id, list_insert_id, set_heap_id; done.
  - destruct (replacement f (SInt k)) as [v|e] eqn:E.
    + erewrite bind_ok; last first.
      { erewrite bind_lift_ok by done. by apply modify_run. }
      rewrite (IH _ (Pd.rename [(SInt k, v)] df)); last first.
      { cbn [set_heap heap]. apply list_lookup_insert_eq.
        by eapply lookup_lt_Some. }
      cbn [set_heap heap files stdout Pd.rename columns with_columns index rows].
      by rewrite list_insert_insert_eq.
    + erewrite bind_err; last by erewrite bind_lift_err.
      cbn [fst snd]. by rewrite with_columns_id, list_insert_id, set_heap_id.
Qed.

Lemma rename_all_ext look look' ks cur :
  (∀ k, k ∈ ks → look k = look' k) →
  rename_all look ks cur = rename_all look' ks cur.
Proof.
  revert cur. induction ks as [|k ks IH]; intros cur H; cbn; [done|].
  rewrite <- (H k) by left.
  destruct (look k); [|done]. apply IH. intros k' ?. apply H. by right.
Qed.

Lemma read_csv_run path w t :
  files w !! path = Some t → read_csv path w = (w, Ok (Pd.of_csv t)).
Proof. intros H. unfold read_csv. by rewrite H. Qed.

Lemma load_run r w df : heap w !! r = Some df → load r w = (w, Ok df).
Proof. intros H. unfold load. by rewrite H. Qed.

(** What a call of [filter_ingredient_mapping] does to the world, for a
    frame whose columns are the ingredient ids [ks] and a mapping table
    with an id column *)
Lemma filter_ingredient_mapping_run csv r w t df ks ids :
  files w !! csv = Some t →
  heap w !! r = Some df →
  columns df = SInt <$> ks →
  Pd.col (SStr "id") (Pd.of_csv t) = Ok ids →
  filter_ingredient_mapping csv r w =
  let res := rename_all (λ k, replacement (Pd.of_csv t) (SInt k)) ks (columns df) in
  (set_heap (<[r := with_columns res.1 df]> (heap w)) w,
   match res.2 with Ok _ => Ok r | Err e => Err e end).
Proof.
  intros Hf Hr Hc Hid. unfold filter_ingredient_mapping.
  rewrite (bind_ok _ _ _ _ _ (read_csv_run _ _ _ Hf)).
  rewrite (bind_ok _ _ _ _ _ (load_run _ _ _ Hr)).
  apply col_unfold in Hid as (i & Hi & _).
  destruct (gather_rows_rows (Pd.of_csv t) ks
    {| index := []; columns := columns (Pd.of_csv t); rows := [] |} i Hi)
    as (f & Hg & _ & _).
  rewrite Hc. erewrite bind_lift_ok by exact Hg.
  rewrite (bind_ok _ _ _ _ _ (load_run _ _ _ Hr)).
  rewrite Hc. unfold mbind at 1, M_bind at 1.
  rewrite (rename_loop f r ks w df Hr).
  rewrite (rename_all_ext _ (λ k, replacement (Pd.of_csv t) (SInt k))).
  2:{ intros k Hk. by eapply replacement_gathered. }
  rewrite Hc. cbn zeta.
  by destruct (rename_all _ ks (SInt <$> ks)) as [cur [[]|e]].
Qed.

(** ** The names after the renaming loop *)

Lemma renamed_int k v k' :
  Pd.renamed [(SInt k, v)] (SInt k') = if bool_decide (k' = k) then v else SInt k'.
Proof. cbn. rewrite same_key_int. by case_bool_decide. Qed.

Lemma rename_all_length look ks cur :
  length (rename_all look ks cur).1 = length cur.
Proof.
  revert cur. induction ks as [|k ks IH]; intros cur; cbn; [done|].
  destruct (look k); [|done]. by rewrite IH, length_fmap.
Qed.

(** A column that has a text for a name keeps it. *)
Lemma rename_all_text look ks cur p s :
  cur !! p = Some (SStr s) → (rename_all look ks cur).1 !! p = Some (SStr s).
Proof.
  revert cur. induction ks as [|k ks IH]; intros cur H; cbn; [done|].
  destruct (look k); [|done]. apply IH. by rewrite list_lookup_fmap, H.
Qed.

(** When the loop ends normally every id had a replacement. *)
Lemma rename_all_ok_look look ks cur k :
  (rename_all look ks cur).2 = Ok tt → k ∈ ks → ∃ v, look k = Ok v.
Proof.
  revert cur. induction ks as [|k' ks IH]; intros cur H Hk; [by apply elem_of_nil in Hk|].
  cbn in H. destruct (look k') as [v|e] eqn:E; [|done].
  apply elem_of_cons in Hk as [->|Hk]; eauto.
Qed.

Lemma rename_all_ok look ks cur :
  (∀ k, k ∈ ks → ∃ v, look k = Ok v) → (rename_all look ks cur).2 = Ok tt.
Proof.
  revert cur. induction ks as [|k ks IH]; intros cur H; cbn; [done|].
  destruct (H k) as [v ->]; [by left|]. apply IH. intros k' ?. apply H. by right.
Qed.

(** A column named by the id [k] ends with the text found for [k]. *)
Lemma rename_all_int look ks cur p k s :
  (rename_all look ks cur).2 = Ok tt →
  k ∈ ks → look k = Ok (SStr s) → cur !! p = Some (SInt k) →
  (rename_all look ks cur).1 !! p = Some (SStr s).
Proof.
  revert cur. induction ks as [|k' ks IH]; intros cur H Hk Hl Hp;
    [by apply elem_of_nil in Hk|].
  cbn [rename_all] in *. destruct (look k') as [v|e] eqn:E; [|done].
  destruct (decide (k = k')) as [->|Hne].
  - rewrite Hl in E. injection E as <-. apply rename_all_text.
    rewrite list_lookup_fmap, Hp. unfold fmap, option_fmap, option_map.
      by rewrite renamed_int, bool_decide_eq_true_2.
  - apply IH; try done.
    + apply elem_of_cons in Hk as [?|?]; [congruence|done].
    + rewrite list_lookup_fmap, Hp. unfold fmap, option_fmap, option_map.
      by rewrite renamed_int, bool_decide_eq_false_2.
Qed.

(** The first id without a replacement ends the loop with its error. *)
Lemma rename_all_err look ks cur k e :
  k ∈ ks → look k = Err e →
  (∀ k', k' ∈ ks → (∃ v, look k' = Ok v) ∨ look k' = Err e) →
  (rename_all look ks cur).2 = Err e.
Proof.
  revert cur. induction ks as [|k' ks IH]; intros cur Hk Hl Hall;
    [by apply elem_of_nil in Hk|].
  cbn. destruct (Hall k') as [[v Hv]|Hv]; [by left| |]; rewrite Hv; [|done].
  apply IH; [|done|intros; apply Hall; by right].
  apply elem_of_cons in Hk as [->|?]; [|done]. congruence.
Qed.

(** ** The lookup in a table read from a file *)

Lemma first_hit_missing i j k (rs : list (list cell)) :
  ¬ has_row k ((λ row, nth i row NaN) <$> rs) → first_hit i j k rs = Err IndexError.
Proof.
  intros H. unfold first_hit.
  destruct (List.filter _ rs) as [|r rest] eqn:E; [done|].
  destruct H. exists (nth i r NaN).
  assert (In r (List.filter (λ row, eq_int k (nth i row NaN)) rs)) as Hin
    by (rewrite E; by left).
  apply List.filter_In in Hin as [Hin ?]. split; [|done].
  apply list_elem_of_fmap. exists r. split; [done|]. by apply list_elem_of_In.
Qed.

Lemma nth_of_csv_row (r : list scalar) j : ∃ s, nth j (Sc <$> r) NaN = Sc s.
Proof.
  revert j. induction r as [|a r IH]; intros [|j]; cbn; eauto.
Qed.

Lemma first_hit_of_csv i j k t :
  first_hit i j k (rows (Pd.of_csv t)) = Err IndexError ∨
  ∃ v, first_hit i j k (rows (Pd.of_csv t)) = Ok v.
Proof.
  unfold first_hit. destruct (List.filter _ _) as [|r rest] eqn:E; [by left|].
  right. assert (In r (List.filter (λ row, eq_int k (nth i row NaN))
    (rows (Pd.of_csv t)))) as Hin by (rewrite E; by left).
  apply List.filter_In in Hin as [Hin _]. cbn in Hin.
  apply list_elem_of_In, list_elem_of_fmap in Hin as (r0 & -> & _).
  destruct (nth_of_csv_row r0 j) as [s ->]. by exists s.
Qed.


(** A normal return of [filter_ingredient_mapping]: the reference it was
    given, and the world with the frame behind it renamed. *)
Lemma filter_ingredient_mapping_ok csv r w w' r' t df ks :
  files w !! csv = Some t →
  heap w !! r = Some df →
  columns df = SInt <$> ks →
  filter_ingredient_mapping csv r w = (w', Ok r') →
  let res := rename_all (λ k, replacement (Pd.of_csv t) (SInt k)) ks (columns df) in
  r' = r ∧ res.2 = Ok tt ∧
  w' = set_heap (<[r := with_columns res.1 df]> (heap w)) w.
Proof.
  intros Hf Hr Hc Hrun.
  destruct (Pd.col (SStr "id") (Pd.of_csv t)) as [ids|e] eqn:Eid.
  - rewrite (filter_ingredient_mapping_run _ _ _ _ _ _ _ Hf Hr Hc Eid) in Hrun.
    cbn zeta in *.
    destruct (rename_all _ ks (columns df)) as [cur [[]|e]]; cbn [fst snd] in *;
      [|done].
    by injection Hrun as <- <-.
  - unfold filter_ingredient_mapping in Hrun.
    rewrite (bind_ok _ _ _ _ _ (read_csv_run _ _ _ Hf)) in Hrun.
    rewrite (bind_ok _ _ _ _ _ (load_run _ _ _ Hr)) in Hrun.
    rewrite Hc in Hrun. destruct ks as [|k ks].
    + change (SInt <$> []) with (@nil scalar) in *.
      erewrite bind_lift_ok in Hrun by reflexivity.
      rewrite (bind_ok _ _ _ _ _ (load_run _ _ _ Hr)) in Hrun.
      rewrite Hc in Hrun. injection Hrun as <- <-. cbn.
      by rewrite with_columns_id, list_insert_id, set_heap_id.
    + erewrite bind_lift_err in Hrun; [done|].
      cbn. unfold rows_with_id. by rewrite Eid.
Qed.

(** C4. When every column of the one-hot frame has a mapping row and two
    columns with distinct ingredient ids have the same [replaced] name, the
    call returns normally, both columns carry that name afterwards, so the
    frame has a repeated column name, and it has as many columns and the
    same rows as before: nothing is merged. *)
Theorem colliding_renames_duplicate_names
    csv r w t df ks (a b : nat) c1 c2 name :
  files w !! csv = Some t →
  heap w !! r = Some df →
  columns df = SInt <$> ks →
  Forall (λ k, ∃ v, replacement (Pd.of_csv t) (SInt k) = Ok v) ks →
  ks !! a = Some c1 →
  ks !! b = Some c2 →
  c1 ≠ c2 →
  replacement (Pd.of_csv t) (SInt c1) = Ok (SStr name) →
  replacement (Pd.of_csv t) (SInt c2) = Ok (SStr name) →
  ∃ w' df',
    filter_ingredient_mapping csv r w = (w', Ok r) ∧
    heap w' !! r = Some df' ∧
    columns df' !! a = Some (SStr name) ∧
    columns df' !! b = Some (SStr name) ∧
    a ≠ b ∧
    ¬ NoDup (columns df') ∧
    length (columns df') = length (columns df) ∧
    rows df' = rows df.
Proof.
  intros Hf Hr Hc Hall Ha Hb Hne H1 H2.
  assert (∃ ids, Pd.col (SStr "id") (Pd.of_csv t) = Ok ids) as [ids Hid].
  { unfold replacement in H1. destruct (Pd.col (SStr "id") _); [eauto|done]. }
  set (look := λ k, replacement (Pd.of_csv t) (SInt k)).
  assert ((rename_all look ks (columns df)).2 = Ok tt) as Hok.
  { apply rename_all_ok. intros k Hk. rewrite Forall_forall in Hall.
    by apply Hall. }
  assert (a ≠ b) as Hab by (intros ->; congruence).
  assert ((rename_all look ks (columns df)).1 !! a = Some (SStr name)) as Ea.
  { apply rename_all_int with c1; try done.
    - by eapply list_elem_of_lookup_2.
    - by rewrite Hc, list_lookup_fmap, Ha. }
  assert ((rename_all look ks (columns df)).1 !! b = Some (SStr name)) as Eb.
  { apply rename_all_int with c2; try done.
    - by eapply list_elem_of_lookup_2.
    - by rewrite Hc, list_lookup_fmap, Hb. }
  eexists _, (with_columns (rename_all look ks (columns df)).1 df).
  split.
  { rewrite (filter_ingredient_mapping_run _ _ _ _ _ _ _ Hf Hr Hc Hid).
    cbn zeta. fold look. by rewrite Hok. }
  split.
  { cbn [set_heap heap]. apply list_lookup_insert_eq. by eapply lookup_lt_Some. }
  cbn [with_columns columns rows].
  repeat split; try done.
  - intros Hnd. apply Hab. eapply NoDup_lookup; eauto.
  - apply rename_all_length.
Qed.


(** ** An ingredient id without a mapping row *)

Lemma filter_ingredient_mapping_missing csv r w t df ks ids reps k :
  files w !! csv = Some t →
  heap w !! r = Some df →
  columns df = SInt <$> ks →
  Pd.col (SStr "id") (Pd.of_csv t) = Ok ids →
  Pd.col (SStr "replaced") (Pd.of_csv t) = Ok reps →
  k ∈ ks →
  ¬ has_row k ids →
  ∃ w', filter_ingredient_mapping csv r w = (w', Err IndexError).
Proof.
  intros Hf Hr Hc Hid Hrep Hk Hno.
  rewrite (filter_ingredient_mapping_run _ _ _ _ _ _ _ Hf Hr Hc Hid). cbn zeta.
  apply col_unfold in Hid as (i & Hi & ->).
  apply col_unfold in Hrep as (j & Hj & _).
  erewrite (rename_all_err _ ks _ k IndexError); [by eexists|done|..].
  - rewrite (replacement_first_hit _ i j) by done. by apply first_hit_missing.
  - intros k' _. rewrite (replacement_first_hit _ i j) by done.
    destruct (first_hit_of_csv i j k' t); auto.
Qed.

Lemma one_hot_columns merged_df oh :
  one_hot merged_df = Ok oh → ∃ ks, columns oh = SInt <$> ks.
Proof.
  unfold one_hot. destruct (Pd.col _ merged_df) as [ids|]; [|done]. cbn [rbind].
  destruct (collect_ingredient_ids ids ∅) as [u|]; [|done]. cbn [rbind].
  destruct (rmap _ ids) as [rs|]; [|done]. cbn [rbind].
  intros [= <-]. cbn. eauto.
Qed.

Lemma alloc_run df w :
  alloc df w = (set_heap (heap w ++ [df]) w, Ok (length (heap w))).
Proof. done. Qed.

Lemma print_run o w :
  print o w = ({| files := files w; heap := heap w; stdout := stdout w ++ [o] |}, Ok tt).
Proof. done. Qed.

(** The error of [filter_ingredient_mapping] is the error of
    [process_recipe_data]: nothing around the call catches it. *)
Lemma process_recipe_data_mapping_error
    filtered_df recipe_csv w pp merged merged' processed oh e :
  files w !! recipe_csv = Some pp →
  merge_recipes filtered_df (Pd.of_csv pp) = Ok merged →
  expand_techniques merged = Ok (merged', processed) →
  one_hot merged' = Ok oh →
  (∃ w', filter_ingredient_mapping "ingredient_mapping.csv" (length (heap w))
           (set_heap (heap w ++ [oh]) w) = (w', Err e)) →
  ∃ w', process_recipe_data filtered_df recipe_csv w = (w', Err e).
Proof.
  intros Hf Hm Ht Ho [w' Hrun]. unfold process_recipe_data.
  rewrite (bind_ok _ _ _ _ _ (read_csv_run _ _ _ Hf)).
  erewrite bind_lift_ok by exact Hm. cbn beta.
  erewrite bind_lift_ok by exact Ht. cbn beta iota.
  erewrite bind_lift_ok by exact Ho. cbn beta.
  rewrite (bind_ok _ _ _ _ _ (alloc_run _ _)).
  erewrite bind_err by exact Hrun. eauto.
Qed.

(** The error of [process_recipe_data] is the error of [main]. *)
Lemma main_recipe_error w w0 filtered_df e :
  filter_interactions "RAW_interactions.csv" w = (w0, Ok filtered_df) →
  (∀ w1, files w1 = files w → heap w1 = heap w0 →
     ∃ w', process_recipe_data filtered_df "PP_recipes.csv" w1 = (w', Err e)) →
  ∃ w', main w = (w', Err e) ∧ files w' = files w.
Proof.
  intros Hfi Hp. unfold main.
  assert (files w0 = files w) as Hw0.
  { pose proof (keeps_filter_interactions "RAW_interactions.csv" w) as H.
    by rewrite Hfi in H. }
  set (rest := λ fd : DataFrame, _).
  assert (∃ w', (filter_interactions "RAW_interactions.csv" ≫= rest) w = (w', Err e))
    as [w' Hw'].
  { rewrite (bind_ok _ _ _ _ _ Hfi). unfold rest.
    repeat rewrite (bind_ok _ _ _ _ _ (print_run _ _)).
    edestruct Hp as [w' Hw']; [| |erewrite bind_err by exact Hw'; eauto]; done. }
  exists w'. split; [done|].
  pose proof (main_writes_last w) as H. unfold main in H. fold rest in H.
  by rewrite Hw' in H.
Qed.

(** C7. When a column of the one-hot frame is named by an ingredient id
    that has no row in the mapping table, [filter_ingredient_mapping] raises
    IndexError, and so does the run: [process_recipe_data] and [main] end
    with that error, and no file is written. *)
Theorem missing_mapping_row_is_fatal
    w w0 filtered_df pp merged merged' processed oh t ids reps k :
  filter_interactions "RAW_interactions.csv" w = (w0, Ok filtered_df) →
  files w !! "PP_recipes.csv" = Some pp →
  merge_recipes filtered_df (Pd.of_csv pp) = Ok merged →
  expand_techniques merged = Ok (merged', processed) →
  one_hot merged' = Ok oh →
  files w !! "ingredient_mapping.csv" = Some t →
  Pd.col (SStr "id") (Pd.of_csv t) = Ok ids →
  Pd.col (SStr "replaced") (Pd.of_csv t) = Ok reps →
  SInt k ∈ columns oh →
  ¬ has_row k ids →
  (∀ w1 r, files w1 = files w → heap w1 !! r = Some oh →
     ∃ w2, filter_ingredient_mapping "ingredient_mapping.csv" r w1
           = (w2, Err IndexError)) ∧
  (∀ w1, files w1 = files w →
     ∃ w2, process_recipe_data filtered_df "PP_recipes.csv" w1
           = (w2, Err IndexError)) ∧
  (∃ w', main w = (w', Err IndexError) ∧ files w' = files w).
Proof.
  intros Hfi Hpp Hm Ht Ho Hmap Hid Hrep Hk Hno.
  destruct (one_hot_columns _ _ Ho) as [ks Hc].
  assert (k ∈ ks) as Hin.
  { rewrite Hc in Hk. apply list_elem_of_fmap in Hk as (k' & [= ->] & ?). done. }
  assert (∀ w1 r, files w1 = files w → heap w1 !! r = Some oh →
     ∃ w2, filter_ingredient_mapping "ingredient_mapping.csv" r w1
           = (w2, Err IndexError)) as Hfim.
  { intros w1 r Hw1 Hr. eapply filter_ingredient_mapping_missing; eauto.
    by rewrite Hw1. }
  assert (∀ w1, files w1 = files w →
     ∃ w2, process_recipe_data filtered_df "PP_recipes.csv" w1
           = (w2, Err IndexError)) as Hprd.
  { intros w1 Hw1. eapply process_recipe_data_mapping_error; eauto.
    - by rewrite Hw1.
    - apply Hfim; [done|]. cbn [set_heap heap].
      by rewrite lookup_app_r, Nat.sub_diag. }
  split; [done|]. split; [done|].
  eapply main_recipe_error; eauto.
Qed.

(** ** Frequency counts *)

Lemma same_key_eq a b : same_key a b = true ↔ key_of a = key_of b.
Proof. unfold same_key. apply bool_decide_eq_true. Qed.

Lemma same_key_ext a b c : key_of a = key_of b → same_key a c = same_key b c.
Proof. unfold same_key. intros ->. done. Qed.

Lemma isin_eq x l : isin x l = true ↔ key_of x ∈ key_of <$> l.
Proof.
  unfold isin. rewrite existsb_exists, list_elem_of_fmap.
  split.
  - intros (y & Hy & E). exists y. split; [by apply same_key_eq|by apply list_elem_of_In].
  - intros (y & E & Hy). exists y. split; [by apply list_elem_of_In|by apply same_key_eq].
Qed.

Lemma isin_false x l : isin x l = false ↔ key_of x ∉ key_of <$> l.
Proof. rewrite <- isin_eq. by destruct (isin x l). Qed.

Lemma key_of_nan s : key_of s = SNaN ↔ s = SNaN.
Proof.
  destruct s; try done. unfold key_of.
  destruct (Z.pos (Qden (Qred q)) =? 1); split; intros H; discriminate H.
Qed.

Lemma occurrences_ext x y l : key_of x = key_of y → occurrences x l = occurrences y l.
Proof.
  intros E. unfold occurrences. f_equal. apply List.filter_ext.
  intros a. by apply same_key_ext.
Qed.

Lemma occurrences_no_nan x l :
  is_nan x = false →
  occurrences x (List.filter (λ s, negb (is_nan s)) l) = occurrences x l.
Proof.
  intros Hx. unfold occurrences.
  induction l as [|a l IH]; [done|]. cbn [List.filter].
  destruct (is_nan a) eqn:Ea; cbn [negb List.filter].
  - assert (same_key x a = false) as ->; [|done].
    destruct (same_key x a) eqn:E; [|done].
    destruct a; try done. apply same_key_eq in E.
    change (key_of x = SNaN) in E. apply (proj1 (key_of_nan x)) in E. subst. discriminate Hx.
  - destruct (same_key x a); cbn [length]; by rewrite IH.
Qed.

(** *** The tally *)

Lemma bump_keys x acc :
  (Pd.bump x acc).*1 = if isin x acc.*1 then acc.*1 else acc.*1 ++ [x].
Proof.
  induction acc as [|[k n] acc IH]; cbn; [done|].
  destruct (same_key x k); cbn; [done|]. rewrite IH. unfold isin.
  by destruct (existsb _ _).
Qed.

Lemma tallied_bump y x acc :
  tallied y (Pd.bump x acc) =
  (tallied y acc + if same_key y x then 1 else 0)%nat.
Proof.
  unfold tallied. induction acc as [|[k n] acc IH]; cbn.
  - destruct (same_key y x); cbn; lia.
  - destruct (same_key x k) eqn:Exk; cbn.
    + destruct (same_key y k) eqn:Eyk; cbn.
      * assert (same_key y x = true) as ->; [|lia].
        apply same_key_eq in Exk, Eyk. apply same_key_eq. congruence.
      * assert (same_key y x = false) as ->; [|lia].
        destruct (same_key y x) eqn:E; [|done].
        apply same_key_eq in Exk, E. apply not_true_iff_false in Eyk.
        destruct Eyk. apply same_key_eq. congruence.
    + destruct (same_key y k); cbn; rewrite IH; lia.
Qed.

Lemma tallied_fold y l acc :
  tallied y (fold_left (λ acc x, Pd.bump x acc) l acc) =
  (tallied y acc + occurrences y l)%nat.
Proof.
  revert acc. induction l as [|x l IH]; intros acc; cbn [fold_left].
  - unfold occurrences. cbn. lia.
  - rewrite IH, tallied_bump. unfold occurrences. cbn [List.filter].
    destruct (same_key y x); cbn [length]; lia.
Qed.

Lemma tallied_tally y l : tallied y (Pd.tally l) = occurrences y l.
Proof. unfold Pd.tally. by rewrite tallied_fold. Qed.

Lemma keys_fold l acc :
  NoDup (key_of <$> acc.*1) →
  let acc' := fold_left (λ acc x, Pd.bump x acc) l acc in
  NoDup (key_of <$> acc'.*1) ∧
  (∀ k, k ∈ acc'.*1 → k ∈ acc.*1 ∨ k ∈ l) ∧
  (∀ x, x ∈ l → isin x acc'.*1 = true) ∧
  (∀ x, isin x acc.*1 = true → isin x acc'.*1 = true).
Proof.
  revert acc. induction l as [|x l IH]; intros acc Hnd; cbn.
  - split; [done|]. split; [auto|]. split; [by intros ? ?%elem_of_nil|done].
  - assert (NoDup (key_of <$> (Pd.bump x acc).*1)) as Hnd'.
    { rewrite bump_keys. destruct (isin x acc.*1) eqn:E; [done|].
      rewrite fmap_app. apply NoDup_app. split; [done|]. split.
      - intros k Hk Hx%list_elem_of_singleton. subst k. by apply isin_false in E.
      - apply NoDup_singleton. }
    destruct (IH _ Hnd') as (H1 & H2 & H3 & H4). split; [done|].
    assert (isin x (Pd.bump x acc).*1 = true) as Hx.
    { rewrite bump_keys. destruct (isin x acc.*1) eqn:E; [done|].
      apply isin_eq. rewrite fmap_app. apply elem_of_app. right. by left. }
    split; [|split].
    + intros k Hk. destruct (H2 k Hk) as [Hb|?]; [|right; by right].
      rewrite bump_keys in Hb. destruct (isin x acc.*1); [by left|].
      apply elem_of_app in Hb as [?|Hb%list_elem_of_singleton]; [by left|].
      subst k. right. by left.
    + intros y [->|?]%elem_of_cons; [by apply H4|by apply H3].
    + intros y Hy. apply H4. rewrite bump_keys.
      destruct (isin x acc.*1); [done|]. apply isin_eq. rewrite fmap_app.
      apply elem_of_app. left. by apply isin_eq.
Qed.

(** An entry of a tally with distinct keys is the count of its key. *)
Lemma tallied_entry acc k n :
  NoDup (key_of <$> acc.*1) → (k, n) ∈ acc → tallied k acc = n.
Proof.
  unfold tallied. induction acc as [|[k' n'] acc IH]; [by intros _ ?%elem_of_nil|].
  cbn. intros [Hnot Hnd]%NoDup_cons [[= -> ->]|Hin]%elem_of_cons.
  - rewrite same_key_refl. cbn.
    assert (List.filter (λ kn, same_key k' kn.1) acc = []) as ->; [|cbn; lia].
    apply filter_nil_iff. intros [k0 n0] H0. cbn.
    destruct (same_key k' k0) eqn:E; [|done]. destruct Hnot.
    apply same_key_eq in E. rewrite E. apply list_elem_of_fmap.
    exists k0. split; [done|]. apply list_elem_of_fmap. by exists (k0, n0).
  - destruct (same_key k k') eqn:E; cbn; [|by apply IH].
    destruct Hnot. apply same_key_eq in E. rewrite <- E.
    apply list_elem_of_fmap. exists k. split; [done|].
    apply list_elem_of_fmap. by exists (k, n).
Qed.

(** *** The sort *)

Lemma insert_desc_perm e l : Pd.insert_desc e l ≡ₚ e :: l.
Proof.
  induction l as [|x l IH]; cbn [Pd.insert_desc]; [done|].
  destruct (e.2 <? x.2)%nat; [|done]. rewrite IH. apply Permutation_swap.
Qed.

Lemma insert_desc_sorted e l :
  StronglySorted ge_count l → StronglySorted ge_count (Pd.insert_desc e l).
Proof.
  induction 1 as [|x l Hs IH Hx]; cbn [Pd.insert_desc].
  - repeat constructor.
  - destruct (e.2 <? x.2)%nat eqn:E.
    + apply Nat.ltb_lt in E. constructor; [done|].
      rewrite insert_desc_perm. constructor; [unfold ge_count; lia|done].
    + apply Nat.ltb_ge in E. constructor; [by constructor|].
      constructor; [done|].
      eapply Forall_impl; [exact Hx|]. unfold ge_count. intros; cbn in *. lia.
Qed.

Lemma sort_desc_perm l : Pd.sort_desc l ≡ₚ l.
Proof.
  unfold Pd.sort_desc. induction l as [|x l IH]; cbn [foldr]; [done|].
  by rewrite insert_desc_perm, IH.
Qed.

Lemma sort_desc_sorted l : StronglySorted ge_count (Pd.sort_desc l).
Proof.
  unfold Pd.sort_desc. induction l as [|x l IH]; cbn [foldr]; [constructor|].
  by apply insert_desc_sorted.
Qed.

(** *** The most frequent values *)

Lemma isin_no_nan b vals :
  isin b vals = true → is_nan b = false →
  ∃ y, y ∈ List.filter (λ s, negb (is_nan s)) vals ∧ key_of y = key_of b.
Proof.
  intros Hin Hb. apply isin_eq, list_elem_of_fmap in Hin as (y & E & Hy).
  exists y. split; [|done]. apply list_elem_of_In, List.filter_In.
  split; [by apply list_elem_of_In|].
  destruct (is_nan y) eqn:Ey; [|done]. destruct y; try done.
  change (key_of b = SNaN) in E. apply (proj1 (key_of_nan b)) in E.
  subst. discriminate Hb.
Qed.

Lemma tally_facts l :
  NoDup (key_of <$> (Pd.tally l).*1) ∧
  (∀ k, k ∈ (Pd.tally l).*1 → k ∈ l) ∧
  (∀ x, x ∈ l → isin x (Pd.tally l).*1 = true) ∧
  (∀ k c, (k, c) ∈ Pd.tally l → c = occurrences k l).
Proof.
  unfold Pd.tally.
  destruct (keys_fold l [] (NoDup_nil_2 : NoDup (key_of <$> [].*1)))
    as (H1 & H2 & H3 & _).
  split; [done|]. split; [|split; [done|]].
  - intros k Hk. destruct (H2 k Hk) as [Hn|?]; [|done]. by apply elem_of_nil in Hn.
  - intros k c Hkc. rewrite <- (tallied_tally k l). symmetry.
    by apply tallied_entry.
Qed.

(** [value_counts().head(n).index] holds [n] most frequent values. *)
Lemma top_most_frequent n vals : most_frequent n vals (Pd.top n vals).
Proof.
  unfold Pd.top, Pd.value_counts.
  set (nn := List.filter (λ s, negb (is_nan s)) vals).
  destruct (tally_facts nn) as (Hnd & Hsub & Hall & Hcnt).
  pose proof (sort_desc_perm (Pd.tally nn)) as Hperm.
  pose proof (sort_desc_sorted (Pd.tally nn)) as Hsort.
  set (S := Pd.sort_desc (Pd.tally nn)) in *.
  assert (∀ a, a ∈ nn → a ∈ vals ∧ is_nan a = false) as Hnn.
  { intros a Ha. apply list_elem_of_In, List.filter_In in Ha as [Ha Hna].
    split; [by apply list_elem_of_In|]. by destruct (is_nan a). }
  assert (∀ a, a ∈ (take n S).*1 → ∃ c, (a, c) ∈ take n S ∧ (a, c) ∈ Pd.tally nn)
    as Htake.
  { intros a Ha. apply list_elem_of_fmap in Ha as ([a' c] & -> & Hin).
    exists c. split; [done|]. rewrite <- Hperm.
    eapply elem_of_sublist; [exact Hin|]. apply sublist_take. }
  assert (∀ a, a ∈ (take n S).*1 → a ∈ nn) as Htop.
  { intros a Ha. destruct (Htake a Ha) as (c & _ & Hc). apply Hsub.
    apply list_elem_of_fmap. by exists (a, c). }
  assert (∀ b, isin b vals = true → is_nan b = false →
            ∃ kb cb, (kb, cb) ∈ S ∧ key_of kb = key_of b) as Hfind.
  { intros b Hb Hnb. destruct (isin_no_nan b vals Hb Hnb) as (y & Hy & Ey).
    specialize (Hall y Hy). apply isin_eq, list_elem_of_fmap in Hall as (kb & Ek & Hkb).
    apply list_elem_of_fmap in Hkb as ([kb' cb] & -> & Hin).
    exists kb', cb. split; [by rewrite Hperm|]. cbn in *. congruence. }
  repeat split.
  - rewrite length_fmap, length_take. lia.
  - rewrite fmap_take, fmap_take. eapply sublist_NoDup; [|apply sublist_take].
    by rewrite Hperm.
  - by apply Hnn, Htop.
  - apply isin_eq, list_elem_of_fmap. exists a. split; [done|].
    by apply Hnn, Htop.
  - intros a b Ha Hb Hnb Hout.
    destruct (Htake a Ha) as (ca & Hta & Hca).
    destruct (Hfind b Hb Hnb) as (kb & cb & Hkb & Ek).
    rewrite <- (take_drop n S) in Hkb, Hsort.
    apply elem_of_app in Hkb as [Hkb|Hkb].
    { apply isin_false in Hout. destruct Hout. rewrite <- Ek.
      apply list_elem_of_fmap. exists kb. split; [done|].
      apply list_elem_of_fmap. by exists (kb, cb). }
    pose proof (StronglySorted_app_1_elem_of _ _ _ _ _ Hsort Hta Hkb) as Hge.
    unfold ge_count in Hge. cbn in Hge.
    assert ((kb, cb) ∈ Pd.tally nn) as Hkb'.
    { rewrite <- Hperm. eapply elem_of_sublist; [exact Hkb|].
      apply sublist_drop. }
    rewrite (Hcnt _ _ Hca), (Hcnt _ _ Hkb') in Hge.
    rewrite (occurrences_ext kb b) in Hge by done.
    unfold nn in Hge. rewrite !occurrences_no_nan in Hge; try done.
    by apply Hnn, Htop.
  - intros Hlen b Hb Hnb.
    destruct (Hfind b Hb Hnb) as (kb & cb & Hkb & Ek).
    rewrite length_fmap, length_take in Hlen.
    rewrite take_ge by lia.
    apply isin_eq. rewrite <- Ek. apply list_elem_of_fmap. exists kb.
    split; [done|]. apply list_elem_of_fmap. by exists (kb, cb).
Qed.

(** ** Results *)

Lemma rbind_ok {A B} (r : result A) (k : A → result B) b :
  rbind r k = Ok b → ∃ a, r = Ok a ∧ k a = Ok b.
Proof. destruct r; [eauto|done]. Qed.

Lemma bind_lift_inv {A B} (r : result A) (k : A → M B) w w' b :
  (lift r ≫= k) w = (w', Ok b) → ∃ a, r = Ok a ∧ k a w = (w', Ok b).
Proof. destruct r as [a|e]; [eauto|done]. Qed.

Lemma rmap_length {A B} (f : A → result B) l l' :
  rmap f l = Ok l' → length l' = length l.
Proof.
  revert l'. induction l as [|a l IH]; intros l'; cbn [rmap].
  - by intros [= <-].
  - intros (b & _ & (bs & Hbs & [= <-])%rbind_ok)%rbind_ok. cbn. by rewrite (IH bs).
Qed.

Lemma rmap_lookup {A B} (f : A → result B) l l' i a :
  rmap f l = Ok l' → l !! i = Some a → ∃ b, l' !! i = Some b ∧ f a = Ok b.
Proof.
  revert l' i. induction l as [|x l IH]; intros l' i; cbn [rmap]; [done|].
  intros (b & Hb & (bs & Hbs & [= <-])%rbind_ok)%rbind_ok.
  destruct i as [|i]; cbn.
  - intros [= ->]. eauto.
  - intros Hi. by apply IH.
Qed.

(** ** Columns that survive a drop *)

Lemma positions_from_shift i l cs :
  Pd.positions_from i l cs = (λ p, i + p)%nat <$> Pd.positions_from 0 l cs.
Proof.
  revert i. induction cs as [|c cs IH]; intros i; cbn [Pd.positions_from]; [done|].
  rewrite (IH (S i)), (IH 1%nat). destruct (same_key c l); csimpl;
    rewrite <- !list_fmap_compose; [f_equal; [lia|]|];
    apply list_fmap_ext; intros; cbn; lia.
Qed.

Lemma positions_from_keep (f : label → bool) i l cs :
  (∀ c, c ∈ cs → same_key c l = true → f c = true) →
  Pd.positions_from i l (Pd.keep (f <$> cs) cs) =
  (λ p, i + kept_before (f <$> cs) p)%nat <$> Pd.positions_from 0 l cs.
Proof.
  revert i. induction cs as [|c cs IH]; intros i Hf; [done|].
  assert (∀ c0, c0 ∈ cs → same_key c0 l = true → f c0 = true) as Hf'
    by (intros; apply Hf; [by right|done]).
  change (f <$> c :: cs) with (f c :: (f <$> cs)).
  cbn [Pd.positions_from Pd.keep].
  rewrite (positions_from_shift 1).
  destruct (f c) eqn:Efc.
  - cbn [Pd.positions_from]. rewrite (IH (S i) Hf').
    destruct (same_key c l).
    + rewrite fmap_cons, <- list_fmap_compose. f_equal; [cbn; lia|].
      apply list_fmap_ext; intros; cbn; lia.
    + rewrite <- list_fmap_compose. apply list_fmap_ext; intros; cbn; lia.
  - rewrite (IH i Hf'). destruct (same_key c l) eqn:E.
    + rewrite Hf in Efc; [done|by left|done].
    + rewrite <- list_fmap_compose. apply list_fmap_ext; intros; cbn; lia.
Qed.

Lemma nth_keep {A} (mask : list bool) p (row : list A) d :
  mask !! p = Some true →
  nth (kept_before mask p) (Pd.keep mask row) d = nth p row d.
Proof.
  revert p row. induction mask as [|b mask IH]; intros p row; [done|].
  destruct row as [|a row].
  - intros _. cbn [Pd.keep]. by destruct (kept_before (b :: mask) p), p.
  - destruct p as [|p]; cbn.
    + by intros [= ->].
    + intros Hp. destruct b; cbn; by apply IH.
Qed.

Lemma positions_from_lookup l cs p :
  p ∈ Pd.positions_from 0 l cs → ∃ c, cs !! p = Some c ∧ same_key c l = true.
Proof.
  revert p. induction cs as [|c cs IH]; intros p; cbn [Pd.positions_from];
    [by intros ?%elem_of_nil|].
  rewrite (positions_from_shift 1).
  destruct (same_key c l) eqn:E.
  - intros [->|Hp]%elem_of_cons; [eauto|].
    apply list_elem_of_fmap in Hp as (q & -> & Hq). by apply IH.
  - intros Hp. apply list_elem_of_fmap in Hp as (q & -> & Hq). by apply IH.
Qed.

(** A column that is not dropped reads the same after the drop. *)
Lemma col_drop ls l df df' :
  (∀ c, same_key c l = true → isin c ls = false) →
  Pd.drop ls df = Ok df' → Pd.col l df' = Pd.col l df.
Proof.
  intros Hl. unfold Pd.drop. destruct (forallb _ ls); [|done]. intros [= <-].
  unfold Pd.col, Pd.positions. cbn [columns rows].
  set (f := λ c, negb (isin c ls)).
  rewrite (positions_from_keep f); last first.
  { intros c _ Hc. unfold f. by rewrite Hl. }
  pose proof (positions_from_lookup l (columns df)) as Hpos.
  destruct (Pd.positions_from 0 l (columns df)) as [|p [|q ps]]; try done.
  csimpl. f_equal. rewrite <- list_fmap_compose. apply list_fmap_ext.
  intros _ row _. cbn. apply nth_keep.
  destruct (Hpos p) as (c & Hc & Hk); [by left|].
  rewrite list_lookup_fmap, Hc. cbn. unfold f. by rewrite Hl.
Qed.

Lemma keys_drop ls l df df' :
  (∀ c, same_key c l = true → isin c ls = false) →
  Pd.drop ls df = Ok df' → Pd.keys l df' = Pd.keys l df.
Proof. intros Hl Hd. unfold Pd.keys. by rewrite (col_drop _ _ _ _ Hl Hd). Qed.

Lemma drop_rows ls df df' :
  Pd.drop ls df = Ok df' →
  index df' = index df ∧ length (rows df') = length (rows df).
Proof.
  unfold Pd.drop. destruct (forallb _ ls); [|done]. intros [= <-].
  cbn. by rewrite length_fmap.
Qed.

Lemma col_length l df cs : Pd.col l df = Ok cs → length cs = length (rows df).
Proof. intros (i & _ & ->)%col_unfold. by rewrite length_fmap. Qed.

Lemma keys_length l df ks : Pd.keys l df = Ok ks → length ks = length (rows df).
Proof.
  unfold Pd.keys. intros (cs & Hc & Hk)%rbind_ok.
  by rewrite (rmap_length _ _ _ Hk), (col_length _ _ _ Hc).
Qed.

(** ** Rows that survive a selection *)

Lemma length_keep {A} mask (l : list A) : (length (Pd.keep mask l) ≤ length l)%nat.
Proof.
  revert l. induction mask as [|b mask IH]; intros [|a l]; cbn; try lia.
  specialize (IH l). destruct b; cbn; lia.
Qed.

Lemma elem_of_keep_range mask s n (i : nat) :
  Z.of_nat i ∈ Pd.keep mask (Z.of_nat <$> seq s n) ↔
  ∃ j, i = (s + j)%nat ∧ mask !! j = Some true ∧ (j < n)%nat.
Proof.
  revert s n. induction mask as [|b mask IH]; intros s n.
  { cbn. split; [by intros ?%elem_of_nil|]. by intros (j & _ & ? & _). }
  destruct n as [|n].
  { cbn. split; [by intros ?%elem_of_nil|]. intros (j & _ & _ & ?). lia. }
  csimpl. assert (Z.of_nat i ∈ Pd.keep mask (Z.of_nat <$> seq (S s) n) ↔
    ∃ j, i = (s + S j)%nat ∧ mask !! j = Some true ∧ (S j < S n)%nat) as Hrest.
  { rewrite IH. split; intros (j & ? & ? & ?); exists j; repeat split; try done; lia. }
  destruct b.
  - rewrite elem_of_cons, Hrest. split.
    + intros [Hi|(j & ? & ? & ?)]; [exists O|exists (S j)]; repeat split; try done; lia.
    + intros ([|j] & ? & Hj & ?); [left; lia|right; exists j; by repeat split].
  - rewrite Hrest. split.
    + intros (j & ? & ? & ?). exists (S j). by repeat split.
    + intros ([|j] & ? & Hj & ?); [done|exists j; by repeat split].
Qed.

Lemma keep_sublist {A} mask (l : list A) : Pd.keep mask l `sublist_of` l.
Proof.
  revert l. induction mask as [|b mask IH]; intros [|a l]; cbn;
    try apply sublist_nil_l.
  destruct b; [apply sublist_skip|apply sublist_cons]; apply IH.
Qed.

Lemma length_keep_same {A B} mask (l1 : list A) (l2 : list B) :
  length l1 = length l2 → length (Pd.keep mask l1) = length (Pd.keep mask l2).
Proof.
  revert l1 l2. induction mask as [|b mask IH]; intros [|a l1] [|c l2] H; cbn;
    try done. cbn in H. destruct b; cbn; rewrite (IH l1 l2); lia.
Qed.

Lemma zip_with_rows_length f vals rs :
  length vals = length rs → length (Pd.zip_with_rows f vals rs) = length rs.
Proof.
  revert rs. induction vals as [|v vals IH]; intros [|r rs] H; cbn in *; try lia.
  rewrite IH; lia.
Qed.

Lemma astype_int_cells_ok cs cs' :
  Pd.astype_int_cells cs = Ok cs' → rmap Pd.int_cell cs = Ok cs'.
Proof. unfold Pd.astype_int_cells. by destruct (existsb _ _). Qed.

Lemma astype_int_col_rows l df df' :
  Pd.astype_int_col l df = Ok df' →
  index df' = index df ∧ length (rows df') = length (rows df).
Proof.
  unfold Pd.astype_int_col.
  intros (cs & Hcs & (cs' & Hcs'%astype_int_cells_ok & H)%rbind_ok)%rbind_ok.
  unfold Pd.set_col in H.
  assert (length cs' = length (rows df)) as Hlen
    by by rewrite (rmap_length _ _ _ Hcs'), (col_length _ _ _ Hcs).
  destruct (Pd.positions l df) as [|i [|??]]; try done; injection H as <-;
    cbn; split; try done; by apply zip_with_rows_length.
Qed.

Lemma lookup_both_masks (f g : scalar → bool) rs us i :
  zip_with andb (f <$> rs) (g <$> us) !! i = Some true ↔
  ∃ r u, rs !! i = Some r ∧ us !! i = Some u ∧ f r = true ∧ g u = true.
Proof.
  rewrite lookup_zip_with_Some. setoid_rewrite list_lookup_fmap. split.
  - intros (a & b & Hab & Ha & Hb).
    destruct (rs !! i) as [r|]; [|done]. destruct (us !! i) as [u|]; [|done].
    cbn in *. injection Ha as <-. injection Hb as <-.
    symmetry in Hab. apply andb_true_iff in Hab as [??]. by exists r, u.
  - intros (r & u & -> & -> & Hr & Hu). exists true, true. cbn.
    by rewrite Hr, Hu.
Qed.

Lemma isin_same_key c l ls : same_key c l = true → isin c ls = isin l ls.
Proof.
  intros E%same_key_eq. unfold isin. induction ls as [|x ls IH]; [done|].
  cbn [existsb]. by rewrite IH, (same_key_ext c l x).
Qed.

Lemma not_dropped l ls c : isin l ls = false → same_key c l = true → isin c ls = false.
Proof. intros H E. by rewrite (isin_same_key c l). Qed.

(** The row labels that a call of [filter_interactions] keeps *)
Lemma filter_interactions_labels csv_file w w' t out :
  files w !! csv_file = Some t →
  filter_interactions csv_file w = (w', Ok out) →
  ∃ recipe_id user_id,
    Pd.keys (SStr "recipe_id") (Pd.of_csv t) = Ok recipe_id ∧
    Pd.keys (SStr "user_id") (Pd.of_csv t) = Ok user_id ∧
    let top_recipe_ids := Pd.top (Z.to_nat 100) recipe_id in
    let top_user_ids := Pd.top (Z.to_nat 30000) user_id in
    most_frequent (Z.to_nat 100) recipe_id top_recipe_ids ∧
    most_frequent (Z.to_nat 30000) user_id top_user_ids ∧
    (∀ i : nat,
       Z.of_nat i ∈ index out ↔
       ∃ r u, recipe_id !! i = Some r ∧ user_id !! i = Some u ∧
              isin r top_recipe_ids = true ∧ isin u top_user_ids = true) ∧
    NoDup (index out) ∧
    length (rows out) = length (index out) ∧
    (length (rows out) ≤ length (records t))%nat.
Proof.
  intros Hf Hrun. unfold filter_interactions in Hrun.
  rewrite (bind_ok _ _ _ _ _ (read_csv_run _ _ _ Hf)) in Hrun.
  apply bind_lift_inv in Hrun as (df & Hdrop & Hrun).
  apply bind_lift_inv in Hrun as (recipe_id & Hrid & Hrun).
  apply bind_lift_inv in Hrun as (user_id & Huid & Hrun).
  apply bind_lift_inv in Hrun as (df1 & H1 & Hrun).
  apply bind_lift_inv in Hrun as (df2 & H2 & Hrun).
  apply bind_lift_inv in Hrun as (df3 & H3 & Hrun).
  injection Hrun as <- <-.
  rewrite (keys_drop _ (SStr "recipe_id") _ _
    (λ c, not_dropped (SStr "recipe_id") [SStr "review"; SStr "date"] c eq_refl)
    Hdrop) in Hrid.
  rewrite (keys_drop _ (SStr "user_id") _ _
    (λ c, not_dropped (SStr "user_id") [SStr "review"; SStr "date"] c eq_refl)
    Hdrop) in Huid.
  exists recipe_id, user_id. split; [done|]. split; [done|]. cbn zeta.
  split; [apply top_most_frequent|]. split; [apply top_most_frequent|].
  destruct (drop_rows _ _ _ Hdrop) as [Hidx Hlen].
  apply astype_int_col_rows in H1 as [I1 L1], H2 as [I2 L2], H3 as [I3 L3].
  cbn [Pd.select index rows] in *.
  assert (length (rows (Pd.of_csv t)) = length (records t)) as Hn
    by (cbn; by rewrite length_fmap).
  rewrite I3, I2, I1, Hidx, L3, L2, L1. cbn [Pd.of_csv index].
  split; [|split; [|split]].
  - intros i. unfold RangeIndex. rewrite elem_of_keep_range. split.
    + intros (j & -> & Hj & _). by apply lookup_both_masks in Hj.
    + intros Hi. exists i. split; [done|]. split; [by apply lookup_both_masks|].
      destruct Hi as (r & _ & Hr & _). apply lookup_lt_Some in Hr.
      rewrite (keys_length _ _ _ Hrid), Hn in Hr. done.
  - eapply sublist_NoDup; [|apply keep_sublist].
    unfold RangeIndex. apply (NoDup_fmap_2 _). apply NoDup_seq.
  - apply length_keep_same. rewrite Hlen, Hn. unfold RangeIndex.
    by rewrite length_fmap, length_seq.
  - etrans; [apply length_keep|]. by rewrite Hlen, Hn.
Qed.

(** ** Columns next to an assigned column *)

Lemma nth_set_nth_ne {A} p q (v d : A) r :
  p ≠ q → nth q (Pd.set_nth p v r) d = nth q r d.
Proof.
  revert p q. induction r as [|a r IH]; intros [|p] [|q] H; cbn; try done.
  apply IH. lia.
Qed.


Lemma positions_disjoint l l' cs p q :
  same_key l l' = false →
  p ∈ Pd.positions_from 0 l cs → q ∈ Pd.positions_from 0 l' cs → p ≠ q.
Proof.
  intros Hne (c & Hc & E)%positions_from_lookup (c' & Hc' & E')%positions_from_lookup ->.
  rewrite Hc in Hc'. injection Hc' as <-.
  apply same_key_eq in E, E'. apply not_true_iff_false in Hne. destruct Hne.
  apply same_key_eq. congruence.
Qed.



(** ** The first loop over the ingredient ids *)


Lemma process_recipe_data_stages filtered_df recipe_csv w pp merged :
  files w !! recipe_csv = Some pp →
  merge_recipes filtered_df (Pd.of_csv pp) = Ok merged →
  process_recipe_data filtered_df recipe_csv w =
  (lift (expand_techniques merged) ≫= λ '(merged_df, processed_df),
    ingredients_df ← lift (one_hot merged_df);
    ingredients_df ← alloc ingredients_df;
    ingredients_df ← filter_ingredient_mapping "ingredient_mapping.csv" ingredients_df;
    ingredients_df ← load ingredients_df;
    processed_df ← lift (Pd.concat_columns processed_df ingredients_df);
    processed_df ← lift (Pd.drop [SStr "ingredient_ids"] processed_df);
    mret processed_df) w.
Proof.
  intros Hf Hm. unfold process_recipe_data.
  rewrite (bind_ok _ _ _ _ _ (read_csv_run _ _ _ Hf)).
  by erewrite bind_lift_ok by exact Hm.
Qed.


(** ** The one-hot frame *)

Lemma fold_add_key_fresh l acc :
  NoDup (acc ++ l) → fold_left Pd.add_key l acc = acc ++ l.
Proof.
  revert acc. induction l as [|k l IH]; intros acc Hnd; cbn [fold_left].
  - by rewrite app_nil_r.
  - unfold Pd.add_key at 2. rewrite bool_decide_eq_false_2.
    + rewrite IH; rewrite <- app_assoc; done.
    + apply NoDup_app in Hnd as (_ & Hd & _). intros Hk. apply (Hd k Hk). by left.
Qed.

Lemma fold_add_key_known l acc :
  (∀ k, k ∈ l → k ∈ acc) → fold_left Pd.add_key l acc = acc.
Proof.
  induction l as [|k l IH]; intros H; cbn [fold_left]; [done|].
  unfold Pd.add_key at 2. rewrite bool_decide_eq_true_2 by (apply H; by left).
  apply IH. intros k' ?. apply H. by right.
Qed.

(** The columns of a frame made of dicts that all have the keys [ks] *)
Lemma from_dicts_same_keys (ks : list Z) (ds : list Pd.dict) :
  NoDup ks → ds ≠ [] → Forall (λ d, d.*1 = ks) ds →
  Pd.from_dicts ds =
  {| index := RangeIndex (length ds);
     columns := SInt <$> ks;
     rows := (λ d, Pd.dict_get d <$> ks) <$> ds |}.
Proof.
  intros Hnd Hne Hall. unfold Pd.from_dicts.
  assert (fold_left (λ acc (d : Pd.dict), fold_left Pd.add_key d.*1 acc) ds [] = ks)
    as ->; [|done].
  destruct ds as [|d ds]; [done|]. apply Forall_cons in Hall as [Hd Hds].
  cbn [fold_left]. rewrite Hd, (fold_add_key_fresh ks []) by done.
  cbn [app]. clear Hne Hd. induction ds as [|d' ds IH]; cbn [fold_left]; [done|].
  apply Forall_cons in Hds as [Hd' Hds]. rewrite Hd', fold_add_key_known by done.
  by apply IH.
Qed.

Lemma dict_get_tabulate (g : Z → Z) (ks : list Z) k :
  k ∈ ks → Pd.dict_get ((λ k, (k, g k)) <$> ks) k = Sc (SInt (g k)).
Proof.
  unfold Pd.dict_get. induction ks as [|k' ks IH]; [by intros ?%elem_of_nil|].
  csimpl. case_bool_decide as E; cbn in E.
  - by subst.
  - intros [?|?]%elem_of_cons; [congruence|]. by apply IH.
Qed.

Lemma collect_ingredient_ids_covers cells u U :
  collect_ingredient_ids cells u = Ok U →
  u ⊆ U ∧
  ∀ i c ids, cells !! i = Some c → on_text parse_ingredient_ids c = Ok ids →
             list_to_set ids ⊆ U.
Proof.
  revert u. induction cells as [|c0 cells IH]; intros u; cbn [collect_ingredient_ids].
  - intros [= <-]. split; [done|]. intros i c ids Hi. by destruct i.
  - intros (ids0 & H0 & H)%rbind_ok. destruct (IH _ H) as [Hu Hall]. clear IH.
    split; [set_solver|]. intros [|i] c ids; cbn.
    + intros [= <-] Hc. rewrite H0 in Hc. injection Hc as <-. set_solver.
    + apply Hall.
Qed.

Lemma row_sum_indicator (P : Z → Prop) `{!∀ k, Decision (P k)} (ks : list Z) :
  row_sum ((λ k, Sc (SInt (if bool_decide (P k) then 1 else 0))) <$> ks)
  = Z.of_nat (length (filter P ks)).
Proof.
  induction ks as [|k ks IH]; [done|]. csimpl. rewrite filter_cons.
  unfold row_sum in *. cbn [foldr]. rewrite IH.
  case_bool_decide; rewrite ?decide_True, ?decide_False by done; cbn [length]; lia.
Qed.

Lemma length_filter_elements (U : gset Z) (ids : list Z) :
  list_to_set ids ⊆ U →
  length (filter (λ k, k ∈ ids) (elements U)) = size (list_to_set ids : gset Z).
Proof.
  intros Hsub. unfold size, set_size. cbn. apply Permutation_length.
  apply NoDup_Permutation.
  - apply NoDup_filter, NoDup_elements.
  - apply NoDup_elements.
  - intros k. rewrite list_elem_of_filter, !elem_of_elements, elem_of_list_to_set.
    split; [by intros [??]|]. intros Hk. split; [done|].
    apply Hsub. by apply elem_of_list_to_set.
Qed.

(** C3, as amended. The one-hot frame has, for the merged row at position
    [i], a row of cells 0 and 1 whose sum is the number of distinct
    ingredient ids in the list of that row: an id that the list repeats is
    counted once. *)
Theorem one_hot_row_counts_distinct_ids merged_df cells oh (i : nat) s ids :
  Pd.col (SStr "ingredient_ids") merged_df = Ok cells →
  one_hot merged_df = Ok oh →
  cells !! i = Some (Sc (SStr s)) →
  parse_ingredient_ids s = Ok ids →
  ∃ row,
    rows oh !! i = Some row ∧
    length row = length (columns oh) ∧
    Forall (λ c, c = Sc (SInt 0) ∨ c = Sc (SInt 1)) row ∧
    row_sum row = Z.of_nat (size (list_to_set ids : gset Z)).
Proof.
  intros Hc Hoh Hi Hs. unfold one_hot in Hoh. rewrite Hc in Hoh. cbn [rbind] in Hoh.
  apply rbind_ok in Hoh as (U & HU & Hoh).
  apply rbind_ok in Hoh as (ds & Hds & [= <-]).
  destruct (collect_ingredient_ids_covers _ _ _ HU) as [_ Hcov].
  assert (list_to_set ids ⊆ U) as Hsub by by eapply Hcov.
  destruct (rmap_lookup _ _ _ _ _ Hds Hi) as (d & Hd & Hrow).
  unfold ingredient_row in Hrow. cbn [on_text] in Hrow. rewrite Hs in Hrow.
  cbn [rbind] in Hrow. injection Hrow as <-.
  rewrite (from_dicts_same_keys (elements U)); first last.
  - clear -Hds. revert ds Hds. induction cells as [|c cells IH]; intros ds; cbn [rmap].
    + intros [= <-]. constructor.
    + intros (d & Hd & (ds' & Hds' & [= <-])%rbind_ok)%rbind_ok.
      constructor; [|by apply IH]. unfold ingredient_row in Hd.
      apply rbind_ok in Hd as (? & _ & [= <-]).
      rewrite <- list_fmap_compose. apply list_fmap_id.
  - intros ->. done.
  - apply NoDup_elements.
  - set (ind := λ k, if bool_decide (k ∈ ids) then 1 else 0) in *.
    exists ((λ k, Sc (SInt (ind k))) <$> elements U).
    assert ((λ c, if isna c then Sc (SInt 0) else c) <$>
              (Pd.dict_get ((λ k, (k, ind k)) <$> elements U) <$> elements U)
            = (λ k, Sc (SInt (ind k))) <$> elements U) as Hfill.
    { rewrite <- list_fmap_compose. apply list_fmap_ext. intros j k Hk. cbn.
      rewrite dict_get_tabulate; [done|]. by eapply list_elem_of_lookup_2. }
    cbn [Pd.fillna0 rows columns]. split.
    { rewrite list_lookup_fmap, list_lookup_fmap, Hd.
      cbn [fmap option_fmap option_map]. f_equal. exact Hfill. }
    split; [by rewrite !length_fmap|]. split.
    + apply Forall_fmap, Forall_forall. intros k _. cbn. unfold ind.
      case_bool_decide; auto.
    + unfold ind. rewrite (row_sum_indicator (λ k, k ∈ ids)).
      by rewrite length_filter_elements.
Qed.

(** ** The nutrition column *)

Lemma rmap_err {A B} (f : A → result B) l x :
  x ∈ l → is_err (f x) → is_err (rmap f l).
Proof.
  induction l as [|a l IH]; [by intros ?%elem_of_nil|].
  intros Hx Hf. cbn [rmap]. destruct (f a) as [b|e] eqn:E; [|by exists e].
  apply elem_of_cons in Hx as [->|Hx].
  - destruct Hf as [e He]. congruence.
  - destruct (IH Hx Hf) as [e ->]. by exists e.
Qed.

Lemma rbind_err {A B} (r : result A) (k : A → result B) :
  is_err r → is_err (rbind r k).
Proof. intros [e ->]. by exists e. Qed.

Lemma col_select l mask df cs :
  Pd.col l df = Ok cs → Pd.col l (Pd.select mask df) = Ok (Pd.keep mask cs).
Proof.
  intros (i & Hi & ->)%col_unfold. unfold Pd.col, Pd.positions in *.
  cbn [Pd.select columns rows]. rewrite Hi. by rewrite keep_fmap.
Qed.

Lemma dropna_col l df cells :
  Pd.col l df = Ok cells →
  ∃ df', Pd.dropna l df = Ok df' ∧
         df' = Pd.select ((λ c, negb (isna c)) <$> cells) df ∧
         Pd.col l df' = Ok (List.filter (λ c, negb (isna c)) cells).
Proof.
  intros Hc. unfold Pd.dropna. rewrite Hc. cbn [rbind]. eexists.
  split; [done|]. split; [done|].
  by rewrite (col_select _ _ _ _ Hc), keep_map_filter.
Qed.

Lemma select_rectangular mask df : rectangular df → rectangular (Pd.select mask df).
Proof.
  unfold rectangular. cbn [Pd.select rows columns]. generalize (rows df).
  induction mask as [|b mask IH]; intros [|r rs] H; cbn; try constructor.
  apply Forall_cons in H as [??]. destruct b; [constructor|]; auto.
Qed.

Lemma nth_set_nth_eq {A} p (v d : A) r :
  (p < length r)%nat → nth p (Pd.set_nth p v r) d = v.
Proof.
  revert p. induction r as [|a r IH]; intros [|p] H; cbn in *; try lia; [done|].
  apply IH. lia.
Qed.

Lemma col_set_col_same l vals df df' cs :
  rectangular df →
  Pd.col l df = Ok cs →
  length vals = length (rows df) →
  Pd.set_col l vals df = Ok df' →
  Pd.col l df' = Ok vals ∧ index df' = index df ∧ columns df' = columns df.
Proof.
  intros Hrect (p & Hp & _)%col_unfold Hlen. unfold Pd.set_col. rewrite Hp.
  intros [= <-]. unfold Pd.col, Pd.positions in *. cbn [columns rows index].
  rewrite Hp. split; [|done]. f_equal.
  assert (p < length (columns df))%nat as Hlt.
  { destruct (positions_from_lookup l (columns df) p) as (c & Hc & _).
    - rewrite Hp. by left.
    - by eapply lookup_lt_Some. }
  unfold rectangular in Hrect. revert vals Hlen Hrect. generalize (rows df).
  intros rs. induction rs as [|r rs IH]; intros [|v vals] Hlen Hrect; try done.
  apply Forall_cons in Hrect as [Hr Hrs]. csimpl. f_equal.
  - apply nth_set_nth_eq. by rewrite Hr.
  - apply IH; [|done]. cbn in Hlen. lia.
Qed.

Lemma tolist_lists (lists : list (list scalar)) : Pd.tolist (Lst <$> lists) = Ok lists.
Proof.
  unfold Pd.tolist. induction lists as [|l lists IH]; [done|].
  csimpl. cbn [rmap rbind]. by rewrite IH.
Qed.

(** The stages of [process_nutrition_column] up to the frame of the seven
    columns *)
Lemma process_nutrition_column_lists df cells lists :
  rectangular df →
  Pd.col (SStr "nutrition") df = Ok cells →
  rmap (on_text parse_nutrition) (List.filter (λ c, negb (isna c)) cells) = Ok lists →
  ∃ df2,
    index df2 = Pd.keep ((λ c, negb (isna c)) <$> cells) (index df) ∧
    columns df2 = columns df ∧
    process_nutrition_column df =
      (let? nutrition_df := Pd.from_lists lists (Some nutrition_columns) in
       let? processed_df := Pd.concat_columns df2 nutrition_df in
       Pd.drop [SStr "nutrition"] processed_df).
Proof.
  intros Hrect Hc Hl. unfold process_nutrition_column.
  destruct (dropna_col _ _ _ Hc) as (df1 & -> & Hdf1 & Hc1). cbn [rbind].
  rewrite Hc1. cbn [rbind]. rewrite Hl. cbn [rbind].
  assert (rectangular df1) as Hrect1 by (subst df1; by apply select_rectangular).
  assert (length (Lst <$> lists) = length (rows df1)) as Hlen.
  { by rewrite length_fmap, (rmap_length _ _ _ Hl), <- (col_length _ _ _ Hc1). }
  destruct (Pd.set_col (SStr "nutrition") (Lst <$> lists) df1) as [df2|e] eqn:Hset.
  2:{ unfold Pd.set_col in Hset. apply col_unfold in Hc1 as (p & Hp & _).
      by rewrite Hp in Hset. }
  destruct (col_set_col_same _ _ _ _ _ Hrect1 Hc1 Hlen Hset) as (Hc2 & Hi2 & Hcol2).
  cbn [rbind]. rewrite Hc2. cbn [rbind]. rewrite tolist_lists. cbn [rbind].
  exists df2. split; [by rewrite Hi2, Hdf1|]. split; [by rewrite Hcol2, Hdf1|done].
Qed.

Lemma positions_isin l cs p :
  p ∈ Pd.positions_from 0 l cs → isin l cs = true.
Proof.
  intros (c & Hc & E)%positions_from_lookup. apply isin_eq.
  apply same_key_eq in E. rewrite <- E.
  apply list_elem_of_fmap. exists c. split; [done|]. by eapply list_elem_of_lookup_2.
Qed.

Lemma concat_columns_ok a b :
  NoDup (index a) → NoDup (index b) →
  ∃ out, Pd.concat_columns a b = Ok out ∧ columns out = columns a ++ columns b.
Proof.
  intros Ha Hb. unfold Pd.concat_columns. case_bool_decide; [by eexists|].
  rewrite !bool_decide_eq_true_2 by done. by eexists.
Qed.

(** ** The properties on the sample tables *)

(** C2, counterexample. The second nutrition cell of [nutrition_short]
    parses to two floats, and [process_nutrition_column] returns a frame all
    the same: the row has its two values under calories and percent_fat and
    NaN under the other five names. *)
Lemma short_nutrition_list_accepted :
  Pd.col (SStr "nutrition") Sample.nutrition_short
    = Ok [Sc (SStr "[1.0, 2.0, 3.0, 4.0, 5.0, 6.0, 7.0]"); Sc (SStr "[1.0, 2.0]")] ∧
  parse_nutrition "[1.0, 2.0]" = Ok [SFloat 1; SFloat 2] ∧
  length [SFloat 1; SFloat 2] ≠ 7%nat ∧
  process_nutrition_column Sample.nutrition_short = Ok Sample.expanded_short.
Proof. repeat split; try (vm_compute; reflexivity). discriminate. Qed.

(** C3, counterexample. The recipe of [pp_recipes_csv] lists the ingredient
    5 twice; the row [process_recipe_data] returns for it has one one-hot
    column, salt, with the cell 1, so its one-hot cells sum to 1 while the
    list has 2 ingredient ids. *)
Lemma repeated_ingredient_counted_once :
  (process_recipe_data Sample.filtered_one "PP_recipes.csv"
     (Sample.world Sample.pp_recipes_csv Sample.mapping_csv)).2
    = Ok Sample.processed_one ∧
  merge_recipes Sample.filtered_one (Pd.of_csv Sample.pp_recipes_csv)
    = Ok Sample.merged_one ∧
  Pd.col (SStr "ingredient_ids") Sample.merged_one = Ok [Sc (SStr "[5, 5]")] ∧
  parse_ingredient_ids "[5, 5]" = Ok [5; 5] ∧
  one_hot Sample.merged_one = Ok Sample.one_hot_one ∧
  Pd.col (SStr "salt") Sample.processed_one = Ok [Sc (SInt 1)] ∧
  row_sum [Sc (SInt 1)] ≠ Z.of_nat (length [5; 5]).
Proof. repeat split; try (vm_compute; reflexivity). discriminate. Qed.

(** C5, at the failing input. The interaction with the recipe 7 finds no
    recipe and is dropped; the interaction with the recipe 8, whose
    techniques are [[1, 0, 2]], keeps the label 1, while the techniques
    frame numbers its only row 0. In the frame [process_recipe_data]
    returns the retained row has NaN under technique_0, technique_1 and
    technique_2, and the values 1, 0, 2 stand in a row of their own. *)
Theorem techniques_misplaced_after_dropped_row :
  merge_recipes Sample.filtered (Pd.of_csv Sample.pp_recipes_csv)
    = Ok Sample.merged_gap ∧
  Pd.col (SStr "techniques") Sample.merged_gap = Ok [Sc (SStr "[1, 0, 2]")] ∧
  parse_techniques "[1, 0, 2]" = Ok [SInt 1; SInt 0; SInt 2] ∧
  (process_recipe_data Sample.filtered "PP_recipes.csv"
     (Sample.world Sample.pp_recipes_csv Sample.mapping_csv)).2
    = Ok Sample.processed_gap ∧
  Pd.row_at Sample.processed_gap 1 =
    [Sc (SInt 2); Sc (SInt 8); Sc (SInt 4); Sc (SInt 8); Sc (SInt 0);
     Sc (SInt 1); NaN; NaN; NaN; NaN].
Proof. repeat split; vm_compute; reflexivity. Qed.

(** C6, at the failing input. The first row of [nutrition_gap] has no
    nutrition and is dropped; the second, whose nutrition is the text of the
    claim, keeps the label 1, while the frame of the seven columns numbers
    its only row 0. In the frame [process_nutrition_column] returns the
    retained row has NaN under the seven names, and the seven values stand
    in a row of their own. *)
Theorem nutrition_misplaced_after_dropped_row :
  parse_nutrition "[100.0, 20.0, 5.0, 3.0, 10.0, 2.0, 15.0]"
    = Ok [SFloat 100; SFloat 20; SFloat 5; SFloat 3; SFloat 10; SFloat 2; SFloat 15] ∧
  process_nutrition_column Sample.nutrition_gap = Ok Sample.expanded_gap ∧
  Pd.row_at Sample.expanded_gap 1 =
    [Sc (SInt 8); NaN; NaN; NaN; NaN; NaN; NaN; NaN].
Proof. repeat split; vm_compute; reflexivity. Qed.

(** Without a dropped row both expansions put the values where the
    specification says. *)
Example techniques_expand_in_order :
  (process_recipe_data Sample.filtered_one "PP_recipes.csv"
     (Sample.world Sample.pp_recipes_csv Sample.mapping_csv)).2
    = Ok Sample.processed_one ∧
  Pd.col (SStr "technique_0") Sample.processed_one = Ok [Sc (SInt 1)] ∧
  Pd.col (SStr "technique_1") Sample.processed_one = Ok [Sc (SInt 0)] ∧
  Pd.col (SStr "technique_2") Sample.processed_one = Ok [Sc (SInt 2)].
Proof. repeat split; vm_compute; reflexivity. Qed.

Example nutrition_expands_in_order :
  process_nutrition_column
    {| index := [0];
       columns := [SStr "recipe_id"; SStr "nutrition"];
       rows := [[Sc (SInt 8);
                 Sc (SStr "[100.0, 20.0, 5.0, 3.0, 10.0, 2.0, 15.0]")]] |}
  = Ok {| index := [0];
          columns := SStr "recipe_id" :: nutrition_columns;
          rows := [[Sc (SInt 8); Sc (SFloat 100); Sc (SFloat 20); Sc (SFloat 5);
                    Sc (SFloat 3); Sc (SFloat 10); Sc (SFloat 2);
                    Sc (SFloat 15)]] |}.
Proof. vm_compute. reflexivity. Qed.

(** ** The theorems at the sample tables *)

Lemma one_hot_row_counts_distinct_ids_witness :
  ∃ row,
    rows Sample.one_hot_one !! 0%nat = Some row ∧
    length row = length (columns Sample.one_hot_one) ∧
    Forall (λ c, c = Sc (SInt 0) ∨ c = Sc (SInt 1)) row ∧
    row_sum row = Z.of_nat (size (list_to_set [5; 5] : gset Z)).
Proof.
  apply (one_hot_row_counts_distinct_ids Sample.merged_one
           [Sc (SStr "[5, 5]")] Sample.one_hot_one 0%nat "[5, 5]" [5; 5]);
    vm_compute; reflexivity.
Defined.

Lemma colliding_renames_duplicate_names_witness :
  ∃ w' df',
    filter_ingredient_mapping "ingredient_mapping.csv" 0%nat Sample.one_hot_world
      = (w', Ok 0%nat) ∧
    heap w' !! 0%nat = Some df' ∧
    columns df' !! 0%nat = Some (SStr "salt") ∧
    columns df' !! 1%nat = Some (SStr "salt") ∧
    0%nat ≠ 1%nat ∧
    ¬ NoDup (columns df') ∧
    length (columns df') = length (columns Sample.one_hot_df) ∧
    rows df' = rows Sample.one_hot_df.
Proof.
  apply (colliding_renames_duplicate_names "ingredient_mapping.csv" 0%nat
           Sample.one_hot_world Sample.mapping_csv Sample.one_hot_df
           [5; 9] 0%nat 1%nat 5 9 "salt").
  - vm_compute. reflexivity.
  - reflexivity.
  - reflexivity.
  - repeat constructor; eexists; vm_compute; reflexivity.
  - reflexivity.
  - reflexivity.
  - discriminate.
  - vm_compute. reflexivity.
  - vm_compute. reflexivity.
Defined.

Lemma missing_mapping_row_is_fatal_witness :
  ∃ w',
    main (Sample.world Sample.pp_recipes_csv Sample.mapping_short_csv)
      = (w', Err IndexError) ∧
    files w' = files (Sample.world Sample.pp_recipes_csv Sample.mapping_short_csv).
Proof.
  assert (∃ merged' processed,
            expand_techniques Sample.merged_gap = Ok (merged', processed) ∧
            one_hot merged' = Ok Sample.one_hot_one)
    as (merged' & processed & Ht & Ho).
  { eexists _, _. split; vm_compute; reflexivity. }
  apply (proj2 (proj2 (missing_mapping_row_is_fatal
    (Sample.world Sample.pp_recipes_csv Sample.mapping_short_csv)
    (Sample.world Sample.pp_recipes_csv Sample.mapping_short_csv)
    Sample.filtered Sample.pp_recipes_csv Sample.merged_gap merged' processed
    Sample.one_hot_one
    Sample.mapping_short_csv [Sc (SInt 9)] [Sc (SStr "salt")] 5
    ltac:(vm_compute; reflexivity) ltac:(vm_compute; reflexivity)
    ltac:(vm_compute; reflexivity) Ht Ho
    ltac:(vm_compute; reflexivity) ltac:(vm_compute; reflexivity)
    ltac:(vm_compute; reflexivity) ltac:(by left)
    ltac:(intros (c & Hc & E); apply list_elem_of_singleton in Hc; subst c;
          vm_compute in E; discriminate E)))).
Defined.



(** ** More about the ingredient name mapper *)

(** X1. The frame the first loop builds (lines 139-142) has the columns of
    the mapping table and rows of the mapping table only, and for every
    column id the lookup of line 150 finds in it what it would find in the
    mapping table itself. *)
Theorem lookup_in_filtered_frame_is_lookup_in_table all ks f :
  gather_rows all (SInt <$> ks)
    {| index := []; columns := columns all; rows := [] |} = Ok f →
  columns f = columns all ∧
  (∀ row, row ∈ rows f → row ∈ rows all) ∧
  (∀ k, k ∈ ks → replacement f (SInt k) = replacement all (SInt k)).
Proof.
  intros Hg. destruct ks as [|k0 ks].
  { injection Hg as <-. split; [done|]. split; [by intros ? ?%elem_of_nil|].
    by intros ? ?%elem_of_nil. }
  destruct (Pd.col (SStr "id") all) as [ids|e] eqn:Eid.
  2:{ cbn in Hg. unfold rows_with_id in Hg. by rewrite Eid in Hg. }
  apply col_unfold in Eid as (i & Hi & _).
  destruct (gather_rows_rows all (k0 :: ks)
    {| index := []; columns := columns all; rows := [] |} i Hi)
    as (f' & Hf' & Hc & Hr).
  rewrite Hg in Hf'. injection Hf' as <-. cbn [columns rows] in *.
  split; [done|]. split.
  - intros row. rewrite Hr, app_nil_l. intros Hin.
    apply list_elem_of_In, in_concat in Hin as (l & Hl & Hrow).
    apply list_elem_of_In, list_elem_of_fmap in Hl as (k & -> & _).
    apply List.filter_In in Hrow as [Hrow _]. by apply list_elem_of_In.
  - intros k Hk. by eapply replacement_gathered.
Qed.

Lemma lookup_in_filtered_frame_is_lookup_in_table_witness :
  ∃ f,
    gather_rows (Pd.of_csv Sample.mapping_csv) (SInt <$> [5; 9])
      {| index := []; columns := columns (Pd.of_csv Sample.mapping_csv);
         rows := [] |} = Ok f ∧
    columns f = columns (Pd.of_csv Sample.mapping_csv) ∧
    (∀ row, row ∈ rows f → row ∈ rows (Pd.of_csv Sample.mapping_csv)) ∧
    (∀ k, k ∈ [5; 9] →
       replacement f (SInt k) = replacement (Pd.of_csv Sample.mapping_csv) (SInt k)).
Proof.
  eexists. split; [vm_compute; reflexivity|].
  apply (lookup_in_filtered_frame_is_lookup_in_table
           (Pd.of_csv Sample.mapping_csv) [5; 9]).
  vm_compute. reflexivity.
Defined.

Lemma filter_head {A} (p : A → bool) (l : list A) x rest :
  List.filter p l = x :: rest →
  ∃ n, l !! n = Some x ∧ p x = true ∧
       ∀ m y, (m < n)%nat → l !! m = Some y → p y = false.
Proof.
  induction l as [|a l IH]; [done|]. cbn [List.filter].
  destruct (p a) eqn:E.
  - intros [= -> _]. exists O. split; [done|]. split; [done|]. intros; lia.
  - intros (n & Hn & Hx & Hb)%IH. exists (S n). split; [done|]. split; [done|].
    intros [|m] y Hm; cbn; [by intros [= <-]|]. apply Hb. lia.
Qed.

Lemma nth_of_csv (row : list scalar) i : nth i (Sc <$> row) NaN = Sc (nth i row SNaN).
Proof. revert i. induction row as [|a row IH]; intros [|i]; cbn; auto. Qed.

(** The lookup of line 150 in a table read from a file: the [replaced]
    value of the first line, in file order, whose id is [k]. *)
Lemma replacement_first_line t (i j : nat) k v :
  Pd.positions (SStr "id") (Pd.of_csv t) = [i] →
  Pd.positions (SStr "replaced") (Pd.of_csv t) = [j] →
  replacement (Pd.of_csv t) (SInt k) = Ok v →
  ∃ n row,
    records t !! n = Some row ∧
    py_eq (nth i row SNaN) (SInt k) = true ∧
    (∀ m row', (m < n)%nat → records t !! m = Some row' →
       py_eq (nth i row' SNaN) (SInt k) = false) ∧
    v = nth j row SNaN.
Proof.
  intros Hi Hj. rewrite (replacement_first_hit _ i j) by done. unfold first_hit.
  destruct (List.filter _ _) as [|r0 rest] eqn:E; [done|].
  apply filter_head in E as (n & Hn & Hp & Hb). cbn [Pd.of_csv rows] in Hn, Hb.
  rewrite list_lookup_fmap in Hn.
  destruct (records t !! n) as [row|] eqn:Hrow; [|done]. injection Hn as <-.
  rewrite nth_of_csv in Hp |- *. cbn [Pd.hashable eq_int] in *. intros [= <-].
  exists n, row. split; [done|]. split; [done|]. split; [|done].
  intros m row' Hm Hrow'. specialize (Hb m (Sc <$> row') Hm).
  rewrite list_lookup_fmap, Hrow', nth_of_csv in Hb. by apply Hb.
Qed.

(** X2. After a call that returns normally, each column of the caller's
    frame carries the [replaced] text of the first line of the mapping file,
    in file order, whose id is the ingredient id the column had for a name:
    when an id has several lines, the later ones are never used. *)
Theorem columns_take_first_mapping_line
    csv r w w' r' t df ks (i j : nat) :
  files w !! csv = Some t →
  heap w !! r = Some df →
  columns df = SInt <$> ks →
  Pd.positions (SStr "id") (Pd.of_csv t) = [i] →
  Pd.positions (SStr "replaced") (Pd.of_csv t) = [j] →
  Forall (λ row, ∃ s, nth j row SNaN = SStr s) (records t) →
  filter_ingredient_mapping csv r w = (w', Ok r') →
  ∃ df',
    heap w' !! r = Some df' ∧
    ∀ p k, ks !! p = Some k →
      ∃ n row s,
        records t !! n = Some row ∧
        py_eq (nth i row SNaN) (SInt k) = true ∧
        (∀ m row', (m < n)%nat → records t !! m = Some row' →
           py_eq (nth i row' SNaN) (SInt k) = false) ∧
        nth j row SNaN = SStr s ∧
        columns df' !! p = Some (SStr s).
Proof.
  intros Hf Hr Hc Hi Hj Htext Hrun.
  destruct (filter_ingredient_mapping_ok _ _ _ _ _ _ _ _ Hf Hr Hc Hrun)
    as (-> & Hok & ->).
  set (look := λ k, replacement (Pd.of_csv t) (SInt k)) in *.
  exists (with_columns (rename_all look ks (columns df)).1 df).
  split; [cbn; apply list_lookup_insert_eq; by eapply lookup_lt_Some|].
  intros p k Hp.
  assert (k ∈ ks) as Hin by by eapply list_elem_of_lookup_2.
  destruct (rename_all_ok_look _ _ _ k Hok Hin) as [v Hv].
  destruct (replacement_first_line _ _ _ _ _ Hi Hj Hv) as (n & row & Hn & Hk & Hb & ->).
  rewrite Forall_forall in Htext.
  destruct (Htext row) as [s Hs]; [by eapply list_elem_of_lookup_2|].
  exists n, row, s. repeat split; try done.
  cbn [with_columns columns]. apply rename_all_int with k; try done.
  - by rewrite Hv, Hs.
  - by rewrite Hc, list_lookup_fmap, Hp.
Qed.

Lemma columns_take_first_mapping_line_witness :
  ∃ df',
    heap (set_heap [Sample.one_hot_renamed] Sample.one_hot_world) !! 0%nat = Some df' ∧
    ∀ p k, [5; 9] !! p = Some k →
      ∃ n row s,
        records Sample.mapping_csv !! n = Some row ∧
        py_eq (nth 2 row SNaN) (SInt k) = true ∧
        (∀ m row', (m < n)%nat → records Sample.mapping_csv !! m = Some row' →
           py_eq (nth 2 row' SNaN) (SInt k) = false) ∧
        nth 1 row SNaN = SStr s ∧
        columns df' !! p = Some (SStr s).
Proof.
  apply (columns_take_first_mapping_line "ingredient_mapping.csv" 0%nat
           Sample.one_hot_world
           (set_heap [Sample.one_hot_renamed] Sample.one_hot_world) 0%nat
           Sample.mapping_csv Sample.one_hot_df [5; 9] 2 1).
  - vm_compute. reflexivity.
  - reflexivity.
  - reflexivity.
  - vm_compute. reflexivity.
  - vm_compute. reflexivity.
  - repeat constructor; eexists; reflexivity.
  - vm_compute. reflexivity.
Defined.

(** ** A failed call *)

Lemma rename_all_stops (look : Z → result label) (tgt : Z → string) done k rest e cur :
  Forall (λ d, look d = Ok (SStr (tgt d))) done →
  look k = Err e →
  Forall (λ c, (∃ z, c = SInt z) ∨ (∃ s, c = SStr s)) cur →
  rename_all look (done ++ k :: rest) cur =
  ((λ c, match c with
         | SInt z => if bool_decide (z ∈ done) then SStr (tgt z) else c
         | _ => c
         end) <$> cur, Err e).
Proof.
  intros Hdone Hk. revert cur. induction Hdone as [|d done Hd Hdone IH]; intros cur Hcur.
  - cbn [app rename_all]. rewrite Hk. f_equal. symmetry.
    erewrite list_fmap_ext; [apply list_fmap_id|]. by intros ? [] ?.
  - cbn [app rename_all]. rewrite Hd, IH.
    + f_equal. rewrite <- list_fmap_compose. apply list_fmap_ext.
      intros n c Hn. rewrite Forall_forall in Hcur.
      destruct (Hcur c) as [[z ->]|[s ->]]; [by eapply list_elem_of_lookup_2| |done].
      cbn [compose]. rewrite renamed_int.
      destruct (decide (z = d)) as [->|Hne].
      * rewrite !bool_decide_eq_true_2; [done|by left|done].
      * rewrite (bool_decide_eq_false_2 (z = d)) by done.
        apply (f_equal (λ b : bool, if b then SStr (tgt z) else SInt z)).
        apply bool_decide_ext. rewrite elem_of_cons. tauto.
    + apply Forall_fmap. eapply Forall_impl; [exact Hcur|]. intros c [[z ->]|[s ->]].
      * unfold compose. rewrite renamed_int. case_bool_decide; eauto.
      * right. by exists s.
Qed.

(** X3. When the columns [done] have a mapping line and the next column
    [k] has none, the call ends with IndexError and the caller's frame is
    left half renamed: the columns of [done] carry their new names, [k]
    and the columns after it their ingredient ids. The renames made before
    the error are not undone. *)
Theorem failed_call_leaves_frame_half_renamed
    csv r w t df done k rest ids reps (tgt : Z → string) :
  files w !! csv = Some t →
  heap w !! r = Some df →
  columns df = SInt <$> (done ++ k :: rest) →
  Pd.col (SStr "id") (Pd.of_csv t) = Ok ids →
  Pd.col (SStr "replaced") (Pd.of_csv t) = Ok reps →
  Forall (λ d, replacement (Pd.of_csv t) (SInt d) = Ok (SStr (tgt d))) done →
  ¬ has_row k ids →
  ∃ w' df',
    filter_ingredient_mapping csv r w = (w', Err IndexError) ∧
    heap w' !! r = Some df' ∧
    index df' = index df ∧
    rows df' = rows df ∧
    columns df' =
      (λ z, if bool_decide (z ∈ done) then SStr (tgt z) else SInt z)
        <$> (done ++ k :: rest).
Proof.
  intros Hf Hr Hc Hid Hrep Hdone Hno.
  rewrite (filter_ingredient_mapping_run _ _ _ _ _ _ _ Hf Hr Hc Hid). cbn zeta.
  assert (replacement (Pd.of_csv t) (SInt k) = Err IndexError) as Hk.
  { apply col_unfold in Hid as (i & Hi & ->).
    apply col_unfold in Hrep as (j & Hj & _).
    rewrite (replacement_first_hit _ i j) by done. by apply first_hit_missing. }
  rewrite (rename_all_stops _ tgt done k rest IndexError); try done.
  2:{ rewrite Hc. apply Forall_fmap, Forall_forall. intros z _. left. by exists z. }
  cbn [fst snd]. eexists _, _. split; [done|]. cbn [set_heap heap].
  split; [apply list_lookup_insert_eq; by eapply lookup_lt_Some|].
  cbn [with_columns index rows columns]. repeat split.
  rewrite Hc, <- list_fmap_compose. done.
Qed.

Lemma failed_call_leaves_frame_half_renamed_witness :
  ∃ w' df',
    filter_ingredient_mapping "ingredient_mapping.csv" 0%nat
      {| files := <["ingredient_mapping.csv" := Sample.mapping_short_csv]> ∅;
         heap := [{| index := [0]; columns := [SInt 9; SInt 5];
                     rows := [[Sc (SInt 1); Sc (SInt 0)]] |}];
         stdout := [] |} = (w', Err IndexError) ∧
    heap w' !! 0%nat = Some df' ∧
    index df' = [0] ∧
    rows df' = [[Sc (SInt 1); Sc (SInt 0)]] ∧
    columns df' =
      (λ z, if bool_decide (z ∈ [9]) then SStr "salt" else SInt z) <$> ([9] ++ 5 :: []).
Proof.
  apply (failed_call_leaves_frame_half_renamed "ingredient_mapping.csv" 0%nat
           _ Sample.mapping_short_csv
           {| index := [0]; columns := [SInt 9; SInt 5];
              rows := [[Sc (SInt 1); Sc (SInt 0)]] |}
           [9] 5 [] [Sc (SInt 9)] [Sc (SStr "salt")] (λ _, "salt")).
  - vm_compute. reflexivity.
  - reflexivity.
  - reflexivity.
  - vm_compute. reflexivity.
  - vm_compute. reflexivity.
  - repeat constructor.
  - intros (c & Hc & E). apply list_elem_of_singleton in Hc. subst c.
    vm_compute in E. discriminate E.
Defined.

(** ** More about the one-hot frame *)

#[local] Instance SInt_inj : Inj (=) (=) SInt.
Proof. by intros ?? [=]. Qed.

Lemma collect_ingredient_ids_exact cells u U :
  collect_ingredient_ids cells u = Ok U →
  ∀ k, k ∈ U ↔
       k ∈ u ∨ ∃ i c ids, cells !! i = Some c ∧
                          on_text parse_ingredient_ids c = Ok ids ∧ k ∈ ids.
Proof.
  revert u. induction cells as [|c0 cells IH]; intros u; cbn [collect_ingredient_ids].
  - intros [= <-] k. split; [auto|]. intros [?|(i & c & ids & Hi & _)]; [done|].
    by destruct i.
  - intros (ids0 & H0 & H)%rbind_ok k. rewrite (IH _ H k), elem_of_union.
    rewrite elem_of_list_to_set. clear IH. split.
    + intros [[?|?]|(i & c & ids & Hi & Hc & Hk)]; [by left| |].
      * right. by exists O, c0, ids0.
      * right. by exists (S i), c, ids.
    + intros [?|([|i] & c & ids & Hi & Hc & Hk)]; [by left; left| |].
      * cbn in Hi. injection Hi as <-. rewrite H0 in Hc. injection Hc as <-.
        left. by right.
      * right. by exists i, c, ids.
Qed.

Lemma ingredient_rows_keys U cells ds :
  rmap (ingredient_row U) cells = Ok ds → Forall (λ d : Pd.dict, d.*1 = elements U) ds.
Proof.
  revert ds. induction cells as [|c cells IH]; intros ds; cbn [rmap].
  - intros [= <-]. constructor.
  - intros (d & Hd & (ds' & Hds' & [= <-])%rbind_ok)%rbind_ok.
    constructor; [|by apply IH]. unfold ingredient_row in Hd.
    apply rbind_ok in Hd as (? & _ & [= <-]).
    rewrite <- list_fmap_compose. apply list_fmap_id.
Qed.

(** The one-hot frame of a merged frame that has rows: a column for each
    id of the set, in the order of [elements], and in each row the cell 1
    under the ids of its list and 0 under the others. *)
Lemma one_hot_shape merged_df cells oh :
  Pd.col (SStr "ingredient_ids") merged_df = Ok cells →
  one_hot merged_df = Ok oh →
  cells ≠ [] →
  ∃ U,
    collect_ingredient_ids cells ∅ = Ok U ∧
    columns oh = SInt <$> elements U ∧
    ∀ i s ids,
      cells !! i = Some (Sc (SStr s)) → parse_ingredient_ids s = Ok ids →
      rows oh !! i =
        Some ((λ k, Sc (SInt (if bool_decide (k ∈ ids) then 1 else 0)))
                <$> elements U).
Proof.
  intros Hc Hoh Hne. unfold one_hot in Hoh. rewrite Hc in Hoh. cbn [rbind] in Hoh.
  apply rbind_ok in Hoh as (U & HU & Hoh).
  apply rbind_ok in Hoh as (ds & Hds & [= <-]).
  exists U. split; [done|].
  rewrite (from_dicts_same_keys (elements U)); first last.
  - by eapply ingredient_rows_keys.
  - intros ->. destruct cells; [done|]. cbn [rmap] in Hds.
    by apply rbind_ok in Hds as (? & _ & (? & _ & ?)%rbind_ok).
  - apply NoDup_elements.
  - cbn [Pd.fillna0 columns rows]. split; [done|]. intros i s ids Hi Hs.
    destruct (rmap_lookup _ _ _ _ _ Hds Hi) as (d & Hd & Hrow).
    unfold ingredient_row in Hrow. cbn [on_text] in Hrow. rewrite Hs in Hrow.
    cbn [rbind] in Hrow. injection Hrow as <-.
    rewrite list_lookup_fmap, list_lookup_fmap, Hd.
    cbn [fmap option_fmap option_map]. f_equal.
    rewrite <- list_fmap_compose. apply list_fmap_ext. intros j k Hk. cbn.
    rewrite (dict_get_tabulate (λ k, if bool_decide (k ∈ ids) then 1 else 0));
      [done|]. by eapply list_elem_of_lookup_2.
Qed.

(** X4. The one-hot frame of lines 83-108 has one column for each
    ingredient id that occurs in the list of some merged row and no other,
    no id twice; in the row of a merged row the cell under an id is 1 when
    the id occurs in the list of that row and 0 when it does not, so the
    set of ingredients of a row can be read back from its one-hot cells. *)
Theorem one_hot_cells_tell_the_ingredients merged_df cells oh (i : nat) s ids :
  Pd.col (SStr "ingredient_ids") merged_df = Ok cells →
  one_hot merged_df = Ok oh →
  cells !! i = Some (Sc (SStr s)) →
  parse_ingredient_ids s = Ok ids →
  NoDup (columns oh) ∧
  Forall (λ c, ∃ k, c = SInt k) (columns oh) ∧
  (∀ k, SInt k ∈ columns oh ↔
        ∃ i' c ids', cells !! i' = Some c ∧
                     on_text parse_ingredient_ids c = Ok ids' ∧ k ∈ ids') ∧
  ∃ row,
    rows oh !! i = Some row ∧
    ∀ p k, columns oh !! p = Some (SInt k) →
           row !! p = Some (Sc (SInt (if bool_decide (k ∈ ids) then 1 else 0))).
Proof.
  intros Hc Hoh Hi Hs.
  destruct (one_hot_shape _ _ _ Hc Hoh) as (U & HU & Hcols & Hrows).
  { intros ->. done. }
  rewrite Hcols. split; [|split; [|split]].
  - apply (NoDup_fmap_2 _). apply NoDup_elements.
  - apply Forall_fmap, Forall_forall. intros k _. by exists k.
  - intros k. rewrite (list_elem_of_fmap_inj _), elem_of_elements.
    rewrite (collect_ingredient_ids_exact _ _ _ HU k).
    split; [intros [?%elem_of_empty|?]; done|auto].
  - eexists. split; [by eapply Hrows|]. intros p k Hp.
    apply list_lookup_fmap_Some_1 in Hp as (k' & [= <-] & Hk').
    by rewrite list_lookup_fmap, Hk'.
Qed.

Lemma one_hot_cells_tell_the_ingredients_witness :
  NoDup (columns Sample.one_hot_one) ∧
  Forall (λ c, ∃ k, c = SInt k) (columns Sample.one_hot_one) ∧
  (∀ k, SInt k ∈ columns Sample.one_hot_one ↔
        ∃ i' c ids', [Sc (SStr "[5, 5]")] !! i' = Some c ∧
                     on_text parse_ingredient_ids c = Ok ids' ∧ k ∈ ids') ∧
  ∃ row,
    rows Sample.one_hot_one !! 0%nat = Some row ∧
    ∀ p k, columns Sample.one_hot_one !! p = Some (SInt k) →
           row !! p = Some (Sc (SInt (if bool_decide (k ∈ [5; 5]) then 1 else 0))).
Proof.
  apply (one_hot_cells_tell_the_ingredients Sample.merged_one
           [Sc (SStr "[5, 5]")] Sample.one_hot_one 0%nat "[5, 5]" [5; 5]);
    vm_compute; reflexivity.
Defined.

(** ** Technique lists of different lengths *)

Lemma parse_techniques_ints x l :
  parse_techniques x = Ok l → Forall (λ s, ∃ z, s = SInt z) l.
Proof.
  unfold parse_techniques. generalize (Py.split "," (Py.strip_chars "[]" x)).
  intros pieces. revert l. induction pieces as [|p pieces IH]; intros l; cbn [rmap].
  - intros [= <-]. constructor.
  - intros (s & Hs & (l' & Hl' & [= <-])%rbind_ok)%rbind_ok.
    constructor; [|by apply IH].
    apply rbind_ok in Hs as (z & _ & [= <-]). by exists z.
Qed.

Lemma wrap64_small z : Pd.is_int64 z = true → Pd.wrap64 z = z.
Proof.
  unfold Pd.is_int64, Pd.wrap64. intros [H1 H2]%andb_true_iff.
  apply Z.leb_le in H1. apply Z.ltb_lt in H2.
  rewrite Z.mod_small; lia.
Qed.

Lemma int_cell_small s : small_int s = true → Pd.int_cell (Sc s) = Ok (Sc s).
Proof. destruct s; try done. cbn. intros H. by rewrite wrap64_small. Qed.

Lemma int_object_small s : small_int s = true → Pd.int_object (Sc s) = Ok (Sc s).
Proof.
  destruct s as [|z| | |]; try done. intros H. cbn [Pd.int_object].
  assert (Pd.is_word64 z = true) as ->.
  { cbn in H. unfold Pd.is_int64, Pd.is_word64 in *.
    apply andb_true_iff in H as [H1 H2]. apply Z.ltb_lt in H2.
    rewrite H1. apply Z.ltb_lt. lia. }
  by apply int_cell_small.
Qed.

Lemma astype_int_row_full (l : list scalar) w :
  Forall (λ s, small_int s = true) l → (w ≤ length l)%nat →
  rmap Pd.int_object (Pd.pad w l) = Ok (Sc <$> l).
Proof.
  intros Hl Hw. unfold Pd.pad. replace (w - length l)%nat with O by lia.
  cbn [replicate]. rewrite app_nil_r. clear Hw.
  induction Hl as [|s l Hs _ IH]; [done|]. rewrite fmap_cons. cbn [rmap].
  by rewrite (int_object_small _ Hs), IH.
Qed.

Lemma astype_int_row_short (l : list scalar) w :
  Forall (λ s, small_int s = true) l → (length l < w)%nat →
  rmap Pd.int_object (Pd.pad w l) = Err ValueError.
Proof.
  intros Hl Hw. unfold Pd.pad.
  destruct (w - length l)%nat as [|n] eqn:E; [lia|]. cbn [replicate]. clear E Hw.
  induction Hl as [|s l Hs _ IH]; [done|]. rewrite fmap_cons.
  change ((Sc s :: (Sc <$> l)) ++ NaN :: replicate n NaN)
    with (Sc s :: ((Sc <$> l) ++ NaN :: replicate n NaN)).
  cbn [rmap]. by rewrite (int_object_small _ Hs), IH.
Qed.

Lemma astype_int_ragged (lists : list (list scalar)) w :
  Forall (Forall (λ s, small_int s = true)) lists →
  (∃ l, l ∈ lists ∧ (length l < w)%nat) →
  rmap (rmap Pd.int_object) (Pd.pad w <$> lists) = Err ValueError.
Proof.
  intros Hall. induction Hall as [|l lists Hl Hall IH];
    [by intros (? & ?%elem_of_nil & _)|].
  intros (l' & Hin & Hshort). csimpl. cbn [rmap].
  destruct (decide (length l < w)%nat) as [Hlt|Hge].
  - by rewrite astype_int_row_short.
  - rewrite astype_int_row_full by (done || lia). cbn [rbind].
    rewrite IH; [done|]. exists l'. split; [|done].
    apply elem_of_cons in Hin as [->|?]; [lia|done].
Qed.

Lemma small_ints (lists : list (list scalar)) :
  forallb (forallb small_int) lists = true →
  Forall (Forall (λ s, small_int s = true)) lists.
Proof.
  intros H. apply Forall_forall. intros l Hl. apply Forall_forall. intros s Hs.
  rewrite forallb_forall in H. apply list_elem_of_In, H in Hl.
  rewrite forallb_forall in Hl. by apply Hl, list_elem_of_In.
Qed.

(** X5. Unlike the nutrition lists, technique lists of different lengths
    are refused: when the techniques of all retained rows parse to integers
    of the int64 range and one list is shorter than the longest, the frame
    of line 71 has NaN in the missing places and [astype(int)] of line 74
    raises ValueError. *)
Theorem technique_lists_of_different_lengths_rejected merged_df cells lists :
  rectangular merged_df →
  Pd.col (SStr "techniques") merged_df = Ok cells →
  rmap (on_text parse_techniques) cells = Ok lists →
  forallb (forallb small_int) lists = true →
  (∃ l, l ∈ lists ∧ (length l < Pd.width lists)%nat) →
  expand_techniques merged_df = Err ValueError.
Proof.
  intros Hrect Hc Hl Hsmall Hshort. unfold expand_techniques.
  rewrite Hc. cbn [rbind]. rewrite Hl. cbn [rbind].
  assert (length (Lst <$> lists) = length (rows merged_df)) as Hlen.
  { by rewrite length_fmap, (rmap_length _ _ _ Hl), <- (col_length _ _ _ Hc). }
  destruct (Pd.set_col (SStr "techniques") (Lst <$> lists) merged_df)
    as [df2|e] eqn:Hset.
  2:{ unfold Pd.set_col in Hset. apply col_unfold in Hc as (p & Hp & _).
      by rewrite Hp in Hset. }
  destruct (col_set_col_same _ _ _ _ _ Hrect Hc Hlen Hset) as (Hc2 & _ & _).
  cbn [rbind]. rewrite Hc2. cbn [rbind]. rewrite tolist_lists. cbn [rbind].
  unfold Pd.from_lists. cbn [rbind]. unfold Pd.astype_int, Pd.add_prefix.
  cbn [rows]. rewrite astype_int_ragged; [done| |done].
  by apply small_ints.
Qed.

Lemma technique_lists_of_different_lengths_rejected_witness :
  expand_techniques
    {| index := [0; 1];
       columns := [SStr "recipe_id"; SStr "techniques"];
       rows := [[Sc (SInt 7); Sc (SStr "[1, 0, 2]")];
                [Sc (SInt 8); Sc (SStr "[1, 0]")]] |} = Err ValueError.
Proof.
  apply (technique_lists_of_different_lengths_rejected _
           [Sc (SStr "[1, 0, 2]"); Sc (SStr "[1, 0]")]
           [[SInt 1; SInt 0; SInt 2]; [SInt 1; SInt 0]]).
  - repeat constructor.
  - vm_compute. reflexivity.
  - vm_compute. reflexivity.
  - reflexivity.
  - exists [SInt 1; SInt 0]. split; [|vm_compute; lia]. right. by left.
Defined.

(** ** More about the nutrition expander *)

Lemma keep_app {A} m1 m2 (l1 l2 : list A) :
  length m1 = length l1 →
  Pd.keep (m1 ++ m2) (l1 ++ l2) = Pd.keep m1 l1 ++ Pd.keep m2 l2.
Proof.
  revert l1. induction m1 as [|b m1 IH]; intros [|a l1] H; try done.
  cbn in H. cbn. rewrite IH by lia. by destruct b.
Qed.

Lemma keep_all {A} m (l : list A) :
  Forall (λ b, b = true) m → (length l ≤ length m)%nat → Pd.keep m l = l.
Proof.
  intros Hm. revert l. induction Hm as [|b m -> _ IH]; intros [|a l] H; cbn in *;
    try done; try lia. rewrite IH; [done|lia].
Qed.

Lemma keep_set_nth {A} m p (v : A) r :
  m !! p = Some false → Pd.keep m (Pd.set_nth p v r) = Pd.keep m r.
Proof.
  revert p r. induction m as [|b m IH]; intros p r; [done|].
  destruct r as [|a r]; [by destruct p|]. destruct p as [|p]; cbn.
  - by intros [= ->].
  - intros Hp. by rewrite (IH p r Hp).
Qed.

Lemma length_set_nth {A} p (v : A) r : length (Pd.set_nth p v r) = length r.
Proof. revert p. induction r as [|a r IH]; intros [|p]; cbn; auto. Qed.

Lemma width_ge (lists : list (list scalar)) l :
  l ∈ lists → (length l ≤ Pd.width lists)%nat.
Proof.
  induction lists as [|l0 lists IH]; [by intros ?%elem_of_nil|].
  cbn [Pd.width foldr]. fold (Pd.width lists).
  intros [->|?%IH]%elem_of_cons; lia.
Qed.

Lemma length_pad w l : (length l ≤ w)%nat → length (Pd.pad w l) = w.
Proof. intros H. unfold Pd.pad. rewrite length_app, length_fmap, length_replicate. lia. Qed.

Lemma dropped_position l (cs : list label) p :
  p ∈ Pd.positions_from 0 l cs →
  ((λ c, negb (isin c [l])) <$> cs) !! p = Some false.
Proof.
  intros (c & Hc & E)%positions_from_lookup. rewrite list_lookup_fmap, Hc. cbn.
  by rewrite E.
Qed.

Lemma kept_lack (f : label → bool) l (cs : list label) :
  (∀ c, f c = negb (same_key c l)) →
  existsb (same_key l) (Pd.keep (f <$> cs) cs) = false.
Proof.
  intros Hf. induction cs as [|c cs IH]; [done|]. csimpl. rewrite Hf.
  destruct (same_key c l) eqn:E; cbn [negb]; [done|].
  cbn [existsb]. rewrite IH, orb_false_r. unfold same_key in *.
  rewrite <- E. apply bool_decide_ext. split; congruence.
Qed.

Lemma kept_columns_lack l (cs : list label) :
  isin l (Pd.keep ((λ c, negb (isin c [l])) <$> cs) cs) = false.
Proof.
  apply kept_lack. intros c. unfold isin. cbn [existsb]. by rewrite orb_false_r.
Qed.

(** The frames of [process_nutrition_column] before they are joined *)
Lemma process_nutrition_column_frames df (p : nat) cells lists :
  rectangular df →
  Pd.positions (SStr "nutrition") df = [p] →
  cells = (λ row, nth p row NaN) <$> rows df →
  rmap (on_text parse_nutrition) (List.filter (λ c, negb (isna c)) cells) = Ok lists →
  process_nutrition_column df =
    (let mask := (λ c, negb (isna c)) <$> cells in
     let df2 :=
       {| index := Pd.keep mask (index df);
          columns := columns df;
          rows := Pd.zip_with_rows (λ v r, Pd.set_nth p v r) (Lst <$> lists)
                    (Pd.keep mask (rows df)) |} in
     let? nutrition_df := Pd.from_lists lists (Some nutrition_columns) in
     let? processed_df := Pd.concat_columns df2 nutrition_df in
     Pd.drop [SStr "nutrition"] processed_df).
Proof.
  intros Hrect Hp -> Hl. unfold process_nutrition_column.
  pose proof (col_of_positions _ _ _ Hp) as Hc.
  destruct (dropna_col _ _ _ Hc) as (df1 & -> & Hdf1 & Hc1). cbn [rbind].
  rewrite Hc1. cbn [rbind]. rewrite Hl. cbn [rbind].
  assert (rectangular df1) as Hrect1 by (subst df1; by apply select_rectangular).
  assert (length (Lst <$> lists) = length (rows df1)) as Hlen.
  { by rewrite length_fmap, (rmap_length _ _ _ Hl), <- (col_length _ _ _ Hc1). }
  assert (Pd.set_col (SStr "nutrition") (Lst <$> lists) df1 =
    Ok {| index := index df1; columns := columns df1;
          rows := Pd.zip_with_rows (λ v r, Pd.set_nth p v r) (Lst <$> lists)
                    (rows df1) |}) as Hset.
  { unfold Pd.set_col. replace (Pd.positions (SStr "nutrition") df1) with [p]; [done|].
    subst df1. done. }
  rewrite Hset. cbn [rbind].
  destruct (col_set_col_same _ _ _ _ _ Hrect1 Hc1 Hlen Hset) as (Hc2 & _ & _).
  rewrite Hc2. cbn [rbind]. rewrite tolist_lists. cbn [rbind]. by subst df1.
Qed.

(** The columns of a frame that [process_nutrition_column] returns *)
Lemma nutrition_columns_of_result df out :
  process_nutrition_column df = Ok out →
  columns out =
    Pd.keep ((λ c, negb (isin c [SStr "nutrition"])) <$> columns df) (columns df)
    ++ nutrition_columns ∧
  isin (SStr "nutrition") (columns out) = false.
Proof.
  unfold process_nutrition_column. intros H.
  apply rbind_ok in H as (df1 & H1 & H).
  apply rbind_ok in H as (cells & _ & H).
  apply rbind_ok in H as (lists & _ & H).
  apply rbind_ok in H as (df2 & H2 & H).
  apply rbind_ok in H as (cells2 & _ & H).
  apply rbind_ok in H as (data & _ & H).
  apply rbind_ok in H as (ndf & Hn & H).
  apply rbind_ok in H as (pdf & Hcat & H).
  assert (columns df1 = columns df) as E1.
  { unfold Pd.dropna in H1. apply rbind_ok in H1 as (? & _ & [= <-]). done. }
  assert (columns df2 = columns df1) as E2.
  { unfold Pd.set_col in H2.
    destruct (Pd.positions _ df1) as [|? [|??]] eqn:Ep; try done;
      injection H2 as <-; [|done].
    unfold Pd.dropna in H1. apply rbind_ok in H1 as (? & Hc & [= <-]).
    apply col_unfold in Hc as (q & Hq & _). unfold Pd.positions in *.
    cbn in Ep. by rewrite Hq in Ep. }
  assert (columns ndf = nutrition_columns) as En.
  { unfold Pd.from_lists in Hn. destruct data; [by injection Hn as <-|].
    destruct (_ =? _)%nat; [by injection Hn as <-|done]. }
  assert (columns pdf = columns df ++ nutrition_columns) as Ep.
  { unfold Pd.concat_columns in Hcat. rewrite <- E1, <- E2, <- En.
    case_bool_decide; [by injection Hcat as <-|].
    destruct (_ && _); [by injection Hcat as <-|done]. }
  unfold Pd.drop in H. destruct (forallb _ _); [|done]. injection H as <-.
  cbn [columns]. rewrite Ep, fmap_app, keep_app by by rewrite length_fmap.
  change (λ c : scalar, negb (same_key c (SStr "nutrition") || false))
    with (λ c : scalar, negb (isin c [SStr "nutrition"])).
  assert (Pd.keep ((λ c, negb (isin c [SStr "nutrition"])) <$> nutrition_columns)
            nutrition_columns = nutrition_columns) as -> by reflexivity.
  split; [done|]. unfold isin at 1. rewrite existsb_app.
  pose proof (kept_columns_lack (SStr "nutrition") (columns df)) as Hk.
  unfold isin at 1 in Hk. by rewrite Hk.
Qed.

(** X6. A frame that [process_nutrition_column] returns has the columns of
    its argument without the nutrition column, followed by the seven
    nutrition names in their fixed order; no column is named nutrition. *)
Theorem nutrition_columns_replace_the_nutrition_column df out :
  process_nutrition_column df = Ok out →
  columns out =
    Pd.keep ((λ c, negb (isin c [SStr "nutrition"])) <$> columns df) (columns df)
    ++ nutrition_columns ∧
  isin (SStr "nutrition") (columns out) = false.
Proof. apply nutrition_columns_of_result. Qed.

Lemma nutrition_columns_replace_the_nutrition_column_witness :
  columns Sample.expanded_short =
    Pd.keep ((λ c, negb (isin c [SStr "nutrition"]))
               <$> columns Sample.nutrition_short) (columns Sample.nutrition_short)
    ++ nutrition_columns ∧
  isin (SStr "nutrition") (columns Sample.expanded_short) = false.
Proof.
  apply (nutrition_columns_replace_the_nutrition_column Sample.nutrition_short).
  vm_compute. reflexivity.
Defined.

(** The result of [process_nutrition_column] when the rows are numbered
    from 0 and no nutrition cell is missing *)
Lemma process_nutrition_column_aligned df cells lists :
  rectangular df →
  index df = RangeIndex (length (rows df)) →
  Pd.col (SStr "nutrition") df = Ok cells →
  Forall (λ c, isna c = false) cells →
  rmap (on_text parse_nutrition) cells = Ok lists →
  lists = [] ∨ Pd.width lists = 7%nat →
  process_nutrition_column df =
    Ok {| index := index df;
          columns :=
            Pd.keep ((λ c, negb (isin c [SStr "nutrition"])) <$> columns df)
                    (columns df) ++ nutrition_columns;
          rows :=
            zip_with
              (λ (r : list cell) (l : list scalar),
                 Pd.keep ((λ c, negb (isin c [SStr "nutrition"])) <$> columns df) r
                 ++ Pd.pad 7 l)
              (rows df) lists |}.
Proof.
  intros Hrect Hidx Hc Hna Hl Hw.
  apply col_unfold in Hc as (p & Hp & Hcells).
  assert (List.filter (λ c, negb (isna c)) cells = cells) as Hfil.
  { clear -Hna. induction Hna as [|c cells Hc _ IH]; [done|]. cbn.
    by rewrite Hc, IH. }
  assert (Pd.keep ((λ c, negb (isna c)) <$> cells) (index df) = index df
          ∧ Pd.keep ((λ c, negb (isna c)) <$> cells) (rows df) = rows df)
    as [Hki Hkr].
  { assert (Forall (λ b, b = true) ((λ c, negb (isna c)) <$> cells)) as Hm.
    { apply Forall_fmap. eapply Forall_impl; [exact Hna|]. cbn. by intros c ->. }
    assert (length cells = length (rows df)) as Hlen
      by (rewrite Hcells; apply length_fmap).
    split; apply keep_all; try done; rewrite length_fmap, Hlen; [|done].
    rewrite Hidx. unfold RangeIndex. by rewrite length_fmap, length_seq. }
  rewrite (process_nutrition_column_frames df p cells lists); try done;
    [|by rewrite Hfil].
  cbn zeta. rewrite Hki, Hkr.
  assert (length lists = length (rows df)) as Hlen.
  { by rewrite (rmap_length _ _ _ Hl), Hcells, length_fmap. }
  assert (Pd.from_lists lists (Some nutrition_columns) =
          Ok {| index := RangeIndex (length lists);
                columns := nutrition_columns;
                rows := Pd.pad 7 <$> lists |}) as ->.
  { destruct Hw as [->|Hw]; [done|]. unfold Pd.from_lists.
    destruct lists; [done|]. by rewrite Hw. }
  cbn [rbind].
  unfold Pd.concat_columns. cbn [index columns rows].
  rewrite bool_decide_eq_true_2 by by rewrite Hidx, Hlen.
  cbn [rbind]. unfold Pd.drop. cbn [forallb]. unfold Pd.has_column. cbn [columns].
  assert (isin (SStr "nutrition") (columns df ++ nutrition_columns) = true) as ->.
  { unfold isin. rewrite existsb_app. fold (isin (SStr "nutrition") (columns df)).
    rewrite (positions_isin _ _ p); [done|]. unfold Pd.positions in Hp.
    rewrite Hp. by left. }
  cbn [andb index columns rows]. f_equal. f_equal.
  { rewrite fmap_app, keep_app by by rewrite length_fmap. done. }
  assert (Forall (λ l, length l ≤ 7)%nat lists) as Hle.
  { destruct Hw as [->|Hw]; [constructor|].
    apply Forall_forall. intros l Hin. rewrite <- Hw. by apply width_ge. }
  unfold rectangular in Hrect. clear Hl Hw Hfil Hki Hkr Hidx Hna Hcells.
  revert lists Hlen Hle Hrect. generalize (rows df) as rs.
  induction rs as [|r rs IH]; intros [|l lists] Hlen Hle Hrect; try done.
  apply Forall_cons in Hle as [Hl Hle]. apply Forall_cons in Hrect as [Hr Hrect].
  csimpl. cbn in Hlen. f_equal; [|apply IH; (done || lia)].
  rewrite fmap_app, keep_app; last first.
  { rewrite length_fmap, length_set_nth. by symmetry. }
  f_equal.
  - apply keep_set_nth, dropped_position. unfold Pd.positions in Hp.
    rewrite Hp. by left.
  - apply keep_all; [by repeat constructor|]. rewrite length_pad by done.
    reflexivity.
Qed.

(** X7. When the rows are numbered from 0 as [merge] leaves them, no
    nutrition cell is missing, every cell parses and the longest list has 7
    values (or the frame has no row at all), [process_nutrition_column]
    returns, for each row in order, the cells of the row without its
    nutrition cell followed by the values of its own list, filled up with
    NaN to 7: each row gets its own values, under the seven names in their
    order. *)
Theorem nutrition_values_stay_with_their_row df cells lists :
  rectangular df →
  index df = RangeIndex (length (rows df)) →
  Pd.col (SStr "nutrition") df = Ok cells →
  Forall (λ c, isna c = false) cells →
  rmap (on_text parse_nutrition) cells = Ok lists →
  lists = [] ∨ Pd.width lists = 7%nat →
  process_nutrition_column df =
    Ok {| index := index df;
          columns :=
            Pd.keep ((λ c, negb (isin c [SStr "nutrition"])) <$> columns df)
                    (columns df) ++ nutrition_columns;
          rows :=
            zip_with
              (λ (r : list cell) (l : list scalar),
                 Pd.keep ((λ c, negb (isin c [SStr "nutrition"])) <$> columns df) r
                 ++ Pd.pad 7 l)
              (rows df) lists |}.
Proof. apply process_nutrition_column_aligned. Qed.

Lemma nutrition_values_stay_with_their_row_witness :
  process_nutrition_column Sample.nutrition_short =
    Ok {| index := index Sample.nutrition_short;
          columns :=
            Pd.keep ((λ c, negb (isin c [SStr "nutrition"]))
                       <$> columns Sample.nutrition_short)
                    (columns Sample.nutrition_short) ++ nutrition_columns;
          rows :=
            zip_with
              (λ (r : list cell) (l : list scalar),
                 Pd.keep ((λ c, negb (isin c [SStr "nutrition"]))
                            <$> columns Sample.nutrition_short) r
                 ++ Pd.pad 7 l)
              (rows Sample.nutrition_short)
              [[SFloat 1; SFloat 2; SFloat 3; SFloat 4; SFloat 5; SFloat 6;
                SFloat 7];
               [SFloat 1; SFloat 2]] |}.
Proof.
  apply (nutrition_values_stay_with_their_row Sample.nutrition_short
           [Sc (SStr "[1.0, 2.0, 3.0, 4.0, 5.0, 6.0, 7.0]"); Sc (SStr "[1.0, 2.0]")]).
  - repeat constructor.
  - reflexivity.
  - vm_compute. reflexivity.
  - repeat constructor.
  - vm_compute. reflexivity.
  - right. reflexivity.
Defined.

(** ** The join with the raw recipes *)

Lemma rmap_keep {A B} (f : A → result B) mask l l' :
  rmap f l = Ok l' → rmap f (Pd.keep mask l) = Ok (Pd.keep mask l').
Proof.
  revert l l'. induction mask as [|b mask IH]; intros [|a l] l'; cbn [rmap Pd.keep].
  - by intros [= <-].
  - by intros _.
  - by intros [= <-].
  - intros (x & Hx & (xs & Hxs & [= <-])%rbind_ok)%rbind_ok.
    destruct b; cbn [rmap Pd.keep]; [rewrite Hx; cbn [rbind]|];
      by rewrite (IH _ _ Hxs).
Qed.

Lemma keys_select l mask df ks :
  Pd.keys l df = Ok ks → Pd.keys l (Pd.select mask df) = Ok (Pd.keep mask ks).
Proof.
  unfold Pd.keys. intros (cs & Hc & Hk)%rbind_ok.
  rewrite (col_select _ _ _ _ Hc). cbn [rbind]. by apply rmap_keep.
Qed.

(** Rows left out by a mask that keeps every row with the key [k] are not
    missed by a lookup of [k]. *)
Lemma keep_same_key_prefiltered {A} (p : scalar → bool) k rk (rs : list A) :
  (∀ x, same_key k x = true → p x = true) →
  Pd.keep (same_key k <$> Pd.keep (p <$> rk) rk) (Pd.keep (p <$> rk) rs) =
  Pd.keep (same_key k <$> rk) rs.
Proof.
  intros Hp. revert rs. induction rk as [|x rk IH]; intros [|r rs]; csimpl; try done.
  - by destruct (p x); csimpl; destruct (Pd.keep _ _).
  - destruct (p x) eqn:E; csimpl.
    + by rewrite IH.
    + destruct (same_key k x) eqn:E'; [|apply IH].
      rewrite (Hp x E') in E. discriminate E.
Qed.

Lemma length_keep_occurrences {A} k rk (rs : list A) :
  length rk = length rs →
  length (Pd.keep (same_key k <$> rk) rs) = occurrences k rk.
Proof.
  intros H. rewrite <- (length_keep_same _ rk rs H), keep_map_filter. done.
Qed.

Lemma length_joined {A} (blank : list A) (f : scalar → list (list A)) lk ls :
  length lk = length ls →
  length (concat (zip_with
            (λ k (l : list A),
               match f k with
               | [] => [l ++ blank]
               | ms => (λ r, l ++ r) <$> ms
               end) lk ls)) =
  sum_list ((λ k, Nat.max 1 (length (f k))) <$> lk).
Proof.
  revert ls. induction lk as [|k lk IH]; intros [|l ls] H; try done.
  cbn in H. csimpl. rewrite length_app, IH by lia. f_equal.
  destruct (f k) as [|m ms]; [done|].
  cbn [length]. rewrite length_fmap. lia.
Qed.

Lemma fmap_joined {A B C} (g : list C → list C) (f : A → B → list (list C)) ks ls :
  g <$> concat (zip_with f ks ls) = concat (zip_with (λ k l, g <$> f k l) ks ls).
Proof.
  revert ls. induction ks as [|k ks IH]; intros [|l ls]; cbn [zip_with concat];
    try done. by rewrite fmap_app, IH.
Qed.

Lemma zip_with_ext_lookup {A B C} (f g : A → B → C) ks ls :
  (∀ (i : nat) k l, ks !! i = Some k → ls !! i = Some l → f k l = g k l) →
  zip_with f ks ls = zip_with g ks ls.
Proof.
  revert ls. induction ks as [|k ks IH]; intros [|l ls] H; cbn [zip_with]; try done.
  f_equal; [by apply (H O)|]. apply IH. intros i k' l' ??. by apply (H (S i)).
Qed.

Lemma fmap_after_row {A} (g : list A → list A) l (ms : list (list A)) :
  g <$> ((λ r, l ++ r) <$> ms) = (λ r, g (l ++ r)) <$> ms.
Proof. by rewrite <- list_fmap_compose. Qed.

(** X8. A call of [process_raw_recipes] that returns a frame has changed
    nothing (no file, no shared frame, no output), and the frame is the
    left join of [processed_df] with the whole raw table (without its six
    dropped columns): its rows are numbered from 0 and are, for the rows of
    [processed_df] in order, the row followed by NaN when no raw line has
    its recipe id, and otherwise the row once for each raw line with that
    id, in the order of the file, followed by the cells of that line; the
    column id_y is taken out of every row. The rows that line 179 takes out
    of the raw table beforehand change nothing. *)
Theorem raw_recipe_join_multiplies_rows
    raw_recipes_csv processed_df w w' t raw out lk rk :
  files w !! raw_recipes_csv = Some t →
  Pd.drop [SStr "contributor_id"; SStr "submitted"; SStr "tags"; SStr "steps";
           SStr "description"; SStr "ingredients"] (Pd.of_csv t) = Ok raw →
  Pd.keys (SStr "recipe_id") processed_df = Ok lk →
  Pd.keys (SStr "id") raw = Ok rk →
  process_raw_recipes raw_recipes_csv processed_df w = (w', Ok out) →
  let cols :=
    Pd.renamed [(SStr "id_x", SStr "id")] <$>
      ((Pd.suffixed "_x" (columns raw) <$> columns processed_df) ++
       (Pd.suffixed "_y" (columns processed_df) <$> columns raw)) in
  let kept := (λ c, negb (isin c [SStr "id_y"])) <$> cols in
  w' = w ∧
  index out = RangeIndex (length (rows out)) ∧
  columns out = Pd.keep kept cols ∧
  rows out =
    concat (zip_with
      (λ k (l : list cell),
         match Pd.keep (same_key k <$> rk) (rows raw) with
         | [] => [Pd.keep kept (l ++ replicate (length (columns raw)) NaN)]
         | ms => (λ r, Pd.keep kept (l ++ r)) <$> ms
         end) lk (rows processed_df)) ∧
  length (rows out) = sum_list ((λ k, Nat.max 1 (occurrences k rk)) <$> lk).
Proof.
  intros Hf Hdrop Hlk Hrk. unfold process_raw_recipes.
  rewrite (bind_ok _ _ _ _ _ (read_csv_run _ _ _ Hf)).
  erewrite bind_lift_ok by exact Hdrop. cbn beta.
  erewrite bind_lift_ok by exact Hrk. cbn beta.
  erewrite bind_lift_ok by exact Hlk. cbn beta.
  intros (mapped & Hm & H)%bind_lift_inv.
  apply bind_lift_inv in H as (mapped' & Hd & H).
  injection H as <- <-. cbn zeta. split; [done|].
  unfold Pd.merge_left in Hm. rewrite Hlk in Hm. cbn [rbind] in Hm.
  rewrite (keys_select _ _ _ _ Hrk) in Hm. cbn [rbind] in Hm.
  injection Hm as <-. cbn [Pd.select rows columns] in Hd.
  assert (∀ (i : nat) k (l : list cell),
            lk !! i = Some k → rows processed_df !! i = Some l →
            Pd.keep (same_key k <$> Pd.keep ((λ x, isin x lk) <$> rk) rk)
              (Pd.keep ((λ x, isin x lk) <$> rk) (rows raw))
            = Pd.keep (same_key k <$> rk) (rows raw)) as Hpre.
  { intros i k l Hk _. apply keep_same_key_prefiltered.
    intros x E. apply isin_eq. apply same_key_eq in E. rewrite <- E.
    apply list_elem_of_fmap. exists k. split; [done|].
    by eapply list_elem_of_lookup_2. }
  rewrite (zip_with_ext_lookup _
    (λ k (l : list cell),
       match Pd.keep (same_key k <$> rk) (rows raw) with
       | [] => [l ++ replicate (length (columns raw)) NaN]
       | ms => (λ r, l ++ r) <$> ms
       end)) in Hd by (intros i k l Hk Hl; by rewrite (Hpre i k l Hk Hl)).
  unfold Pd.drop in Hd. destruct (forallb _ _); [|done]. injection Hd as <-.
  cbn [Pd.rename index columns rows].
  assert (∀ rs : list (list cell),
    length (Pd.keep ((λ c, negb (isin c [SStr "id_y"])) <$>
       (Pd.renamed [(SStr "id_x", SStr "id")] <$>
          (Pd.suffixed "_x" (columns raw) <$> columns processed_df) ++
          (Pd.suffixed "_y" (columns processed_df) <$> columns raw))) <$> rs)
    = length rs) as Hfl by (intros; apply length_fmap).
  rewrite Hfl. split; [done|]. split; [done|]. split.
  - rewrite fmap_joined. f_equal. apply zip_with_ext_lookup.
    intros i k l _ _. destruct (Pd.keep (same_key k <$> rk) (rows raw)) as [|m ms];
      [done|]. exact (fmap_after_row _ l (m :: ms)).
  - rewrite (length_joined _ (λ k, Pd.keep (same_key k <$> rk) (rows raw)))
      by by rewrite (keys_length _ _ _ Hlk).
    apply (f_equal sum_list), list_fmap_ext. intros i k Hk. f_equal.
    apply length_keep_occurrences. by rewrite (keys_length _ _ _ Hrk).
Qed.

Lemma raw_recipe_join_multiplies_rows_witness :
  ∃ out,
    process_raw_recipes "RAW_recipes.csv" Sample.processed_two
      (Sample.raw_recipes_world Sample.raw_recipes_twice_csv)
    = (Sample.raw_recipes_world Sample.raw_recipes_twice_csv, Ok out) ∧
    rows out =
      [[Sc (SInt 2); Sc (SInt 8); Sc (SInt 8); Sc (SStr "soup"); Sc (SInt 10);
        Sc (SStr "[100.0, 20.0, 5.0, 3.0, 10.0, 2.0, 15.0]");
        Sc (SInt 2); Sc (SInt 2)];
       [Sc (SInt 2); Sc (SInt 8); Sc (SInt 8); Sc (SStr "stew"); Sc (SInt 90);
        Sc (SStr "[1.0, 2.0, 3.0, 4.0, 5.0, 6.0, 7.0]");
        Sc (SInt 5); Sc (SInt 6)];
       [Sc (SInt 1); Sc (SInt 7); Sc (SInt 7); NaN; NaN; NaN; NaN; NaN]] ∧
    let raw :=
      {| index := [0; 1; 2];
         columns := [SStr "name"; SStr "id"; SStr "minutes"; SStr "nutrition";
                     SStr "n_steps"; SStr "n_ingredients"];
         rows :=
           [[Sc (SStr "soup"); Sc (SInt 8); Sc (SInt 10);
             Sc (SStr "[100.0, 20.0, 5.0, 3.0, 10.0, 2.0, 15.0]");
             Sc (SInt 2); Sc (SInt 2)];
            [Sc (SStr "stew"); Sc (SInt 8); Sc (SInt 90);
             Sc (SStr "[1.0, 2.0, 3.0, 4.0, 5.0, 6.0, 7.0]");
             Sc (SInt 5); Sc (SInt 6)];
            [Sc (SStr "cake"); Sc (SInt 9); Sc (SInt 45);
             Sc (SStr "[7.0, 6.0, 5.0, 4.0, 3.0, 2.0, 1.0]");
             Sc (SInt 4); Sc (SInt 7)]] |} in
    let cols :=
      Pd.renamed [(SStr "id_x", SStr "id")] <$>
        ((Pd.suffixed "_x" (columns raw) <$> columns Sample.processed_two) ++
         (Pd.suffixed "_y" (columns Sample.processed_two) <$> columns raw)) in
    let kept := (λ c, negb (isin c [SStr "id_y"])) <$> cols in
    Sample.raw_recipes_world Sample.raw_recipes_twice_csv
      = Sample.raw_recipes_world Sample.raw_recipes_twice_csv ∧
    index out = RangeIndex (length (rows out)) ∧
    columns out = Pd.keep kept cols ∧
    rows out =
      concat (zip_with
        (λ k (l : list cell),
           match Pd.keep (same_key k <$> [SInt 8; SInt 8; SInt 9]) (rows raw) with
           | [] => [Pd.keep kept (l ++ replicate (length (columns raw)) NaN)]
           | ms => (λ r, Pd.keep kept (l ++ r)) <$> ms
           end) [SInt 8; SInt 7] (rows Sample.processed_two)) ∧
    length (rows out) =
      sum_list ((λ k, Nat.max 1 (occurrences k [SInt 8; SInt 8; SInt 9]))
                  <$> [SInt 8; SInt 7]).
Proof.
  eexists. split; [vm_compute; reflexivity|]. split; [reflexivity|].
  apply (raw_recipe_join_multiplies_rows "RAW_recipes.csv" Sample.processed_two
           (Sample.raw_recipes_world Sample.raw_recipes_twice_csv)
           (Sample.raw_recipes_world Sample.raw_recipes_twice_csv)
           Sample.raw_recipes_twice_csv);
    vm_compute; reflexivity.
Defined.

(** ** The column that the join with the raw recipes drops *)

Lemma same_key_text s s' : same_key (SStr s) (SStr s') = bool_decide (s = s').
Proof. unfold same_key. cbn. apply bool_decide_ext. split; congruence. Qed.


Lemma isin_cons_false x c cs :
  isin x (c :: cs) = false ↔ same_key x c = false ∧ isin x cs = false.
Proof. unfold isin. cbn [existsb]. apply orb_false_iff. Qed.

Lemma isin_app_false x l1 l2 :
  isin x (l1 ++ l2) = false ↔ isin x l1 = false ∧ isin x l2 = false.
Proof. unfold isin. rewrite existsb_app. apply orb_false_iff. Qed.

Lemma isin_fmap_false x (f : label → label) cs :
  (∀ c, c ∈ cs → same_key x (f c) = false) → isin x (f <$> cs) = false.
Proof.
  induction cs as [|c cs IH]; intros H; [done|]. csimpl. apply isin_cons_false.
  split; [apply H; by left|]. apply IH. intros c' Hc'. apply H. by right.
Qed.

Lemma isin_false_elem x cs c : isin x cs = false → c ∈ cs → same_key x c = false.
Proof.
  induction cs as [|c' cs IH]; [by intros _ ?%elem_of_nil|].
  intros [H1 H2]%isin_cons_false [->|Hc]%elem_of_cons; auto.
Qed.

Lemma not_id_y_suffix_x s : s +:+ "_x" ≠ "id_y".
Proof.
  destruct s as [|a [|b [|c [|d [|e s]]]]]; cbn [append]; intros E; by simplify_eq.
Qed.

Lemma id_y_suffix_y s : s +:+ "_y" = "id_y" → s = "id".
Proof.
  destruct s as [|a [|b [|c [|d [|e s]]]]]; intros E;
    try (by simplify_eq); try (exfalso; discriminate E);
    try (exfalso; injection E; intros; discriminate).
  injection E as -> ->. done.
Qed.

(** No column of the joined and renamed frame is named id_y unless the left
    frame has a column id, or one of the frames has a column id_y. *)
Lemma no_id_y (left right : list label) :
  isin (SStr "id") left = false →
  isin (SStr "id_y") left = false →
  isin (SStr "id_y") right = false →
  Forall (λ c, ∃ s, c = SStr s) right →
  isin (SStr "id_y")
    (Pd.renamed [(SStr "id_x", SStr "id")] <$>
       ((Pd.suffixed "_x" right <$> left) ++ (Pd.suffixed "_y" left <$> right)))
  = false.
Proof.
  intros Hid Hl Hr Htext. rewrite fmap_app. apply isin_app_false.
  split; rewrite <- list_fmap_compose; apply isin_fmap_false; intros c Hc;
    cbn [compose Pd.renamed].
  - destruct (same_key (Pd.suffixed "_x" right c) (SStr "id_x")); [done|].
    unfold Pd.suffixed. destruct (isin c right).
    + rewrite same_key_text. apply bool_decide_eq_false_2.
      intros E. by apply (not_id_y_suffix_x (label_str c)).
    + by apply (isin_false_elem _ left).
  - destruct (same_key (Pd.suffixed "_y" left c) (SStr "id_x")); [done|].
    unfold Pd.suffixed. destruct (isin c left) eqn:Ec.
    + rewrite same_key_text. apply bool_decide_eq_false_2. intros E.
      symmetry in E. apply id_y_suffix_y in E.
      apply (proj1 (Forall_forall _ _) Htext) in Hc as [s ->].
      cbn in E. subst s. congruence.
    + by apply (isin_false_elem _ right).
Qed.

Lemma keep_Forall {A} (P : A → Prop) mask (l : list A) :
  Forall P l → Forall P (Pd.keep mask l).
Proof.
  intros H. eapply Forall_forall. intros x Hx.
  apply (proj1 (Forall_forall _ _) H). eapply elem_of_sublist; [exact Hx|].
  apply keep_sublist.
Qed.

Lemma isin_keep_false x mask cs : isin x cs = false → isin x (Pd.keep mask cs) = false.
Proof.
  rewrite !isin_false. intros H Hx. apply H.
  apply list_elem_of_fmap in Hx as (c & E & Hc). apply list_elem_of_fmap.
  exists c. split; [done|]. eapply elem_of_sublist; [exact Hc|]. apply keep_sublist.
Qed.

(** X9. [process_raw_recipes] needs a column named id in [processed_df]:
    that column is what makes [merge] name the raw table's id column id_y,
    which line 187 drops. For a frame without a column id (and no column
    id_y in the frame or in the file) no call returns a frame: the run ends
    with an error and has changed nothing. *)
Theorem raw_recipe_join_needs_id_column raw_recipes_csv processed_df w t :
  files w !! raw_recipes_csv = Some t →
  isin (SStr "id") (columns processed_df) = false →
  isin (SStr "id_y") (columns processed_df) = false →
  isin (SStr "id_y") (columns (Pd.of_csv t)) = false →
  ∃ e, process_raw_recipes raw_recipes_csv processed_df w = (w, Err e).
Proof.
  intros Hf Hid Hl Hr. unfold process_raw_recipes.
  rewrite (bind_ok _ _ _ _ _ (read_csv_run _ _ _ Hf)).
  destruct (Pd.drop _ (Pd.of_csv t)) as [raw|e] eqn:Hdrop;
    [erewrite bind_lift_ok by reflexivity; cbn beta
    |erewrite bind_lift_err by reflexivity; eauto].
  destruct (Pd.keys (SStr "id") raw) as [ids|e] eqn:Hids;
    [erewrite bind_lift_ok by reflexivity; cbn beta
    |erewrite bind_lift_err by reflexivity; eauto].
  destruct (Pd.keys (SStr "recipe_id") processed_df) as [recipe_ids|e] eqn:Hrids;
    [erewrite bind_lift_ok by reflexivity; cbn beta
    |erewrite bind_lift_err by reflexivity; eauto].
  destruct (Pd.merge_left _ _ _ _) as [mapped|e] eqn:Hm;
    [erewrite bind_lift_ok by reflexivity; cbn beta
    |erewrite bind_lift_err by reflexivity; eauto].
  assert (Pd.drop [SStr "id_y"] (Pd.rename [(SStr "id_x", SStr "id")] mapped)
          = Err KeyError) as Hd; [|erewrite bind_lift_err by exact Hd; eauto].
  unfold Pd.merge_left in Hm. rewrite Hrids in Hm. cbn [rbind] in Hm.
  destruct (Pd.keys (SStr "id") (Pd.select _ raw)); [|done]. cbn [rbind] in Hm.
  injection Hm as <-.
  assert (columns raw =
    Pd.keep ((λ c, negb (isin c [SStr "contributor_id"; SStr "submitted";
                SStr "tags"; SStr "steps"; SStr "description";
                SStr "ingredients"])) <$> columns (Pd.of_csv t))
      (columns (Pd.of_csv t))) as Hraw.
  { unfold Pd.drop in Hdrop. destruct (forallb _ _); [|done]. by injection Hdrop as <-. }
  unfold Pd.drop. cbn [forallb]. unfold Pd.has_column.
  cbn [Pd.rename Pd.select columns]. rewrite no_id_y; [done|done|done| |].
  - rewrite Hraw. by apply isin_keep_false.
  - rewrite Hraw. apply keep_Forall. cbn [Pd.of_csv columns].
    apply Forall_fmap, Forall_forall. intros s _. by exists s.
Qed.

Lemma raw_recipe_join_needs_id_column_witness :
  ∃ e,
    process_raw_recipes "RAW_recipes.csv" Sample.filtered
      (Sample.world Sample.pp_recipes_csv Sample.mapping_csv)
    = (Sample.world Sample.pp_recipes_csv Sample.mapping_csv, Err e).
Proof.
  apply (raw_recipe_join_needs_id_column "RAW_recipes.csv" Sample.filtered
           (Sample.world Sample.pp_recipes_csv Sample.mapping_csv)
           Sample.raw_recipes_csv); reflexivity.
Defined.

(** ** More about the interaction filter *)

(** What a call of [filter_interactions] that returns has done *)
Lemma filter_interactions_run csv_file w w' t out :
  files w !! csv_file = Some t →
  filter_interactions csv_file w = (w', Ok out) →
  ∃ recipe_id user_id,
    Pd.keys (SStr "recipe_id") (Pd.of_csv t) = Ok recipe_id ∧
    Pd.keys (SStr "user_id") (Pd.of_csv t) = Ok user_id ∧
    w' = w ∧
    length (rows out) = length (index out) ∧
    index out =
      Pd.keep
        (zip_with andb
           ((λ x, isin x (Pd.top (Z.to_nat 100) recipe_id)) <$> recipe_id)
           ((λ x, isin x (Pd.top (Z.to_nat 30000) user_id)) <$> user_id))
        (RangeIndex (length (records t))).
Proof.
  intros Hf Hrun. unfold filter_interactions in Hrun.
  rewrite (bind_ok _ _ _ _ _ (read_csv_run _ _ _ Hf)) in Hrun.
  apply bind_lift_inv in Hrun as (df & Hdrop & Hrun).
  apply bind_lift_inv in Hrun as (recipe_id & Hrid & Hrun).
  apply bind_lift_inv in Hrun as (user_id & Huid & Hrun).
  apply bind_lift_inv in Hrun as (df1 & H1 & Hrun).
  apply bind_lift_inv in Hrun as (df2 & H2 & Hrun).
  apply bind_lift_inv in Hrun as (df3 & H3 & Hrun).
  injection Hrun as <- <-.
  rewrite (keys_drop _ (SStr "recipe_id") _ _
    (λ c, not_dropped (SStr "recipe_id") [SStr "review"; SStr "date"] c eq_refl)
    Hdrop) in Hrid.
  rewrite (keys_drop _ (SStr "user_id") _ _
    (λ c, not_dropped (SStr "user_id") [SStr "review"; SStr "date"] c eq_refl)
    Hdrop) in Huid.
  exists recipe_id, user_id. do 3 (split; [done|]).
  destruct (drop_rows _ _ _ Hdrop) as [Hidx Hlen].
  apply astype_int_col_rows in H1 as [I1 L1], H2 as [I2 L2], H3 as [I3 L3].
  cbn [Pd.select index rows] in *.
  rewrite I3, I2, I1, Hidx, L3, L2, L1. cbn [Pd.of_csv index]. split; [|done].
  apply length_keep_same. rewrite Hlen. cbn [Pd.of_csv rows].
  unfold RangeIndex. by rewrite !length_fmap, length_seq.
Qed.

Lemma isin_top_no_nan n vals x : isin x (Pd.top n vals) = true → is_nan x = false.
Proof.
  destruct (top_most_frequent n vals) as (_ & _ & Hin & _).
  intros (a & E & Ha)%isin_eq%list_elem_of_fmap.
  destruct (Hin a Ha) as [Hna _]. destruct x; try done.
  symmetry in E. apply (proj1 (key_of_nan a)) in E. subst a. discriminate Hna.
Qed.

(** X10. A row of the interaction table whose recipe_id or user_id is
    missing is never kept by [filter_interactions]: [value_counts] leaves
    NaN out, so NaN is in neither list of frequent ids. *)
Theorem rows_without_id_are_dropped
    csv_file w w' t out recipe_id user_id (i : nat) r u :
  files w !! csv_file = Some t →
  filter_interactions csv_file w = (w', Ok out) →
  Pd.keys (SStr "recipe_id") (Pd.of_csv t) = Ok recipe_id →
  Pd.keys (SStr "user_id") (Pd.of_csv t) = Ok user_id →
  recipe_id !! i = Some r →
  user_id !! i = Some u →
  is_nan r || is_nan u = true →
  Z.of_nat i ∉ index out.
Proof.
  intros Hf Hrun Hrid Huid Hr Hu Hnan.
  destruct (filter_interactions_run _ _ _ _ _ Hf Hrun)
    as (rid & uid & Hrid' & Huid' & _ & _ & ->).
  rewrite Hrid in Hrid'. rewrite Huid in Huid'.
  injection Hrid' as <-. injection Huid' as <-.
  unfold RangeIndex. rewrite elem_of_keep_range.
  intros (j & -> & (r' & u' & Hr' & Hu' & Er & Eu)%lookup_both_masks & _).
  cbn in Hr, Hu. rewrite Hr in Hr'. rewrite Hu in Hu'.
  injection Hr' as <-. injection Hu' as <-.
  apply isin_top_no_nan in Er, Eu. rewrite Er, Eu in Hnan. discriminate Hnan.
Qed.

Lemma rows_without_id_are_dropped_witness :
  ∃ out,
    filter_interactions "RAW_interactions.csv"
      (Sample.interactions_world Sample.interactions_missing_csv)
    = (Sample.interactions_world Sample.interactions_missing_csv, Ok out) ∧
    0 ∉ index out.
Proof.
  eexists. split; [vm_compute; reflexivity|].
  apply (rows_without_id_are_dropped "RAW_interactions.csv"
           (Sample.interactions_world Sample.interactions_missing_csv)
           (Sample.interactions_world Sample.interactions_missing_csv)
           Sample.interactions_missing_csv _
           [SNaN; SInt 8] [SInt 1; SInt 2] 0%nat SNaN (SInt 1));
    vm_compute; reflexivity.
Defined.

Lemma top_covers n vals vs x :
  (length vs ≤ n)%nat →
  (∀ r, r ∈ vals → isin r vs = true) →
  x ∈ vals → is_nan x = false → isin x (Pd.top n vals) = true.
Proof.
  intros Hvs Hsub Hx Hna.
  destruct (top_most_frequent n vals) as (Hlen & Hnd & Hin & _ & Hall).
  assert (isin x vals = true) as Hxv.
  { apply isin_eq, list_elem_of_fmap. by exists x. }
  destruct (decide (length (Pd.top n vals) < n)%nat) as [Hlt|Hge]; [by apply Hall|].
  assert (key_of <$> Pd.top n vals ≡ₚ key_of <$> vs) as Hperm.
  { apply submseteq_length_Permutation; [|rewrite !length_fmap; lia].
    apply NoDup_submseteq; [done|]. intros k (a & -> & Ha)%list_elem_of_fmap.
    destruct (Hin a Ha) as [_ (y & E & Hy)%isin_eq%list_elem_of_fmap].
    rewrite E. apply isin_eq. by apply Hsub. }
  apply isin_eq. rewrite Hperm. apply isin_eq. by apply Hsub.
Qed.

(** X11. A small table is kept whole: when no recipe_id and no user_id is
    missing, the recipe ids are among at most 100 values and the user ids
    among at most 30000, a call of [filter_interactions] that returns a
    frame has kept every row of the table, in order. *)
Theorem small_table_is_kept_whole
    csv_file w w' t out recipe_id user_id recipes users :
  files w !! csv_file = Some t →
  filter_interactions csv_file w = (w', Ok out) →
  Pd.keys (SStr "recipe_id") (Pd.of_csv t) = Ok recipe_id →
  Pd.keys (SStr "user_id") (Pd.of_csv t) = Ok user_id →
  forallb (λ r, negb (is_nan r) && isin r recipes) recipe_id = true →
  forallb (λ u, negb (is_nan u) && isin u users) user_id = true →
  (length recipes ≤ Z.to_nat 100)%nat →
  (length users ≤ Z.to_nat 30000)%nat →
  index out = RangeIndex (length (records t)) ∧
  length (rows out) = length (records t).
Proof.
  intros Hf Hrun Hrid Huid Hr Hu Hnr Hnu.
  destruct (filter_interactions_run _ _ _ _ _ Hf Hrun)
    as (rid & uid & Hrid' & Huid' & _ & Hlen & Hidx).
  rewrite Hrid in Hrid'. rewrite Huid in Huid'.
  injection Hrid' as <-. injection Huid' as <-.
  assert (index out = RangeIndex (length (records t))) as Hall; last first.
  { split; [done|]. rewrite Hlen, Hall. unfold RangeIndex.
    by rewrite length_fmap, length_seq. }
  rewrite Hidx. apply keep_all.
  - apply Forall_forall. intros b Hb.
    apply list_elem_of_lookup in Hb as [i Hi].
    apply lookup_zip_with_Some in Hi as (b1 & b2 & -> & H1 & H2).
    apply list_lookup_fmap_Some_1 in H1 as (r & -> & Hri).
    apply list_lookup_fmap_Some_1 in H2 as (u & -> & Hui).
    apply list_elem_of_lookup_2 in Hri, Hui.
    rewrite forallb_forall in Hr, Hu.
    rewrite (top_covers _ recipe_id recipes r), (top_covers _ user_id users u);
      try done.
    + intros u' Hu'%list_elem_of_In%Hu. by apply andb_true_iff in Hu' as [_ ?].
    + apply list_elem_of_In, Hu, andb_true_iff in Hui as [Hna _].
      by destruct (is_nan u).
    + intros r' Hr'%list_elem_of_In%Hr. by apply andb_true_iff in Hr' as [_ ?].
    + apply list_elem_of_In, Hr, andb_true_iff in Hri as [Hna _].
      by destruct (is_nan r).
  - rewrite length_zip_with, !length_fmap, (keys_length _ _ _ Hrid),
      (keys_length _ _ _ Huid). unfold RangeIndex. cbn [Pd.of_csv rows].
    rewrite !length_fmap, length_seq. lia.
Qed.

Lemma small_table_is_kept_whole_witness :
  ∃ out,
    filter_interactions "RAW_interactions.csv"
      (Sample.world Sample.pp_recipes_csv Sample.mapping_csv)
    = (Sample.world Sample.pp_recipes_csv Sample.mapping_csv, Ok out) ∧
    index out = RangeIndex (length (records Sample.interactions_csv)) ∧
    length (rows out) = length (records Sample.interactions_csv).
Proof.
  eexists. split; [vm_compute; reflexivity|].
  apply (small_table_is_kept_whole "RAW_interactions.csv"
           (Sample.world Sample.pp_recipes_csv Sample.mapping_csv)
           (Sample.world Sample.pp_recipes_csv Sample.mapping_csv)
           Sample.interactions_csv _ [SInt 7; SInt 8] [SInt 1; SInt 2]
           [SInt 7; SInt 8] [SInt 1; SInt 2]);
    try (vm_compute; reflexivity); cbn [length]; lia.
Defined.

(** ** Casts that change nothing *)

Lemma hashable_cells cs ks : rmap Pd.hashable cs = Ok ks → cs = Sc <$> ks.
Proof.
  revert ks. induction cs as [|c cs IH]; intros ks; cbn [rmap].
  - by intros [= <-].
  - intros (k & Hk & (ks' & Hks & [= <-])%rbind_ok)%rbind_ok.
    csimpl. rewrite <- (IH _ Hks). f_equal. destruct c; [by injection Hk as <-|done].
Qed.

Lemma keys_col l df ks : Pd.keys l df = Ok ks → Pd.col l df = Ok (Sc <$> ks).
Proof.
  unfold Pd.keys. intros (cs & -> & Hk)%rbind_ok. f_equal. by apply hashable_cells.
Qed.

Lemma int_cells_cast cs :
  Forall (λ c, ∃ z, c = Sc (SInt z) ∧ Pd.is_int64 z = true) cs →
  Pd.astype_int_cells cs = Ok cs.
Proof.
  intros H. unfold Pd.astype_int_cells.
  assert (existsb Pd.non_finite cs = false) as ->.
  { induction H as [|c cs (z & -> & _) _ IH]; [done|]. cbn. exact IH. }
  induction H as [|c cs (z & -> & Hz) _ IH]; [done|]. cbn [rmap Pd.int_cell rbind].
  by rewrite (wrap64_small _ Hz), IH.
Qed.

Lemma set_nth_same {A} p (r : list A) d : Pd.set_nth p (nth p r d) r = r.
Proof.
  revert p. induction r as [|a r IH]; intros [|p]; cbn; try done. by rewrite IH.
Qed.

Lemma zip_with_rows_same p (rs : list (list cell)) :
  Pd.zip_with_rows (λ v r, Pd.set_nth p v r) ((λ row, nth p row NaN) <$> rs) rs = rs.
Proof.
  induction rs as [|r rs IH]; [done|]. csimpl. by rewrite set_nth_same, IH.
Qed.

(** Casting a column of int64 integers to [int] leaves the frame as it
    is. *)
Lemma astype_int_col_same l df cs :
  Pd.col l df = Ok cs →
  Forall (λ c, ∃ z, c = Sc (SInt z) ∧ Pd.is_int64 z = true) cs →
  Pd.astype_int_col l df = Ok df.
Proof.
  intros Hc Hint. unfold Pd.astype_int_col. rewrite Hc. cbn [rbind].
  rewrite (int_cells_cast _ Hint). cbn [rbind].
  apply col_unfold in Hc as (p & Hp & ->). unfold Pd.set_col. rewrite Hp.
  rewrite zip_with_rows_same. by destruct df.
Qed.

Lemma int_cells (zs : list Z) :
  forallb Pd.is_int64 zs = true →
  Forall (λ c, ∃ z, c = Sc (SInt z) ∧ Pd.is_int64 z = true) (Sc <$> (SInt <$> zs)).
Proof.
  induction zs as [|z zs IH]; [constructor|]. cbn [forallb].
  intros [Hz Hzs]%andb_true_iff. rewrite !fmap_cons. constructor; eauto.
Qed.

Lemma int_column_cast_same l mask df zs :
  Pd.keys l df = Ok (SInt <$> zs) →
  forallb Pd.is_int64 zs = true →
  Pd.astype_int_col l (Pd.select mask df) = Ok (Pd.select mask df).
Proof.
  intros Hk%keys_col Hz.
  apply (astype_int_col_same _ _ _ (col_select _ mask _ _ Hk)).
  by apply keep_Forall, int_cells.
Qed.


(** X12. On an interaction table whose user_id, recipe_id and rating
    columns hold integers of the int64 range, [filter_interactions]
    returns, and what it returns is the table without the review and date
    columns, cut down to the rows whose recipe id and user id are both
    among the frequent ones: the three casts change nothing, the kept rows
    keep their cells and their row labels, and nothing else is touched. *)
Theorem integer_table_is_only_filtered csv_file w t df rs us gs :
  files w !! csv_file = Some t →
  Pd.drop [SStr "review"; SStr "date"] (Pd.of_csv t) = Ok df →
  Pd.keys (SStr "recipe_id") df = Ok (SInt <$> rs) →
  Pd.keys (SStr "user_id") df = Ok (SInt <$> us) →
  Pd.keys (SStr "rating") df = Ok (SInt <$> gs) →
  forallb Pd.is_int64 rs = true →
  forallb Pd.is_int64 us = true →
  forallb Pd.is_int64 gs = true →
  filter_interactions csv_file w =
    (w, Ok (Pd.select
              (zip_with andb
                 ((λ x, isin x (Pd.top (Z.to_nat 100) (SInt <$> rs)))
                    <$> (SInt <$> rs))
                 ((λ x, isin x (Pd.top (Z.to_nat 30000) (SInt <$> us)))
                    <$> (SInt <$> us)))
              df)).
Proof.
  intros Hf Hdrop Hr Hu Hg Hrs Hus Hgs. unfold filter_interactions.
  rewrite (bind_ok _ _ _ _ _ (read_csv_run _ _ _ Hf)).
  erewrite bind_lift_ok by exact Hdrop. cbn beta.
  erewrite bind_lift_ok by exact Hr. cbn beta.
  erewrite bind_lift_ok by exact Hu. cbn beta.
  set (mask := zip_with andb _ _).
  erewrite bind_lift_ok by exact (int_column_cast_same _ mask _ _ Hu Hus). cbn beta.
  erewrite bind_lift_ok by exact (int_column_cast_same _ mask _ _ Hr Hrs). cbn beta.
  erewrite bind_lift_ok by exact (int_column_cast_same _ mask _ _ Hg Hgs). cbn beta.
  done.
Qed.

Lemma integer_table_is_only_filtered_witness :
  filter_interactions "RAW_interactions.csv"
    (Sample.world Sample.pp_recipes_csv Sample.mapping_csv) =
    (Sample.world Sample.pp_recipes_csv Sample.mapping_csv,
     Ok (Pd.select
           (zip_with andb
              ((λ x, isin x (Pd.top (Z.to_nat 100) (SInt <$> [7; 8])))
                 <$> (SInt <$> [7; 8]))
              ((λ x, isin x (Pd.top (Z.to_nat 30000) (SInt <$> [1; 2])))
                 <$> (SInt <$> [1; 2])))
           Sample.filtered)).
Proof.
  apply (integer_table_is_only_filtered "RAW_interactions.csv"
           (Sample.world Sample.pp_recipes_csv Sample.mapping_csv)
           Sample.interactions_csv Sample.filtered [7; 8] [1; 2] [5; 4]);
    vm_compute; reflexivity.
Defined.

(** ** The kept interactions, cell by cell *)

(** The cast of one column: the cells of the column are cast, one by one,
    and every other cell is as it was. *)
Lemma astype_int_col_spec l df df' :
  Pd.astype_int_col l df = Ok df' →
  ∃ p, Pd.positions l df = [p] ∧ index df' = index df ∧
       columns df' = columns df ∧
       Forall2 (cast_at [p]) (rows df) (rows df').
Proof.
  unfold Pd.astype_int_col.
  intros (cs & Hc & (cs' & Hcs'%astype_int_cells_ok & Hset)%rbind_ok)%rbind_ok.
  apply col_unfold in Hc as (p & Hp & ->). exists p. split; [done|].
  unfold Pd.set_col in Hset. rewrite Hp in Hset. injection Hset as <-.
  cbn [index columns rows]. do 2 (split; [done|]).
  revert cs' Hcs'. induction (rows df) as [|r rs IH]; intros cs'.
  - intros [= <-]. constructor.
  - rewrite fmap_cons. cbn [rmap].
    intros (c' & Hc' & (cs'' & Hcs'' & [= <-])%rbind_ok)%rbind_ok.
    cbn [Pd.zip_with_rows]. constructor; [|by apply IH].
    split; [apply length_set_nth|]. intros q. case_bool_decide as Hq.
    + apply list_elem_of_singleton in Hq as ->. rewrite Hc'. f_equal.
      symmetry. apply nth_set_nth_eq.
      destruct (decide (p < length r)%nat) as [|Hge]; [done|].
      rewrite nth_overflow in Hc' by lia. done.
    + apply nth_set_nth_ne. intros ->. apply Hq. by left.
Qed.

Ltac mem :=
  first
    [ by left | by (right; left) | by (right; right; left)
    | let H := fresh in
      intros H; repeat (apply elem_of_cons in H as [H|H]; [congruence|]);
      by apply elem_of_nil in H ].

Lemma cast_at_three pu pr pg r r1 r2 r3 :
  pu ≠ pr → pu ≠ pg → pr ≠ pg →
  cast_at [pu] r r1 → cast_at [pr] r1 r2 → cast_at [pg] r2 r3 →
  cast_at [pu; pr; pg] r r3.
Proof.
  intros Hur Hug Hrg [L1 H1] [L2 H2] [L3 H3]. split; [congruence|]. intros q.
  specialize (H1 q). specialize (H2 q). specialize (H3 q).
  destruct (decide (q = pu)) as [->|Hu];
    [|destruct (decide (q = pr)) as [->|Hr];
      [|destruct (decide (q = pg)) as [->|Hg]]].
  - rewrite bool_decide_eq_true_2 in H1 by mem.
    rewrite bool_decide_eq_false_2 in H2 by mem.
    rewrite bool_decide_eq_false_2 in H3 by mem.
    rewrite bool_decide_eq_true_2 by mem. congruence.
  - rewrite bool_decide_eq_false_2 in H1 by mem.
    rewrite bool_decide_eq_true_2 in H2 by mem.
    rewrite bool_decide_eq_false_2 in H3 by mem.
    rewrite bool_decide_eq_true_2 by mem. congruence.
  - rewrite bool_decide_eq_false_2 in H1 by mem.
    rewrite bool_decide_eq_false_2 in H2 by mem.
    rewrite bool_decide_eq_true_2 in H3 by mem.
    rewrite bool_decide_eq_true_2 by mem. congruence.
  - rewrite bool_decide_eq_false_2 in H1 by mem.
    rewrite bool_decide_eq_false_2 in H2 by mem.
    rewrite bool_decide_eq_false_2 in H3 by mem.
    rewrite bool_decide_eq_false_2 by mem. congruence.
Qed.

(** What a call of [filter_interactions] that returns a frame has kept *)
Lemma filter_interactions_content csv_file w w' t out :
  files w !! csv_file = Some t →
  filter_interactions csv_file w = (w', Ok out) →
  ∃ recipe_id user_id,
    Pd.keys (SStr "recipe_id") (Pd.of_csv t) = Ok recipe_id ∧
    Pd.keys (SStr "user_id") (Pd.of_csv t) = Ok user_id ∧
    let top_recipe_ids := Pd.top (Z.to_nat 100) recipe_id in
    let top_user_ids := Pd.top (Z.to_nat 30000) user_id in
    let both :=
      zip_with andb ((λ x, isin x top_recipe_ids) <$> recipe_id)
                    ((λ x, isin x top_user_ids) <$> user_id) in
    let wanted :=
      (λ c, negb (isin c [SStr "review"; SStr "date"]))
        <$> columns (Pd.of_csv t) in
    most_frequent (Z.to_nat 100) recipe_id top_recipe_ids ∧
    most_frequent (Z.to_nat 30000) user_id top_user_ids ∧
    (∀ i : nat,
       Z.of_nat i ∈ index out ↔
       ∃ r u, recipe_id !! i = Some r ∧ user_id !! i = Some u ∧
              isin r top_recipe_ids = true ∧ isin u top_user_ids = true) ∧
    NoDup (index out) ∧
    length (rows out) = length (index out) ∧
    (length (rows out) ≤ length (records t))%nat ∧
    w' = w ∧
    index out = Pd.keep both (RangeIndex (length (records t))) ∧
    columns out = Pd.keep wanted (columns (Pd.of_csv t)) ∧
    ∃ pu pr pg,
      Pd.positions (SStr "user_id") out = [pu] ∧
      Pd.positions (SStr "recipe_id") out = [pr] ∧
      Pd.positions (SStr "rating") out = [pg] ∧
      Forall2 (cast_at [pu; pr; pg])
        (Pd.keep both (Pd.keep wanted <$> rows (Pd.of_csv t)))
        (rows out).
Proof.
  intros Hf Hrun.
  destruct (filter_interactions_labels _ _ _ _ _ Hf Hrun)
    as (recipe_id & user_id & Hrid0 & Huid0 & Hold).
  exists recipe_id, user_id. do 2 (split; [done|]). cbn zeta in *.
  destruct Hold as (Hm1 & Hm2 & Hlab & Hnd & Hlen & Hle).
  do 6 (split; [done|]).
  unfold filter_interactions in Hrun.
  rewrite (bind_ok _ _ _ _ _ (read_csv_run _ _ _ Hf)) in Hrun.
  apply bind_lift_inv in Hrun as (df & Hdrop & Hrun).
  apply bind_lift_inv in Hrun as (rid & Hrid & Hrun).
  apply bind_lift_inv in Hrun as (uid & Huid & Hrun).
  apply bind_lift_inv in Hrun as (df1 & H1 & Hrun).
  apply bind_lift_inv in Hrun as (df2 & H2 & Hrun).
  apply bind_lift_inv in Hrun as (df3 & H3 & Hrun).
  injection Hrun as <- <-. split; [done|].
  rewrite (keys_drop _ (SStr "recipe_id") _ _
    (λ c, not_dropped (SStr "recipe_id") [SStr "review"; SStr "date"] c eq_refl)
    Hdrop), Hrid0 in Hrid. injection Hrid as <-.
  rewrite (keys_drop _ (SStr "user_id") _ _
    (λ c, not_dropped (SStr "user_id") [SStr "review"; SStr "date"] c eq_refl)
    Hdrop), Huid0 in Huid. injection Huid as <-.
  apply astype_int_col_spec in H1 as (pu & Hpu & I1 & C1 & R1).
  apply astype_int_col_spec in H2 as (pr & Hpr & I2 & C2 & R2).
  apply astype_int_col_spec in H3 as (pg & Hpg & I3 & C3 & R3).
  unfold Pd.drop in Hdrop. destruct (forallb _ _); [|done]. injection Hdrop as <-.
  unfold Pd.positions in *. rewrite C2, C1 in Hpg. rewrite C1 in Hpr.
  cbn [Pd.select index columns rows Pd.of_csv] in *.
  rewrite I3, I2, I1, C3, C2, C1. do 2 (split; [done|]).
  exists pu, pr, pg. do 3 (split; [done|]).
  assert (Forall2 (λ r r2, ∃ r1, cast_at [pu] r r1 ∧ cast_at [pr] r1 r2)
            (Pd.keep
               (zip_with andb
                  ((λ x, isin x (Pd.top (Z.to_nat 100) recipe_id)) <$> recipe_id)
                  ((λ x, isin x (Pd.top (Z.to_nat 30000) user_id)) <$> user_id))
               (Pd.keep
                  ((λ c, negb (isin c [SStr "review"; SStr "date"]))
                     <$> (SStr <$> header t)) <$>
                ((λ r : list scalar, Sc <$> r) <$> records t)))
            (rows df2)) as R12.
  { eapply Forall2_trans; [|exact R1|exact R2].
    intros r r1 r2 Ha Hb. by exists r1. }
  eapply Forall2_trans; [|exact R12|exact R3].
  intros r r2 r3 (r1 & Ha & Hb) Hc.
  eapply (cast_at_three pu pr pg); try done.
  - eapply (positions_disjoint (SStr "user_id") (SStr "recipe_id")); [done| |];
      [rewrite Hpu|rewrite Hpr]; by left.
  - eapply (positions_disjoint (SStr "user_id") (SStr "rating")); [done| |];
      [rewrite Hpu|rewrite Hpg]; by left.
  - eapply (positions_disjoint (SStr "recipe_id") (SStr "rating")); [done| |];
      [rewrite Hpr|rewrite Hpg]; by left.
Qed.

(** C1. A call of [filter_interactions] that returns a frame has changed
    nothing else, and the frame holds exactly the rows of the interaction
    table whose recipe_id is one of the 100 most frequent recipe ids of the
    table and whose user_id is one of the 30000 most frequent user ids,
    both at once: the row at position [i] is kept, under the label [i], if
    and only if both hold; the kept rows stand in the order of the table,
    without the review and date cells, with the user_id, recipe_id and
    rating cells cast to int and every other cell as it was. So the frame
    has at most as many rows as the table. And the call does return such a
    frame when the table has the review and date columns and its user_id,
    recipe_id and rating columns hold integers of the int64 range. *)
Theorem filter_interactions_keeps_top csv_file w t :
  files w !! csv_file = Some t →
  (∀ w' out,
     filter_interactions csv_file w = (w', Ok out) →
     ∃ recipe_id user_id,
       Pd.keys (SStr "recipe_id") (Pd.of_csv t) = Ok recipe_id ∧
       Pd.keys (SStr "user_id") (Pd.of_csv t) = Ok user_id ∧
       let top_recipe_ids := Pd.top (Z.to_nat 100) recipe_id in
       let top_user_ids := Pd.top (Z.to_nat 30000) user_id in
       let both :=
         zip_with andb ((λ x, isin x top_recipe_ids) <$> recipe_id)
                       ((λ x, isin x top_user_ids) <$> user_id) in
       let wanted :=
         (λ c, negb (isin c [SStr "review"; SStr "date"]))
           <$> columns (Pd.of_csv t) in
       most_frequent (Z.to_nat 100) recipe_id top_recipe_ids ∧
       most_frequent (Z.to_nat 30000) user_id top_user_ids ∧
       (∀ i : nat,
          Z.of_nat i ∈ index out ↔
          ∃ r u, recipe_id !! i = Some r ∧ user_id !! i = Some u ∧
                 isin r top_recipe_ids = true ∧ isin u top_user_ids = true) ∧
       NoDup (index out) ∧
       length (rows out) = length (index out) ∧
       (length (rows out) ≤ length (records t))%nat ∧
       w' = w ∧
       index out = Pd.keep both (RangeIndex (length (records t))) ∧
       columns out = Pd.keep wanted (columns (Pd.of_csv t)) ∧
       ∃ pu pr pg,
         Pd.positions (SStr "user_id") out = [pu] ∧
         Pd.positions (SStr "recipe_id") out = [pr] ∧
         Pd.positions (SStr "rating") out = [pg] ∧
         Forall2 (cast_at [pu; pr; pg])
           (Pd.keep both (Pd.keep wanted <$> rows (Pd.of_csv t)))
           (rows out)) ∧
  (∀ df rs us gs,
     Pd.drop [SStr "review"; SStr "date"] (Pd.of_csv t) = Ok df →
     Pd.keys (SStr "recipe_id") df = Ok (SInt <$> rs) →
     Pd.keys (SStr "user_id") df = Ok (SInt <$> us) →
     Pd.keys (SStr "rating") df = Ok (SInt <$> gs) →
     forallb Pd.is_int64 rs = true →
     forallb Pd.is_int64 us = true →
     forallb Pd.is_int64 gs = true →
     ∃ out, filter_interactions csv_file w = (w, Ok out)).
Proof.
  intros Hf. split.
  - intros w' out Hrun. exact (filter_interactions_content _ _ _ _ _ Hf Hrun).
  - intros df rs us gs Hdrop Hr Hu Hg Hrs Hus Hgs. unfold filter_interactions.
    rewrite (bind_ok _ _ _ _ _ (read_csv_run _ _ _ Hf)).
    erewrite bind_lift_ok by exact Hdrop. cbn beta.
    erewrite bind_lift_ok by exact Hr. cbn beta.
    erewrite bind_lift_ok by exact Hu. cbn beta.
    set (mask := zip_with andb _ _).
    erewrite bind_lift_ok by exact (int_column_cast_same _ mask _ _ Hu Hus).
    cbn beta.
    erewrite bind_lift_ok by exact (int_column_cast_same _ mask _ _ Hr Hrs).
    cbn beta.
    erewrite bind_lift_ok by exact (int_column_cast_same _ mask _ _ Hg Hgs).
    cbn beta.
    by eexists.
Qed.

Lemma filter_interactions_keeps_top_witness :
  ∃ out,
    filter_interactions "RAW_interactions.csv"
      (Sample.interactions_world Sample.interactions_many_csv)
    = (Sample.interactions_world Sample.interactions_many_csv, Ok out) ∧
    length (records Sample.interactions_many_csv) = 201%nat ∧
    length (rows out) = 200%nat ∧
    ∃ recipe_id user_id,
      Pd.keys (SStr "recipe_id") (Pd.of_csv Sample.interactions_many_csv)
        = Ok recipe_id ∧
      Pd.keys (SStr "user_id") (Pd.of_csv Sample.interactions_many_csv)
        = Ok user_id ∧
      let top_recipe_ids := Pd.top (Z.to_nat 100) recipe_id in
      let top_user_ids := Pd.top (Z.to_nat 30000) user_id in
      let both :=
        zip_with andb ((λ x, isin x top_recipe_ids) <$> recipe_id)
                      ((λ x, isin x top_user_ids) <$> user_id) in
      let wanted :=
        (λ c, negb (isin c [SStr "review"; SStr "date"]))
          <$> columns (Pd.of_csv Sample.interactions_many_csv) in
      most_frequent (Z.to_nat 100) recipe_id top_recipe_ids ∧
      most_frequent (Z.to_nat 30000) user_id top_user_ids ∧
      (∀ i : nat,
         Z.of_nat i ∈ index out ↔
         ∃ r u, recipe_id !! i = Some r ∧ user_id !! i = Some u ∧
                isin r top_recipe_ids = true ∧ isin u top_user_ids = true) ∧
      NoDup (index out) ∧
      length (rows out) = length (index out) ∧
      (length (rows out) ≤ length (records Sample.interactions_many_csv))%nat ∧
      Sample.interactions_world Sample.interactions_many_csv
        = Sample.interactions_world Sample.interactions_many_csv ∧
      index out =
        Pd.keep both
          (RangeIndex (length (records Sample.interactions_many_csv))) ∧
      columns out =
        Pd.keep wanted (columns (Pd.of_csv Sample.interactions_many_csv)) ∧
      ∃ pu pr pg,
        Pd.positions (SStr "user_id") out = [pu] ∧
        Pd.positions (SStr "recipe_id") out = [pr] ∧
        Pd.positions (SStr "rating") out = [pg] ∧
        Forall2 (cast_at [pu; pr; pg])
          (Pd.keep both
             (Pd.keep wanted <$> rows (Pd.of_csv Sample.interactions_many_csv)))
          (rows out).
Proof.
  destruct (filter_interactions_keeps_top "RAW_interactions.csv"
              (Sample.interactions_world Sample.interactions_many_csv)
              Sample.interactions_many_csv)
    as [Hkept Hreturns]; [vm_compute; reflexivity|].
  destruct (Hreturns
              {| index := index (Pd.of_csv Sample.interactions_many_csv);
                 columns := [SStr "user_id"; SStr "recipe_id"; SStr "rating"];
                 rows :=
                   Pd.keep [true; true; false; true; false]
                     <$> rows (Pd.of_csv Sample.interactions_many_csv) |}
              (flat_map (λ k, [k; k]) (Z.of_nat <$> seq 1 100) ++ [101])
              (flat_map (λ _, [1; 2]) (seq 1 100) ++ [1])
              (flat_map (λ _, [5; 4]) (seq 1 100) ++ [3]))
    as [out Hrun]; [vm_compute; reflexivity ..|].
  exists out. split; [exact Hrun|]. split; [reflexivity|].
  split; [|exact (Hkept _ _ Hrun)].
  assert (filter_interactions "RAW_interactions.csv"
            (Sample.interactions_world Sample.interactions_many_csv)
          = (Sample.interactions_world Sample.interactions_many_csv, Ok out))
    as Hrun' by exact Hrun.
  vm_compute in Hrun'. injection Hrun' as <-. reflexivity.
Defined.

(** ** The length of the nutrition lists *)

(** C2, as amended. On a well-formed table with a nutrition column,
    [process_nutrition_column] fails when a nutrition cell that is not
    missing has an element that does not parse as a float, and it fails
    with ValueError when the cells that are not missing all parse, there is
    at least one, and the longest of the parsed lists does not have exactly
    7 elements. The lengths of the other lists are not checked: when the
    rows are numbered from 0, no nutrition cell is missing, every cell
    parses and the longest list has 7 elements, the call returns the table
    without its nutrition column, followed by the seven nutrition columns,
    and the row of a list with fewer than 7 floats has its values under the
    first names and NaN under the names that are left. *)
Theorem nutrition_length_checked_on_longest_list df cells :
  Pd.col (SStr "nutrition") df = Ok cells →
  (∀ c, c ∈ cells → isna c = false →
        is_err (on_text parse_nutrition c) →
        is_err (process_nutrition_column df)) ∧
  (∀ lists,
     rectangular df →
     rmap (on_text parse_nutrition) (List.filter (λ c, negb (isna c)) cells)
       = Ok lists →
     lists ≠ [] →
     Pd.width lists ≠ 7%nat →
     process_nutrition_column df = Err ValueError) ∧
  (∀ lists,
     rectangular df →
     index df = RangeIndex (length (rows df)) →
     Forall (λ c, isna c = false) cells →
     rmap (on_text parse_nutrition) cells = Ok lists →
     Pd.width lists = 7%nat →
     process_nutrition_column df =
       Ok {| index := index df;
             columns :=
               Pd.keep ((λ c, negb (isin c [SStr "nutrition"])) <$> columns df)
                       (columns df) ++ nutrition_columns;
             rows :=
               zip_with
                 (λ (r : list cell) (l : list scalar),
                    Pd.keep ((λ c, negb (isin c [SStr "nutrition"]))
                               <$> columns df) r
                    ++ (Sc <$> l) ++ replicate (7 - length l) NaN)
                 (rows df) lists |}).
Proof.
  intros Hc. split; [|split].
  - intros c Hin Hna Herr. unfold process_nutrition_column.
    destruct (dropna_col _ _ _ Hc) as (df1 & -> & _ & Hc1). cbn [rbind].
    rewrite Hc1. cbn [rbind]. apply rbind_err. apply (rmap_err _ _ c); [|done].
    apply list_elem_of_In, List.filter_In. split; [by apply list_elem_of_In|].
    by rewrite Hna.
  - intros lists Hrect Hl Hne Hw.
    destruct (process_nutrition_column_lists _ _ _ Hrect Hc Hl) as (df2 & _ & _ & ->).
    unfold Pd.from_lists. destruct lists as [|l lists]; [done|].
    assert ((length nutrition_columns =? Pd.width (l :: lists))%nat = false) as ->.
    { apply Nat.eqb_neq. cbn [nutrition_columns length]. lia. }
    done.
  - intros lists Hrect Hidx Hna Hl Hw.
    exact (process_nutrition_column_aligned df cells lists Hrect Hidx Hc Hna Hl
             (or_intror Hw)).
Qed.

Lemma nutrition_length_checked_on_longest_list_witness :
  is_err (process_nutrition_column
            {| index := [0];
               columns := [SStr "id"; SStr "nutrition"];
               rows := [[Sc (SInt 7); Sc (SStr "[1.0, high]")]] |}) ∧
  process_nutrition_column Sample.nutrition_long = Err ValueError ∧
  process_nutrition_column Sample.nutrition_short =
    Ok {| index := index Sample.nutrition_short;
          columns :=
            Pd.keep ((λ c, negb (isin c [SStr "nutrition"]))
                       <$> columns Sample.nutrition_short)
                    (columns Sample.nutrition_short) ++ nutrition_columns;
          rows :=
            zip_with
              (λ (r : list cell) (l : list scalar),
                 Pd.keep ((λ c, negb (isin c [SStr "nutrition"]))
                            <$> columns Sample.nutrition_short) r
                 ++ (Sc <$> l) ++ replicate (7 - length l) NaN)
              (rows Sample.nutrition_short)
              [[SFloat 1; SFloat 2; SFloat 3; SFloat 4; SFloat 5; SFloat 6;
                SFloat 7];
               [SFloat 1; SFloat 2]] |}.
Proof.
  split; [|split].
  - apply (proj1 (nutrition_length_checked_on_longest_list
             {| index := [0];
                columns := [SStr "id"; SStr "nutrition"];
                rows := [[Sc (SInt 7); Sc (SStr "[1.0, high]")]] |}
             [Sc (SStr "[1.0, high]")] eq_refl)
           (Sc (SStr "[1.0, high]"))).
    + by left.
    + reflexivity.
    + by eexists.
  - apply (proj1 (proj2 (nutrition_length_checked_on_longest_list
             Sample.nutrition_long
             [Sc (SStr "[1.0, 2.0, 3.0, 4.0, 5.0, 6.0, 7.0, 8.0]");
              Sc (SStr "[1.0, 2.0, 3.0, 4.0, 5.0, 6.0, 7.0, 8.0]")]
             ltac:(vm_compute; reflexivity)))
           [[SFloat 1; SFloat 2; SFloat 3; SFloat 4; SFloat 5; SFloat 6;
             SFloat 7; SFloat 8];
            [SFloat 1; SFloat 2; SFloat 3; SFloat 4; SFloat 5; SFloat 6;
             SFloat 7; SFloat 8]]).
    + repeat constructor.
    + vm_compute. reflexivity.
    + discriminate.
    + vm_compute. discriminate.
  - apply (proj2 (proj2 (nutrition_length_checked_on_longest_list
             Sample.nutrition_short
             [Sc (SStr "[1.0, 2.0, 3.0, 4.0, 5.0, 6.0, 7.0]");
              Sc (SStr "[1.0, 2.0]")]
             ltac:(vm_compute; reflexivity)))).
    + repeat constructor.
    + reflexivity.
    + repeat constructor.
    + vm_compute. reflexivity.
    + reflexivity.
Defined.

(** ** A mapping table that replaces ids by numbers *)


(** ** The technique columns when the rows are numbered from 0 *)

Lemma astype_int_full (lists : list (list scalar)) w :
  Forall (Forall (λ s, small_int s = true)) lists →
  Forall (λ l, length l = w) lists →
  rmap (rmap Pd.int_object) (Pd.pad w <$> lists) =
  Ok ((λ l : list scalar, Sc <$> l) <$> lists).
Proof.
  intros Hall. induction Hall as [|l lists Hl _ IH]; [done|].
  intros [Hw Hws]%Forall_cons. csimpl. cbn [rmap].
  rewrite astype_int_row_full by (done || lia). cbn [rbind].
  by rewrite IH.
Qed.

Lemma technique_name_kept x :
  negb (isin (SStr ("technique_" +:+ x)) [SStr "techniques"]) = true.
Proof.
  unfold isin. cbn [existsb]. rewrite orb_false_r, same_key_text.
  rewrite bool_decide_eq_false_2; [done|]. intros E. by simplify_eq.
Qed.

Lemma technique_names_kept (cs : list label) :
  Forall (λ b, b = true)
    ((λ c, negb (isin c [SStr "techniques"]))
       <$> ((λ c, SStr ("technique_" +:+ label_str c)) <$> cs)).
Proof.
  induction cs as [|c cs IH]; [constructor|]. rewrite !fmap_cons.
  constructor; [apply technique_name_kept|done].
Qed.

(** X13. When the rows of the merged frame are numbered from 0 (no row was
    dropped for want of techniques), every techniques cell parses to
    integers of the int64 range and all the lists have the same length,
    lines 67-80 return, row by row in order, the cells of the row without
    its techniques cell followed by the integers of its own list, under the
    names technique_0, technique_1, ...; the index is unchanged. *)
Theorem technique_values_stay_with_their_row merged_df cells lists :
  rectangular merged_df →
  index merged_df = RangeIndex (length (rows merged_df)) →
  Pd.col (SStr "techniques") merged_df = Ok cells →
  rmap (on_text parse_techniques) cells = Ok lists →
  forallb (forallb small_int) lists = true →
  Forall (λ l, length l = Pd.width lists) lists →
  ∃ merged_df',
    expand_techniques merged_df =
      Ok (merged_df',
          {| index := index merged_df;
             columns :=
               Pd.keep ((λ c, negb (isin c [SStr "techniques"]))
                          <$> columns merged_df) (columns merged_df)
               ++ ((λ i, SStr ("technique_" +:+ pretty i))
                     <$> RangeIndex (Pd.width lists));
             rows :=
               zip_with
                 (λ (r : list cell) (l : list scalar),
                    Pd.keep ((λ c, negb (isin c [SStr "techniques"]))
                               <$> columns merged_df) r
                    ++ (Sc <$> l))
                 (rows merged_df) lists |}).
Proof.
  intros Hrect Hidx Hc Hl Hsmall Hw. unfold expand_techniques.
  rewrite Hc. cbn [rbind]. rewrite Hl. cbn [rbind].
  assert (length lists = length (rows merged_df)) as Hlen'.
  { by rewrite (rmap_length _ _ _ Hl), <- (col_length _ _ _ Hc). }
  assert (length (Lst <$> lists) = length (rows merged_df)) as Hlen
    by by rewrite length_fmap.
  pose proof Hc as (p & Hp & _)%col_unfold.
  destruct (Pd.set_col (SStr "techniques") (Lst <$> lists) merged_df)
    as [df2|e] eqn:Hset; [|unfold Pd.set_col in Hset; by rewrite Hp in Hset].
  destruct (col_set_col_same _ _ _ _ _ Hrect Hc Hlen Hset) as (Hc2 & Hi2 & Hcols2).
  cbn [rbind]. rewrite Hc2. cbn [rbind]. rewrite tolist_lists. cbn [rbind].
  unfold Pd.from_lists. cbn [rbind]. unfold Pd.astype_int, Pd.add_prefix.
  cbn [rows index columns].
  rewrite (astype_int_full _ _ (small_ints _ Hsmall) Hw). cbn [rbind].
  unfold Pd.concat_columns. cbn [index columns rows].
  rewrite bool_decide_eq_true_2 by by rewrite Hi2, Hidx, Hlen'.
  cbn [rbind]. unfold Pd.drop. cbn [forallb]. unfold Pd.has_column. cbn [columns].
  assert (isin (SStr "techniques")
            (columns df2 ++ ((λ c, SStr ("technique_" +:+ label_str c))
               <$> (SInt <$> RangeIndex (Pd.width lists)))) = true) as ->.
  { unfold isin. rewrite existsb_app. fold (isin (SStr "techniques") (columns df2)).
    rewrite Hcols2, (positions_isin _ _ p); [done|]. unfold Pd.positions in Hp.
    rewrite Hp. by left. }
  cbn [andb rbind index columns rows]. exists df2. do 2 f_equal.
  rewrite Hi2, Hcols2. f_equal.
  { rewrite fmap_app, keep_app by by rewrite length_fmap. f_equal.
    rewrite keep_all; [|apply technique_names_kept|rewrite !length_fmap; lia].
    rewrite <- list_fmap_compose. done. }
  unfold Pd.set_col in Hset. rewrite Hp in Hset. injection Hset as <-.
  cbn [rows]. unfold rectangular in Hrect.
  clear Hl Hidx Hc Hc2 Hlen Hi2 Hcols2 Hsmall. revert Hw. generalize (Pd.width lists) as w.
  intros w Hw. revert lists Hlen' Hw Hrect. generalize (rows merged_df) as rs.
  induction rs as [|r rs IH]; intros [|l lists] Hlen Hw Hrect; try done.
  apply Forall_cons in Hw as [Hl Hw]. apply Forall_cons in Hrect as [Hr Hrect].
  csimpl. cbn in Hlen. f_equal; [|apply IH; (done || lia)].
  rewrite fmap_app, keep_app by (rewrite length_fmap, length_set_nth; by symmetry).
  f_equal.
  - apply keep_set_nth, dropped_position. unfold Pd.positions in Hp.
    rewrite Hp. by left.
  - apply keep_all; [apply technique_names_kept|].
    unfold RangeIndex. rewrite !length_fmap, length_seq. lia.
Qed.

Lemma technique_values_stay_with_their_row_witness :
  ∃ merged_df',
    expand_techniques Sample.merged_one =
      Ok (merged_df',
          {| index := index Sample.merged_one;
             columns :=
               Pd.keep ((λ c, negb (isin c [SStr "techniques"]))
                          <$> columns Sample.merged_one) (columns Sample.merged_one)
               ++ ((λ i, SStr ("technique_" +:+ pretty i))
                     <$> RangeIndex (Pd.width [[SInt 1; SInt 0; SInt 2]]));
             rows :=
               zip_with
                 (λ (r : list cell) (l : list scalar),
                    Pd.keep ((λ c, negb (isin c [SStr "techniques"]))
                               <$> columns Sample.merged_one) r
                    ++ (Sc <$> l))
                 (rows Sample.merged_one) [[SInt 1; SInt 0; SInt 2]] |}).
Proof.
  apply (technique_values_stay_with_their_row Sample.merged_one
           [Sc (SStr "[1, 0, 2]")] [[SInt 1; SInt 0; SInt 2]]).
  - repeat constructor.
  - reflexivity.
  - vm_compute. reflexivity.
  - vm_compute. reflexivity.
  - reflexivity.
  - repeat constructor.
Defined.

(** ** Reading back a list of integers *)

















(** *** The pieces between the commas *)










(** ** The rows that the join with the recipes retains *)








(** ** The three frames of [process_recipe_data], side by side *)

Lemma length_RangeIndex n : length (RangeIndex n) = n.
Proof. unfold RangeIndex. by rewrite length_fmap, length_seq. Qed.

Lemma set_col_rows l vals df df' :
  length vals = length (rows df) →
  Pd.set_col l vals df = Ok df' →
  index df' = index df ∧ length (rows df') = length (rows df).
Proof.
  intros Hlen. unfold Pd.set_col.
  destruct (Pd.positions l df) as [|i [|??]]; try done; intros [= <-];
    cbn [index rows]; by rewrite zip_with_rows_length.
Qed.

(** The frames of lines 67-80 when the merged rows are numbered from 0 *)
Lemma expand_techniques_index merged merged' processed :
  expand_techniques merged = Ok (merged', processed) →
  index merged = RangeIndex (length (rows merged)) →
  index merged' = index merged ∧
  length (rows merged') = length (rows merged) ∧
  index processed = index merged ∧
  length (rows processed) = length (rows merged).
Proof.
  unfold expand_techniques. intros H Hidx.
  apply rbind_ok in H as (cells & Hc & H).
  apply rbind_ok in H as (lists & Hl & H).
  apply rbind_ok in H as (df2 & Hset & H).
  apply rbind_ok in H as (cells2 & Hc2 & H).
  apply rbind_ok in H as (data & Hdata & H).
  apply rbind_ok in H as (tdf & Ht & H).
  apply rbind_ok in H as (tdf' & Ht' & H).
  apply rbind_ok in H as (pc & Hcat & H).
  apply rbind_ok in H as (pd & Hdrop & [= <- <-]).
  assert (length (Lst <$> lists) = length (rows merged)) as Hlen.
  { by rewrite length_fmap, (rmap_length _ _ _ Hl), (col_length _ _ _ Hc). }
  destruct (set_col_rows _ _ _ _ Hlen Hset) as [Hi2 Hr2].
  do 2 (split; [done|]).
  assert (length data = length (rows merged)) as Hdata'.
  { unfold Pd.tolist in Hdata.
    by rewrite (rmap_length _ _ _ Hdata), (col_length _ _ _ Hc2). }
  injection Ht as <-. unfold Pd.astype_int in Ht'.
  apply rbind_ok in Ht' as (rs & Hrs & [= <-]).
  apply rmap_length in Hrs. cbn [Pd.add_prefix rows index] in *.
  rewrite length_fmap in Hrs.
  unfold Pd.concat_columns in Hcat. cbn [index rows columns] in Hcat.
  rewrite bool_decide_eq_true_2 in Hcat by by rewrite Hi2, Hidx, Hdata'.
  injection Hcat as <-. destruct (drop_rows _ _ _ Hdrop) as [-> ->].
  cbn [index rows]. split; [done|].
  rewrite length_zip_with. lia.
Qed.

Lemma one_hot_index merged_df oh :
  one_hot merged_df = Ok oh →
  index oh = RangeIndex (length (rows merged_df)) ∧
  length (rows oh) = length (rows merged_df).
Proof.
  unfold one_hot. intros H.
  apply rbind_ok in H as (cells & Hc & H).
  apply rbind_ok in H as (U & _ & H).
  apply rbind_ok in H as (ds & Hds & [= <-]).
  cbn [Pd.fillna0 Pd.from_dicts index rows].
  by rewrite !length_fmap, (rmap_length _ _ _ Hds), (col_length _ _ _ Hc).
Qed.

Lemma fmap_zip_with_app (f : list cell → list cell) (rs os : list (list cell)) :
  f <$> zip_with app rs os = zip_with (λ r o, f (r ++ o)) rs os.
Proof.
  revert os. induction rs as [|r rs IH]; intros [|o os]; csimpl; try done.
  by rewrite IH.
Qed.

(** X17. Lines 110-118 when the merged rows are numbered from 0: in a call
    of [process_recipe_data] that returns, the frame with the technique
    columns and the one-hot frame are put side by side row by row, in
    order, and the ingredient_ids cell is taken out. The one-hot columns
    are under the names that [filter_ingredient_mapping] gave them in the
    shared frame, which is the last frame of the heap. *)
Theorem recipe_rows_are_joined_in_order
    filtered_df recipe_csv w w' pp merged merged' processed oh out :
  files w !! recipe_csv = Some pp →
  merge_recipes filtered_df (Pd.of_csv pp) = Ok merged →
  index merged = RangeIndex (length (rows merged)) →
  expand_techniques merged = Ok (merged', processed) →
  one_hot merged' = Ok oh →
  process_recipe_data filtered_df recipe_csv w = (w', Ok out) →
  ∃ names,
    heap w' !! length (heap w) = Some (with_columns names oh) ∧
    length names = length (columns oh) ∧
    let mask :=
      (λ c, negb (isin c [SStr "ingredient_ids"])) <$> (columns processed ++ names) in
    index out = index merged ∧
    columns out = Pd.keep mask (columns processed ++ names) ∧
    rows out =
      zip_with (λ r o, Pd.keep mask (r ++ o)) (rows processed) (rows oh) ∧
    length (rows out) = length (rows merged).
Proof.
  intros Hf Hm Hidx Ht Ho Hrun.
  rewrite (process_recipe_data_stages _ _ _ _ _ Hf Hm) in Hrun.
  erewrite bind_lift_ok in Hrun by exact Ht. cbn beta iota in Hrun.
  erewrite bind_lift_ok in Hrun by exact Ho. cbn beta in Hrun.
  rewrite (bind_ok _ _ _ _ _ (alloc_run _ _)) in Hrun.
  set (w1 := set_heap (heap w ++ [oh]) w) in *.
  set (r := length (heap w)) in *.
  assert (heap w1 !! r = Some oh) as Hr.
  { subst w1 r. cbn [set_heap heap]. by rewrite lookup_app_r, Nat.sub_diag. }
  destruct (filter_ingredient_mapping "ingredient_mapping.csv" r w1)
    as [w2 [r'|e]] eqn:Hfm; [|by rewrite (bind_err _ _ _ _ _ Hfm) in Hrun].
  rewrite (bind_ok _ _ _ _ _ Hfm) in Hrun.
  destruct (one_hot_columns _ _ Ho) as [ks Hks].
  assert (∃ t, files w1 !! "ingredient_mapping.csv" = Some t) as [t Hft].
  { unfold filter_ingredient_mapping in Hfm. unfold read_csv in Hfm.
    unfold mbind at 1, M_bind at 1 in Hfm.
    destruct (files w1 !! "ingredient_mapping.csv"); [eauto|done]. }
  destruct (filter_ingredient_mapping_ok _ _ _ _ _ _ _ _ Hft Hr Hks Hfm)
    as (-> & _ & ->).
  set (names := (rename_all _ ks (columns oh)).1) in *.
  assert (heap (set_heap (<[r := with_columns names oh]> (heap w1)) w1) !! r
          = Some (with_columns names oh)) as Hr2.
  { cbn [set_heap heap]. apply list_lookup_insert_eq. by eapply lookup_lt_Some. }
  rewrite (bind_ok _ _ _ _ _ (load_run _ _ _ Hr2)) in Hrun.
  apply bind_lift_inv in Hrun as (pc & Hcat & Hrun).
  apply bind_lift_inv in Hrun as (out' & Hdrop & Hrun).
  injection Hrun as <- <-.
  exists names. split; [done|]. split; [apply rename_all_length|]. cbn zeta.
  destruct (expand_techniques_index _ _ _ Ht Hidx) as (_ & Hr' & Hip & Hlp).
  destruct (one_hot_index _ _ Ho) as [Hio Hlo].
  unfold Pd.concat_columns in Hcat. cbn [with_columns index columns rows] in Hcat.
  rewrite bool_decide_eq_true_2 in Hcat by by rewrite Hip, Hio, Hr'.
  injection Hcat as <-. unfold Pd.drop in Hdrop.
  destruct (forallb _ _); [|done]. injection Hdrop as <-.
  cbn [index columns rows]. split; [done|]. split; [done|].
  rewrite fmap_zip_with_app. split; [done|].
  rewrite length_zip_with. lia.
Qed.

Lemma recipe_rows_are_joined_in_order_witness :
  ∃ names,
    heap {| files := files (Sample.world Sample.pp_recipes_csv Sample.mapping_csv);
            heap := [with_columns [SStr "salt"] Sample.one_hot_one];
            stdout := [] |}
      !! length (heap (Sample.world Sample.pp_recipes_csv Sample.mapping_csv))
    = Some (with_columns names Sample.one_hot_one) ∧
    length names = length (columns Sample.one_hot_one) ∧
    let mask :=
      (λ c, negb (isin c [SStr "ingredient_ids"]))
        <$> (columns Sample.expanded_one ++ names) in
    index Sample.processed_one = index Sample.merged_one ∧
    columns Sample.processed_one =
      Pd.keep mask (columns Sample.expanded_one ++ names) ∧
    rows Sample.processed_one =
      zip_with (λ r o, Pd.keep mask (r ++ o))
        (rows Sample.expanded_one) (rows Sample.one_hot_one) ∧
    length (rows Sample.processed_one) = length (rows Sample.merged_one).
Proof.
  apply (recipe_rows_are_joined_in_order Sample.filtered_one "PP_recipes.csv"
           (Sample.world Sample.pp_recipes_csv Sample.mapping_csv)
           _ Sample.pp_recipes_csv Sample.merged_one Sample.techniques_one
           Sample.expanded_one Sample.one_hot_one Sample.processed_one);
    vm_compute; reflexivity.
Defined.

(** ** What a run of [main] leaves behind *)

Lemma bind_inv {A B} (m : M A) (k : A → M B) w w' b :
  (m ≫= k) w = (w', Ok b) → ∃ a w1, m w = (w1, Ok a) ∧ k a w1 = (w', Ok b).
Proof.
  unfold mbind, M_bind. destruct (m w) as [w1 [a|e]]; [eauto|done].
Qed.

Create HintDb silent discriminated.

Lemma silent_ret {A} (a : A) : silent (mret a).
Proof. by intros w. Qed.

Lemma silent_lift {A} (r : result A) : silent (lift r).
Proof. by intros w. Qed.

Lemma silent_read_csv path : silent (read_csv path).
Proof. intros w. unfold read_csv. by destruct (files w !! path). Qed.

Lemma silent_alloc df : silent (alloc df).
Proof. by intros w. Qed.

Lemma silent_load r : silent (load r).
Proof. intros w. unfold load. by destruct (heap w !! r). Qed.

Lemma silent_modify r f : silent (modify r f).
Proof. intros w. unfold modify. by destruct (heap w !! r). Qed.

Lemma silent_bind {A B} (m : M A) (k : A → M B) :
  silent m → (∀ a, silent (k a)) → silent (m ≫= k).
Proof.
  intros Hm Hk w. unfold mbind, M_bind.
  specialize (Hm w). destruct (m w) as [w1 [a|e]]; simpl in *.
  - by rewrite Hk.
  - done.
Qed.

Lemma silent_for_each {A} (body : A → M unit) l :
  (∀ a, silent (body a)) → silent (for_each body l).
Proof.
  intros Hb. induction l as [|a l IH]; simpl.
  - apply silent_ret.
  - apply silent_bind; auto.
Qed.

#[local] Hint Resolve silent_ret silent_lift silent_read_csv silent_alloc
  silent_load silent_modify silent_for_each : silent.

Ltac silent :=
  repeat first
    [ apply silent_bind; [|intros ?]
    | apply silent_for_each; intros ?
    | progress eauto with silent
    | match goal with |- silent (let '(_, _) := ?p in _) => destruct p end ].

Lemma silent_filter_interactions csv_file : silent (filter_interactions csv_file).
Proof. unfold filter_interactions. silent. Qed.

Lemma silent_filter_ingredient_mapping csv r :
  silent (filter_ingredient_mapping csv r).
Proof. unfold filter_ingredient_mapping. silent. Qed.

#[local] Hint Resolve silent_filter_interactions
  silent_filter_ingredient_mapping : silent.

Lemma silent_process_recipe_data df csv : silent (process_recipe_data df csv).
Proof. unfold process_recipe_data. silent. Qed.

Lemma silent_process_raw_recipes csv df : silent (process_raw_recipes csv df).
Proof. unfold process_raw_recipes. silent. Qed.

(** A step that neither prints nor writes *)
Lemma quiet_step {A} (m : M A) w w1 a :
  keeps_files m → silent m → m w = (w1, Ok a) →
  files w1 = files w ∧ stdout w1 = stdout w.
Proof.
  intros Hk Hs H. specialize (Hk w). specialize (Hs w). rewrite H in Hk, Hs.
  done.
Qed.

Lemma print_step o w w1 a :
  print o w = (w1, Ok a) →
  files w1 = files w ∧ length (stdout w1) = S (length (stdout w)).
Proof.
  unfold print. intros [= <- _]. cbn. rewrite length_app. cbn. split; [done|lia].
Qed.

(** X18. A run of [main] that ends normally has changed the files only by
    writing final_dataset.csv, whose header ends with the seven nutrition
    names in their fixed order, and has added twelve items to the output:
    the reports of [main] itself, none from the functions it calls. *)
Theorem main_writes_the_nutrition_columns w w' :
  main w = (w', Ok tt) →
  ∃ t cols,
    files w' = <["final_dataset.csv" := t]> (files w) ∧
    header t =
      cols ++ ["calories"; "percent_fat"; "percent_sugar"; "percent_sodium";
               "percent_protein"; "percent_sat_fat"; "percent_carb"] ∧
    length (stdout w') = (length (stdout w) + 12)%nat.
Proof.
  unfold main. intros H.
  apply bind_inv in H as (filtered_df & w1 & Hfi & H).
  apply (quiet_step _ _ _ _ (keeps_filter_interactions _)
           (silent_filter_interactions _)) in Hfi as [Ffi Sfi].
  do 6 (let Hp := fresh "Hp" in
        apply bind_inv in H as (? & ? & Hp & H); apply print_step in Hp as [? ?]).
  apply bind_inv in H as (processed_df & w8 & Hprd & H).
  apply (quiet_step _ _ _ _ (keeps_process_recipe_data _ _)
           (silent_process_recipe_data _ _)) in Hprd as [Fprd Sprd].
  apply bind_inv in H as (longer_processed_df & w9 & Hprr & H).
  apply (quiet_step _ _ _ _ (keeps_process_raw_recipes _ _)
           (silent_process_raw_recipes _ _)) in Hprr as [Fprr Sprr].
  apply bind_lift_inv in H as (added_nutrition_df & Hn & H).
  do 6 (let Hp := fresh "Hp" in
        apply bind_inv in H as (? & ? & Hp & H); apply print_step in Hp as [? ?]).
  unfold to_csv in H. injection H as <-.
  destruct (nutrition_columns_of_result _ _ Hn) as [Hcols _].
  eexists _, _. cbn [files stdout]. split; [|split].
  - f_equal. congruence.
  - cbn [Pd.to_csv_table header]. rewrite Hcols, fmap_app. reflexivity.
  - apply (f_equal length) in Sfi, Sprd, Sprr. lia.
Qed.

Lemma main_writes_the_nutrition_columns_witness :
  ∃ w',
    main (Sample.world Sample.pp_recipes_csv Sample.mapping_csv) = (w', Ok tt) ∧
    ∃ t cols,
      files w' = <["final_dataset.csv" := t]>
                   (files (Sample.world Sample.pp_recipes_csv Sample.mapping_csv)) ∧
      header t =
        cols ++ ["calories"; "percent_fat"; "percent_sugar"; "percent_sodium";
                 "percent_protein"; "percent_sat_fat"; "percent_carb"] ∧
      length (stdout w') =
        (length (stdout (Sample.world Sample.pp_recipes_csv Sample.mapping_csv))
         + 12)%nat.
Proof.
  eexists. split; [vm_compute; reflexivity|].
  apply (main_writes_the_nutrition_columns
           (Sample.world Sample.pp_recipes_csv Sample.mapping_csv)).
  vm_compute. reflexivity.
Defined.

(** ** Inputs that end a run *)






(** The first loop stops at the first column name that [int] refuses. *)
Lemma gather_rows_stops all ids pre c post f0 e :
  Pd.col (SStr "id") all = Ok ids →
  Forall (λ c', ∃ k, label_int c' = Ok k) pre →
  label_int c = Err e →
  gather_rows all (pre ++ c :: post) f0 = Err e.
Proof.
  intros Hid Hpre Hc. revert f0.
  induction Hpre as [|c' pre [k Hk] _ IH]; intros f0; cbn [app gather_rows].
  - unfold rows_with_id. rewrite Hid. cbn [rbind]. by rewrite Hc.
  - unfold rows_with_id at 1. rewrite Hid. cbn [rbind]. rewrite Hk. cbn [rbind].
    apply IH.
Qed.

(** X20. [filter_ingredient_mapping] cannot be applied to a frame whose
    column names are not integers, such as a frame it has renamed before:
    [int(column)] of line 141 raises for the first such name, before any
    column is renamed, and the shared frame and the rest of the world are
    as they were. *)
Theorem column_name_that_is_no_integer_is_fatal
    csv r w t df ids pre c post e :
  files w !! csv = Some t →
  heap w !! r = Some df →
  Pd.col (SStr "id") (Pd.of_csv t) = Ok ids →
  columns df = pre ++ c :: post →
  Forall (λ c', ∃ k, label_int c' = Ok k) pre →
  label_int c = Err e →
  filter_ingredient_mapping csv r w = (w, Err e).
Proof.
  intros Hf Hr Hid Hcols Hpre Hc. unfold filter_ingredient_mapping.
  rewrite (bind_ok _ _ _ _ _ (read_csv_run _ _ _ Hf)).
  rewrite (bind_ok _ _ _ _ _ (load_run _ _ _ Hr)).
  erewrite bind_lift_err; [done|]. rewrite Hcols.
  by eapply gather_rows_stops.
Qed.

Lemma column_name_that_is_no_integer_is_fatal_witness :
  filter_ingredient_mapping "ingredient_mapping.csv" 0%nat
    {| files := <["ingredient_mapping.csv" := Sample.mapping_csv]> ∅;
       heap := [Sample.one_hot_renamed];
       stdout := [] |}
  = ({| files := <["ingredient_mapping.csv" := Sample.mapping_csv]> ∅;
        heap := [Sample.one_hot_renamed];
        stdout := [] |}, Err ValueError).
Proof.
  apply (column_name_that_is_no_integer_is_fatal "ingredient_mapping.csv" 0%nat
           _ Sample.mapping_csv Sample.one_hot_renamed
           [Sc (SInt 5); Sc (SInt 9); Sc (SInt 3)] [] (SStr "salt") [SStr "salt"]);
    try (vm_compute; reflexivity).
  constructor.
Defined.
